(** * Hy2DL: the optimizer manager and the CAMELS-DE / CARAVAN dataset adapter

    A shallow embedding of [hy2dl/aux_functions/utils.py] and
    [hy2dl/datasetzoo/camelsde_caravan.py].

    The Python code is glue over torch, numpy, pandas and the operating
    system.  The embedding keeps the glue as it is written and takes the
    libraries as interfaces (type classes): every library call may raise,
    and a call that mutates an object returns the object's new state.
    Python's own data (strings, dicts, exceptions, object attributes) is
    modelled concretely. *)

From Stdlib Require Import ZArith Ascii String Floats.PrimFloat.
From stdpp Require Import gmap strings list sorting pretty.

Local Open Scope string_scope.
Local Open Scope list_scope.
Local Open Scope Z_scope.

(** ** Python values, exceptions and results *)

Module Py.

(** An exception instance: its class name and [str(e)].  Only instances of
    [Exception] are modelled; [KeyboardInterrupt] and [SystemExit] do not
    come from the code. *)
Record exn := Exn { exn_class : string; exn_str : string }.

Definition ValueError (msg : string) : exn := Exn "ValueError" msg.
Definition UnboundLocalError (msg : string) : exn := Exn "UnboundLocalError" msg.
Definition AttributeError (msg : string) : exn := Exn "AttributeError" msg.
Definition KeyError (msg : string) : exn := Exn "KeyError" msg.
Definition ReferenceError (msg : string) : exn := Exn "ReferenceError" msg.

(** The outcome of evaluating an expression or a call. *)
Inductive result (A : Type) : Type :=
| Return (a : A)
| Raise (e : exn).
Arguments Return {A} a.
Arguments Raise {A} e.

(** The scalars of a configuration: [None], [int], [float], [str]. *)
Inductive scalar : Type :=
| SNone
| SInt (z : Z)
| SFloat (f : float)
| SStr (s : string).

(** A configuration value, [Union[int, float, str, dict]].  The only dict
    the code looks into is the custom learning-rate schedule, whose keys are
    compared with the [int] epoch: a dict is keyed by epochs. *)
Inductive value : Type :=
| VScalar (x : scalar)
| VDict (d : gmap Z scalar).

(** [isinstance(v, float)] for [v = cfg.get(key)]: a missing key is [None]. *)
Definition isinstance_float (v : option value) : bool :=
  match v with
  | Some (VScalar (SFloat _)) => true
  | _ => false
  end.

(** [isinstance(v, Dict)] *)
Definition isinstance_Dict (v : option value) : bool :=
  match v with
  | Some (VDict _) => true
  | _ => false
  end.

(** [dict.get(key)]: [None] when the key is absent. *)
Definition dict_get (cfg : gmap string value) (key : string) : value :=
  default (VScalar SNone) (cfg !! key).

(** *** [str] methods *)

(** [c.lower()] on the ASCII range. *)
Definition ascii_lower (c : ascii) : ascii :=
  let n := nat_of_ascii c in
  if ((65 <=? n)%nat && (n <=? 90)%nat)%bool then ascii_of_nat (n + 32) else c.

(** [s.lower()] *)
Fixpoint lower (s : string) : string :=
  match s with
  | EmptyString => EmptyString
  | String c s' => String (ascii_lower c) (lower s')
  end.

(** [s.split(sep)] for a non-empty [sep]: the segment that is being read
    and the segments after it.  [skip] counts the characters of a matched
    separator that are still to be passed over. *)
Fixpoint split_go (sep : string) (skip : nat) (s : string) : string * list string :=
  match s with
  | EmptyString => (EmptyString, [])
  | String c s' =>
      match skip with
      | S n => split_go sep n s'
      | O =>
          if String.prefix sep s
          then (EmptyString,
                let '(x, xs) := split_go sep (String.length sep - 1) s' in x :: xs)
          else let '(x, xs) := split_go sep 0 s' in (String c x, xs)
      end
  end.

(** [s.split(sep)]; an empty separator is a [ValueError]. *)
Definition split (s sep : string) : result (list string) :=
  match sep with
  | EmptyString => Raise (ValueError "empty separator")
  | _ => let '(x, xs) := split_go sep 0 s in Return (x :: xs)
  end.

(** [s.replace(old, new)] for a non-empty [old]: every occurrence, left to
    right, without overlap. *)
Fixpoint replace_go (old new : string) (skip : nat) (s : string) : string :=
  match s with
  | EmptyString => EmptyString
  | String c s' =>
      match skip with
      | S n => replace_go old new n s'
      | O =>
          if String.prefix old s
          then String.append new (replace_go old new (String.length old - 1) s')
          else String c (replace_go old new 0 s')
      end
  end.

(** With an empty [old], Python puts [new] before every character and at
    the end. *)
Fixpoint replace_empty (new : string) (s : string) : string :=
  match s with
  | EmptyString => new
  | String c s' => String.append new (String c (replace_empty new s'))
  end.

Definition replace (s old new : string) : string :=
  match old with
  | EmptyString => replace_empty new s
  | _ => replace_go old new 0 s
  end.

(** [old in s] *)
Fixpoint contains (old : string) (s : string) : bool :=
  String.prefix old s ||
  match s with
  | EmptyString => false
  | String _ s' => contains old s'
  end.

(** [str(n)] for an [int]. *)
Definition str_of_int (n : Z) : string := pretty n.

(** [sorted(keys, reverse=True)] on [int] keys: insertion into a
    descending list. *)
Fixpoint insert_desc (k : Z) (l : list Z) : list Z :=
  match l with
  | [] => [k]
  | x :: l' => if x <=? k then k :: l else x :: insert_desc k l'
  end.

Definition sorted_reverse (l : list Z) : list Z := foldr insert_desc [] l.

End Py.
Export Py.

(** ** Results threaded through a state

    A call that may mutate the world and may raise: the world is kept when
    an exception is raised, with whatever was mutated before the raise. *)

Definition M (S A : Type) : Type := S → result A * S.

Global Instance M_ret {S} : MRet (M S) := λ A a s, (Return a, s).

Global Instance M_bind {S} : MBind (M S) := λ A B k m s,
  match m s with
  | (Return a, s') => k a s'
  | (Raise e, s') => (Raise e, s')
  end.

(** [raise e] *)
Definition raise {S A} (e : exn) : M S A := λ s, (Raise e, s).

(** A call that does not touch the state. *)
Definition call {S A} (r : result A) : M S A := λ s, (r, s).

(** [try: body  except Exception as e: handler(e)] *)
Definition try_except {S A} (body : M S A) (handler : exn → M S A) : M S A := λ s,
  match body s with
  | (Return a, s') => (Return a, s')
  | (Raise e, s') => handler e s'
  end.

(** A [for] loop whose body updates an accumulator. *)
Fixpoint for_each {S A B} (xs : list A) (body : B → A → M S B) (acc : B) : M S B :=
  match xs with
  | [] => mret acc
  | x :: xs' => acc' ← body acc x; for_each xs' body acc'
  end.

(** A list comprehension or an appending loop. *)
Fixpoint for_list {S A B} (xs : list A) (body : A → M S B) : M S (list B) :=
  match xs with
  | [] => mret []
  | x :: xs' => y ← body x; ys ← for_list xs' body; mret (y :: ys)
  end.

(** A list comprehension with a condition: [[x for x in xs if test(x)]]. *)
Fixpoint for_filter {S A} (xs : list A) (test : A → M S bool) : M S (list A) :=
  match xs with
  | [] => mret []
  | x :: xs' =>
      keep ← test x;
      ys ← for_filter xs' test;
      mret (if keep : bool then x :: ys else ys)
  end.

(** ** The libraries *)

(** The identity of a mutable object shared between its holders. *)
Definition loc := positive.

(** A [torch.optim.Optimizer]: its parameter groups (the dicts that hold
    ["lr"]), its internal state, and the parameters it was built on. *)
Record torch_optimizer (OptState : Type) : Type := TorchOptimizer {
  param_groups : list (gmap string scalar);
  opt_state : OptState;
  opt_params : loc
}.
Arguments TorchOptimizer {OptState} _ _ _.
Arguments param_groups {OptState} _.
Arguments opt_state {OptState} _.
Arguments opt_params {OptState} _.

(** The tensors behind [model.parameters()]: the values and their [.grad]. *)
Record param_state (Tensor : Type) : Type := ParamState {
  p_data : Tensor;
  p_grad : Tensor
}.
Arguments ParamState {Tensor} _ _.
Arguments p_data {Tensor} _.
Arguments p_grad {Tensor} _.

(** torch, as far as the code calls it. *)
Class Torch := {
  Tensor : Type;
  (** an entry of a sample dict: a tensor, a basin name, a date *)
  Obj : Type;
  OptState : Type;
  LRScheduler : Type;
  (** [torch.optim.Adam(params, lr=lr)] *)
  Adam : loc → value → result (torch_optimizer OptState);
  (** [torch.optim.lr_scheduler.StepLR(optimizer, step_size=, gamma=)]; the
      constructor also writes into the optimizer it is given *)
  StepLR : torch_optimizer OptState → value → value →
           result (LRScheduler * torch_optimizer OptState);
  (** [scheduler.step()], on the scheduler and the optimizer it refers to *)
  scheduler_step : LRScheduler → torch_optimizer OptState →
                   result unit * (LRScheduler * torch_optimizer OptState);
  (** [torch.nn.utils.clip_grad_norm_(parameters, max_norm, error_if_nonfinite)]:
      reads and rescales the gradients in place *)
  clip_grad_norm_ : Tensor → Z → bool → result unit * Tensor;
  (** [optimizer.step()], on the optimizer and its parameters *)
  optimizer_step : torch_optimizer OptState → param_state Tensor →
                   result unit * (torch_optimizer OptState * param_state Tensor);
  (** [x.to(device)] *)
  tensor_to : Obj → string → result Obj
}.

(** The random generators of [random], [numpy] and [torch]. *)
Class Random := {
  RandomGen : Type;
  NumpyGen : Type;
  TorchGen : Type;
  CudaGen : Type;
  (** [random.seed(seed)] *)
  random_seed : Z → RandomGen → result unit * RandomGen;
  (** [np.random.seed(seed)] *)
  np_random_seed : Z → NumpyGen → result unit * NumpyGen;
  (** [torch.cuda.manual_seed(seed)] *)
  torch_cuda_manual_seed : Z → CudaGen → result unit * CudaGen;
  (** [torch.manual_seed(seed)] *)
  torch_manual_seed : Z → TorchGen → result unit * TorchGen;
  (** [np.random.uniform(low=, high=)] *)
  np_random_uniform : float → float → NumpyGen → result float * NumpyGen;
  (** [int(x)] of a float *)
  int_of_float : float → result Z
}.

(** A [pathlib.Path]: its segments; [p / s] appends one. *)
Definition Path := list string.

(** The operating system: [os], [open] and [pathlib]. *)
Class OS := {
  FS : Type;
  File : Type;
  (** [os.path.exists(path)]: [False] on any [OSError] *)
  os_path_exists : string → FS → bool;
  (** [os.makedirs(path)] *)
  os_makedirs : string → FS → result unit * FS;
  (** [open(path, mode)] *)
  open_ : string → string → FS → result File * FS;
  (** [f.write(text)] *)
  file_write : File → string → FS → result unit * FS;
  (** [f.close()] *)
  file_close : File → FS → result unit * FS;
  (** [p.exists()]: an [OSError] other than "not found" is raised *)
  path_exists : Path → FS → result bool;
  (** [p.is_dir()] *)
  path_is_dir : Path → FS → result bool;
  (** [list(p.glob(pattern))] *)
  path_glob : Path → string → FS → result (list Path)
}.

(** The keyword arguments of [pd.read_csv] that the code passes. *)
Record read_csv_args := ReadCsvArgs {
  sep : option string;
  header : option Z;
  dtype : list (string * string);
  parse_dates : list string;
  index_col : option string
}.

(** pandas, as far as the code calls it.  An index is a list of string
    labels (gauge ids, dates). *)
Class Pandas {Os : OS} := {
  DataFrame : Type;
  Series : Type;
  (** [pd.read_csv(path, ...)] *)
  read_csv : Path → read_csv_args → FS → result DataFrame;
  (** [df.set_index(col, inplace=True)] *)
  set_index : DataFrame → string → result DataFrame;
  (** [pd.concat(dfs, axis=axis)] *)
  concat : list DataFrame → Z → result DataFrame;
  (** [df.columns] *)
  df_columns : DataFrame → list string;
  (** [df[column]] *)
  df_getitem : DataFrame → string → result Series;
  (** [series.dtype], by name *)
  series_dtype : Series → string;
  (** [pd.factorize(series, sort=sort)]: the codes; the uniques are dropped *)
  factorize : Series → bool → result Series;
  (** [df[column] = series] *)
  df_setitem : DataFrame → string → Series → result DataFrame;
  (** [df.index] *)
  df_index : DataFrame → list string;
  (** [df.index = labels] *)
  df_set_index_labels : DataFrame → list string → result DataFrame;
  (** [left.join(right, how=how, lsuffix=lsuffix, rsuffix=rsuffix)] *)
  df_join : DataFrame → DataFrame → string → string → string → result DataFrame;
  (** [df.loc[rows, cols]] *)
  df_loc : DataFrame → list string → option (list string) → result DataFrame
}.

(** The name of a column after a join: the suffix is added when the other
    table has a column of the same name. *)
Definition suffixed (others : list string) (suffix : string) (column : string) : string :=
  if bool_decide (column ∈ others) then column +:+ suffix else column.

(** What the pandas documentation says of the calls that merge and select,
    as far as the statements on index alignment need it. *)
Class PandasLaws {Os : OS} {Pd : Pandas} : Prop := {
  (** an outer join has the labels of both tables *)
  join_outer_index l r lsuffix rsuffix j :
    df_join l r "outer" lsuffix rsuffix = Return j →
    ∀ i, i ∈ df_index j ↔ i ∈ df_index l ∨ i ∈ df_index r;
  (** the columns of the left table, then those of the right table *)
  join_columns l r how lsuffix rsuffix j :
    df_join l r how lsuffix rsuffix = Return j →
    df_columns j = (suffixed (df_columns r) lsuffix <$> df_columns l)
                   ++ (suffixed (df_columns l) rsuffix <$> df_columns r);
  (** assigning the index *)
  set_index_labels_index t labels r :
    df_set_index_labels t labels = Return r → df_index r = labels;
  (** [.loc] with a list of labels raises on a label that is not in the
      index, and returns the rows of the labels *)
  loc_rows t rows cols r :
    df_loc t rows cols = Return r →
    (∀ i, i ∈ rows → i ∈ df_index t) ∧ (∀ i, i ∈ df_index r ↔ i ∈ rows)
}.

(** ** The world the code runs in *)

Section Model.
Context {Tc : Torch} {Rn : Random} {Os : OS} {Pd : Pandas}.

(** The process-wide random generators. *)
Record rng_state := RngState {
  random_gen : RandomGen;
  numpy_gen : NumpyGen;
  torch_gen : TorchGen;
  cuda_gen : CudaGen
}.

(** Everything a call can read or mutate outside its own locals: the
    generators, standard output, the file system, the parameter tensors of
    the modules and the dicts that are passed around by reference. *)
Record World := MkWorld {
  w_rng : rng_state;
  w_stdout : list string;
  w_fs : FS;
  w_params : gmap loc (param_state Tensor);
  w_dicts : gmap loc (list (string * Obj))
}.

Definition set_rng (f : rng_state → rng_state) (w : World) : World :=
  MkWorld (f (w_rng w)) (w_stdout w) (w_fs w) (w_params w) (w_dicts w).
Definition set_stdout (f : list string → list string) (w : World) : World :=
  MkWorld (w_rng w) (f (w_stdout w)) (w_fs w) (w_params w) (w_dicts w).
Definition set_fs (f : FS → FS) (w : World) : World :=
  MkWorld (w_rng w) (w_stdout w) (f (w_fs w)) (w_params w) (w_dicts w).
Definition set_params (f : gmap loc (param_state Tensor) → gmap loc (param_state Tensor))
    (w : World) : World :=
  MkWorld (w_rng w) (w_stdout w) (w_fs w) (f (w_params w)) (w_dicts w).
Definition set_dicts (f : gmap loc (list (string * Obj)) → gmap loc (list (string * Obj)))
    (w : World) : World :=
  MkWorld (w_rng w) (w_stdout w) (w_fs w) (w_params w) (f (w_dicts w)).

(** [print(line)] *)
Definition print (line : string) : M World unit := λ w,
  (Return tt, set_stdout (λ out, (out ++ [line])%list) w).

(** A call that reads the file system. *)
Definition read_fs {A} (f : FS → A) : M World A := λ w, (Return (f (w_fs w)), w).

(** A call that may fail on the file system, without writing. *)
Definition try_fs {A} (f : FS → result A) : M World A := λ w, (f (w_fs w), w).

(** A call that writes to the file system. *)
Definition with_fs {A} (f : FS → result A * FS) : M World A := λ w,
  let '(r, fs) := f (w_fs w) in (r, set_fs (λ _, fs) w).

(** Calls on the generators. *)
Definition with_random {A} (f : RandomGen → result A * RandomGen) : M World A := λ w,
  let '(r, g) := f (random_gen (w_rng w)) in
  (r, set_rng (λ s, RngState g (numpy_gen s) (torch_gen s) (cuda_gen s)) w).
Definition with_numpy {A} (f : NumpyGen → result A * NumpyGen) : M World A := λ w,
  let '(r, g) := f (numpy_gen (w_rng w)) in
  (r, set_rng (λ s, RngState (random_gen s) g (torch_gen s) (cuda_gen s)) w).
Definition with_torch {A} (f : TorchGen → result A * TorchGen) : M World A := λ w,
  let '(r, g) := f (torch_gen (w_rng w)) in
  (r, set_rng (λ s, RngState (random_gen s) (numpy_gen s) g (cuda_gen s)) w).
Definition with_cuda {A} (f : CudaGen → result A * CudaGen) : M World A := λ w,
  let '(r, g) := f (cuda_gen (w_rng w)) in
  (r, set_rng (λ s, RngState (random_gen s) (numpy_gen s) (torch_gen s) g) w).

(** *** Python dicts held by reference *)

(** [d[key]] on the entries of a dict, in insertion order. *)
Fixpoint entries_get (d : list (string * Obj)) (key : string) : option Obj :=
  match d with
  | [] => None
  | (k, v) :: d' => if decide (k = key) then Some v else entries_get d' key
  end.

(** [d[key] = v]: an existing key keeps its place, a new key goes last. *)
Fixpoint entries_set (d : list (string * Obj)) (key : string) (v : Obj)
    : list (string * Obj) :=
  match d with
  | [] => [(key, v)]
  | (k, x) :: d' =>
      if decide (k = key) then (k, v) :: d' else (k, x) :: entries_set d' key v
  end.

(** The entries behind a reference.  Every reference a program holds is
    allocated; the error case keeps the function total. *)
Definition load_dict (l : loc) : M World (list (string * Obj)) := λ w,
  match w_dicts w !! l with
  | Some d => (Return d, w)
  | None => (Raise (ReferenceError "dict"), w)
  end.

Definition store_dict (l : loc) (d : list (string * Obj)) : M World unit := λ w,
  (Return tt, set_dicts (<[l := d]>) w).

(** [sample[key]] *)
Definition dict_getitem (l : loc) (key : string) : M World Obj :=
  d ← load_dict l;
  match entries_get d key with
  | Some v => mret v
  | None => raise (KeyError key)
  end.

(** [sample[key] = v] *)
Definition dict_setitem (l : loc) (key : string) (v : Obj) : M World unit :=
  d ← load_dict l;
  store_dict l (entries_set d key v).

(** ** hy2dl/aux_functions/utils.py *)

(** *** class Optimizer *)

(** The attributes of an [Optimizer] object.  [scheduler] is assigned in
    the "scheduler" mode only, and no line of the class assigns [model]:
    both may be absent. *)
Record Optimizer := MkOptimizer {
  learning_rate : value;
  optimizer : torch_optimizer OptState;
  learning_rate_type : string;
  scheduler : option LRScheduler;
  model : option loc
}.

(** [model.parameters()]: the generator refers to the module's own tensors. *)
Definition parameters (model : loc) : loc := model.

(** Reading a local variable that no executed line has assigned. *)
Definition load_local {A} (name : string) (x : option A) : result A :=
  match x with
  | Some a => Return a
  | None => Raise (UnboundLocalError name)
  end.

(** [key in model_configuration] *)
Definition key_in (key : string) (cfg : gmap string value) : bool :=
  bool_decide (is_Some (cfg !! key)).

(** [model_configuration[key]] *)
Definition cfg_getitem (cfg : gmap string value) (key : string) : result value :=
  match cfg !! key with
  | Some v => Return v
  | None => Raise (KeyError key)
  end.

(** The loop of [_find_learning_rate] over the sorted keys; falling off
    the loop, the function returns [None]. *)
Fixpoint find_learning_rate_loop (d : gmap Z scalar) (epoch : Z) (sorted_keys : list Z)
    : result scalar :=
  match sorted_keys with
  | [] => Return SNone
  | key :: rest =>
      if epoch >=? key
      then match d !! key with
           | Some v => Return v
           | None => Raise (KeyError (str_of_int key))
           end
      else find_learning_rate_loop d epoch rest
  end.

(** [Optimizer._find_learning_rate(self, epoch)], on [self.learning_rate]
    (the only attribute it reads; [__init__] calls it before the other
    attributes exist). *)
Definition _find_learning_rate (self_learning_rate : value) (epoch : Z) : result scalar :=
  match self_learning_rate with
  | VDict d =>
      let sorted_keys := sorted_reverse (map_to_list d).*1 in
      find_learning_rate_loop d epoch sorted_keys
  | VScalar _ => Raise (AttributeError "keys")
  end.

(** [Optimizer.__init__(self, model, model_configuration, optimizer=None)]:
    the attributes of the new object, or the exception. *)
Definition __init__ (model : loc) (model_configuration : gmap string value)
    (optimizer : option string) : M World Optimizer :=
  (* At the time, only Adam is supported *)
  let optimizer_class :=
    match optimizer with
    | None => Some Adam
    | Some name => if decide (lower name = "adam") then Some Adam else None
    end in
  if isinstance_float (model_configuration !! "learning_rate")
     && negb (key_in "adapt_learning_rate_epoch" model_configuration)
     && negb (key_in "adapt_gamma_learning_rate" model_configuration)
  then
    let self_learning_rate := dict_get model_configuration "learning_rate" in
    cls ← call (load_local "optimizer_class" optimizer_class);
    self_optimizer ← call (cls (parameters model) self_learning_rate);
    mret (MkOptimizer self_learning_rate self_optimizer "constant" None None)
  else if isinstance_float (model_configuration !! "learning_rate")
     && key_in "adapt_learning_rate_epoch" model_configuration
     && key_in "adapt_gamma_learning_rate" model_configuration
  then
    let self_learning_rate := dict_get model_configuration "learning_rate" in
    cls ← call (load_local "optimizer_class" optimizer_class);
    self_optimizer ← call (cls (parameters model) self_learning_rate);
    step_size ← call (cfg_getitem model_configuration "adapt_learning_rate_epoch");
    gamma ← call (cfg_getitem model_configuration "adapt_gamma_learning_rate");
    '(self_scheduler, self_optimizer) ← call (StepLR self_optimizer step_size gamma);
    mret (MkOptimizer self_learning_rate self_optimizer "scheduler"
            (Some self_scheduler) None)
  else if isinstance_Dict (model_configuration !! "learning_rate")
  then
    let self_learning_rate := dict_get model_configuration "learning_rate" in
    cls ← call (load_local "optimizer_class" optimizer_class);
    lr ← call (_find_learning_rate self_learning_rate 1);
    self_optimizer ← call (cls (parameters model) (VScalar lr));
    mret (MkOptimizer self_learning_rate self_optimizer "custom_scheduler" None None)
  else
    raise (ValueError "Please indicate a valid type of learning rate in the configuration.").

(** A method of [Optimizer] runs on [self] and the world, and may assign
    attributes of [self]. *)
Abbreviation Method := (M (Optimizer * World)).

(** A call on the world from inside a method. *)
Definition world {A} (m : M World A) : Method A := λ '(self, w),
  let '(r, w') := m w in (r, (self, w')).

(** [self.attr] for an attribute that [__init__] always assigns. *)
Definition getattr {A} (attr : Optimizer → A) : Method A := λ '(self, w),
  (Return (attr self), (self, w)).

(** [self.attr] for an attribute that may be absent. *)
Definition getattr_opt {A} (name : string) (attr : Optimizer → option A) : Method A :=
  λ '(self, w),
  match attr self with
  | Some a => (Return a, (self, w))
  | None => (Raise (AttributeError name), (self, w))
  end.

Definition set_optimizer (o : torch_optimizer OptState) (self : Optimizer) : Optimizer :=
  MkOptimizer (learning_rate self) o (learning_rate_type self) (scheduler self) (model self).

Definition set_scheduler (s : LRScheduler) (self : Optimizer) : Optimizer :=
  MkOptimizer (learning_rate self) (optimizer self) (learning_rate_type self) (Some s)
    (model self).

(** [self.scheduler.step()]: the scheduler writes into [self.optimizer]. *)
Definition self_scheduler_step (s : LRScheduler) : Method unit := λ '(self, w),
  let '(r, (s', o')) := scheduler_step s (optimizer self) in
  (r, (set_scheduler s' (set_optimizer o' self), w)).

(** [param_group["lr"] = lr] *)
Definition set_lr (lr : scalar) (param_group : gmap string scalar) : gmap string scalar :=
  <["lr" := lr]> param_group.

(** The parameter groups of [self.optimizer] after the loop has written
    into each of them. *)
Definition write_param_groups (groups : list (gmap string scalar)) : Method unit :=
  λ '(self, w),
  let o := optimizer self in
  (Return tt, (set_optimizer (TorchOptimizer groups (opt_state o) (opt_params o)) self, w)).

(** [Optimizer.update_optimizer_lr(self, epoch)] *)
Definition update_optimizer_lr (epoch : Z) : Method unit :=
  self_learning_rate_type ← getattr learning_rate_type;
  if decide (self_learning_rate_type = "scheduler") then
    s ← getattr_opt "scheduler" scheduler;
    self_scheduler_step s
  else if decide (self_learning_rate_type = "custom_scheduler") then
    self_optimizer ← getattr optimizer;
    self_learning_rate ← getattr learning_rate;
    groups ← for_list (param_groups self_optimizer) (λ param_group,
               lr ← call (_find_learning_rate self_learning_rate epoch);
               mret (set_lr lr param_group));
    write_param_groups groups
  else mret tt.

(** [torch.nn.utils.clip_grad_norm_(parameters=params, max_norm=, error_if_nonfinite=)]
    on the tensors behind [params]. *)
Definition clip_params (params : loc) (max_norm : Z) (error_if_nonfinite : bool)
    : M World unit :=
  λ w,
  match w_params w !! params with
  | Some ps =>
      let '(r, g) := clip_grad_norm_ (p_grad ps) max_norm error_if_nonfinite in
      (r, set_params (<[params := ParamState (p_data ps) g]>) w)
  | None => (Raise (ReferenceError "parameters"), w)
  end.

(** [self.optimizer.step()]: the optimizer updates its own state and the
    parameters it was built on. *)
Definition self_optimizer_step : Method unit := λ '(self, w),
  let params := opt_params (optimizer self) in
  match w_params w !! params with
  | Some ps =>
      let '(r, (o', ps')) := optimizer_step (optimizer self) ps in
      (r, (set_optimizer o' self, set_params (<[params := ps']>) w))
  | None => (Raise (ReferenceError "parameters"), (self, w))
  end.

(** The two lines printed by the handler. *)
Definition skipped_message (epoch batch : Z) : string :=
  "Batch " +:+ str_of_int batch +:+ " in Epoch " +:+ str_of_int epoch
    +:+ " was skipped during optimization due to gradient instability.".

Definition error_message (e : exn) : string := "Error: " +:+ exn_str e.

(** The body of the [try] in [clip_grad_and_step]. *)
Definition try_clip : Method bool :=
  self_model ← getattr_opt "model" model;
  world (clip_params (parameters self_model) 1 true);;
  mret true.

(** The handler of [clip_grad_and_step], which returns from the method. *)
Definition except_skip (epoch batch : Z) (e : exn) : Method bool :=
  world (print (skipped_message epoch batch));;
  world (print (error_message e));;
  mret false.

(** [Optimizer.clip_grad_and_step(self, epoch, batch)]; [clipped] tells
    whether the [try] body ran to its end. *)
Definition clip_grad_and_step (epoch batch : Z) : Method unit :=
  clipped ← try_except try_clip (except_skip epoch batch);
  if clipped : bool then self_optimizer_step else mret tt.

(** *** Module-level functions *)

(** [create_folder(folder_path)] *)
Definition create_folder (folder_path : string) : M World unit :=
  found ← read_fs (os_path_exists folder_path);
  if negb found then
    with_fs (os_makedirs folder_path);;
    print ("Folder '" +:+ folder_path +:+ "' created successfully.")
  else
    print ("Folder '" +:+ folder_path +:+ "' already exists.").

(** [key not in ("basin", "date")] *)
Definition is_tensor_key (key : string) : bool :=
  negb (bool_decide (key ∈ ["basin"; "date"])).

(** The loop of [upload_to_device] over [sample.keys()].  Assigning to a
    key that exists does not resize the dict, so the iteration goes over
    the keys the dict had at the start. *)
Fixpoint upload_loop (sample : loc) (device : string) (keys : list string) : M World unit :=
  match keys with
  | [] => mret tt
  | key :: rest =>
      (if is_tensor_key key then
         v ← dict_getitem sample key;
         v' ← call (tensor_to v device);
         dict_setitem sample key v'
       else mret tt);;
      upload_loop sample device rest
  end.

(** [upload_to_device(sample, device)]: the dict is received and returned
    by reference. *)
Definition upload_to_device (sample : loc) (device : string) : M World loc :=
  d ← load_dict sample;
  upload_loop sample device d.*1;;
  mret sample.

(** [set_random_seed(seed=None)] *)
Definition set_random_seed (seed : option Z) : M World unit :=
  seed ← match seed with
         | None =>
             x ← with_numpy (np_random_uniform 0%float 1e6%float);
             call (int_of_float x)
         | Some seed => mret seed
         end;
  with_random (random_seed seed);;
  with_numpy (np_random_seed seed);;
  with_cuda (torch_cuda_manual_seed seed);;
  with_torch (torch_manual_seed seed).

(** The line feed. *)
Definition newline : string := String (ascii_of_nat 10) EmptyString.

(** [write_report(file_path, text)] *)
Definition write_report (file_path : string) (text : string) : M World unit :=
  found ← read_fs (os_path_exists file_path);
  let append_write := if found : bool then "a" else "w" in
  highscore ← with_fs (open_ file_path append_write);
  with_fs (file_write highscore (text +:+ newline));;
  with_fs (file_close highscore).

(** ** hy2dl/datasetzoo/camelsde_caravan.py *)

(** The attributes of a [UnifiedCAMELSDE_CARAVAN] object that its methods
    read.  [entities_ids] and [static_input] are assigned by the base
    class [BaseDataset]. *)
Record UnifiedCAMELSDE_CARAVAN := MkDataset {
  path_camelsde : Path;
  path_caravan : Path;
  entities_ids : list string;
  static_input : option (list string)
}.

(** [p / s], for a segment [s] that is one part of the path. *)
Definition path_div (p : Path) (s : string) : Path := (p ++ [s])%list.

(** [xs[0]] *)
Definition getitem0 (xs : list string) : result string :=
  match xs with
  | x :: _ => Return x
  | [] => Raise (Exn "IndexError" "list index out of range")
  end.

(** [UnifiedCAMELSDE_CARAVAN._map_gauge_id(self, gauge_id)] *)
Definition _map_gauge_id (gauge_id : string) : string := "camelsde_" +:+ gauge_id.

(** The body of the encoding loop, on one column:
    [if attrs[column].dtype not in ["float64", "int64"]:
       attrs[column], _ = pd.factorize(attrs[column], sort=True)] *)
Definition encode_column (attrs : DataFrame) (column : string) : M World DataFrame :=
  col ← call (df_getitem attrs column);
  if negb (bool_decide (series_dtype col ∈ ["float64"; "int64"])) then
    col ← call (df_getitem attrs column);
    codes ← call (factorize col true);
    call (df_setitem attrs column codes)
  else mret attrs.

(** "Encode categorical attributes in case there are any": the loop that
    [_read_attributes] runs on each of the two tables. *)
Definition encode_categorical (attrs : DataFrame) : M World DataFrame :=
  for_each (df_columns attrs) encode_column attrs.

Definition camelsde_attributes_args : read_csv_args :=
  ReadCsvArgs (Some ",") (Some 0) [("gauge_id", "str")] [] None.

Definition caravan_attributes_args : read_csv_args :=
  ReadCsvArgs None None [] [] (Some "gauge_id").

Definition timeseries_args : read_csv_args :=
  ReadCsvArgs None None [] ["date"] (Some "date").

(** The body of the loop over the CAMELS-DE files: read one file and make
    "gauge_id" its index. *)
Definition read_camelsde_file (file : Path) : M World DataFrame :=
  df ← try_fs (read_csv file camelsde_attributes_args);
  call (set_index df "gauge_id").

(** "Read CAMELS-DE attributes": the first block of [_read_attributes]. *)
Definition read_camelsde_attributes (self : UnifiedCAMELSDE_CARAVAN) : M World DataFrame :=
  read_files ← try_fs (path_glob (path_camelsde self) "*_attributes.csv");
  camelsde_attrs ← for_list read_files read_camelsde_file;
  camelsde_attrs ← call (concat camelsde_attrs 1);
  encode_categorical camelsde_attrs.

(** [pd.read_csv(csv_file, index_col="gauge_id")] *)
Definition read_caravan_file (csv_file : Path) : M World DataFrame :=
  try_fs (read_csv csv_file caravan_attributes_args).

(** The body of the loop over the sub-directories of CARAVAN: read every
    csv file of one and put the tables side by side. *)
Definition read_subdataset (subdataset_dir : Path) : M World DataFrame :=
  csv_files ← try_fs (path_glob subdataset_dir "*.csv");
  dfr_list ← for_list csv_files read_caravan_file;
  call (concat dfr_list 1).

(** [[d for d in (self.path_caravan / "attributes").glob("*") if d.is_dir()]] *)
Definition list_subdataset_dirs (self : UnifiedCAMELSDE_CARAVAN) : M World (list Path) :=
  entries ← try_fs (path_glob (path_div (path_caravan self) "attributes") "*");
  for_filter entries (λ d, try_fs (path_is_dir d)).

(** "Read CARAVAN attributes": the second block of [_read_attributes]. *)
Definition read_caravan_attributes (self : UnifiedCAMELSDE_CARAVAN) : M World DataFrame :=
  subdataset_dirs ← list_subdataset_dirs self;
  dfs ← for_list subdataset_dirs read_subdataset;
  caravan_attrs ← call (concat dfs 0);
  encode_categorical caravan_attrs.

(** [caravan_attrs.index.str.replace("camelsde_", "")] *)
Definition renamed_index (caravan_attrs : DataFrame) : list string :=
  (λ label, replace label "camelsde_" "") <$> df_index caravan_attrs.

(** [UnifiedCAMELSDE_CARAVAN._read_attributes(self)] *)
Definition _read_attributes (self : UnifiedCAMELSDE_CARAVAN) : M World DataFrame :=
  camelsde_attrs ← read_camelsde_attributes self;
  caravan_attrs ← read_caravan_attributes self;
  caravan_attrs ← call (df_set_index_labels caravan_attrs (renamed_index caravan_attrs));
  merged_attrs ← call (df_join camelsde_attrs caravan_attrs "outer" "" "_caravan");
  call (df_loc merged_attrs (entities_ids self) (static_input self)).

(** The path of the CAMELS-DE time series of a catchment. *)
Definition camelsde_timeseries_path (self : UnifiedCAMELSDE_CARAVAN) (catch_id : string)
    : Path :=
  path_div (path_div (path_camelsde self) "timeseries")
    ("CAMELS_DE_hydromet_timeseries_" +:+ catch_id +:+ ".csv").

(** [UnifiedCAMELSDE_CARAVAN._read_data(self, catch_id)] *)
Definition _read_data (self : UnifiedCAMELSDE_CARAVAN) (catch_id : string)
    : M World DataFrame :=
  let caravan_id := _map_gauge_id catch_id in
  camelsde_ts ← try_fs (read_csv (camelsde_timeseries_path self catch_id) timeseries_args);
  parts ← call (split caravan_id "_");
  first ← call (getitem0 parts);
  let subdataset_name := lower first in
  let caravan_filepath :=
    path_div (path_div (path_div (path_div (path_caravan self) "timeseries") "csv")
                subdataset_name) (caravan_id +:+ ".csv") in
  found ← try_fs (path_exists caravan_filepath);
  if found : bool then
    caravan_ts ← try_fs (read_csv caravan_filepath timeseries_args);
    call (df_join camelsde_ts caravan_ts "outer" "" "_caravan")
  else
    mret camelsde_ts.

End Model.

(** ** A small executable instance of the libraries

    Enough of torch, numpy, the file system and pandas to run the code above
    on concrete inputs.  Tensors are lists of integers with [None] for a
    non-finite entry; a file system maps paths to directories, text files
    and tables. *)

Module Tiny.

Definition tensor := list (option Z).

Definition finite (g : tensor) : bool := forallb (λ x, bool_decide (is_Some x)) g.

Definition clamp (bound : Z) (x : option Z) : option Z :=
  (λ v, Z.max (- bound) (Z.min bound v)) <$> x.

Definition descend (data grad : tensor) : tensor :=
  zip_with (λ x g, match x, g with
                   | Some x, Some g => Some (x - g)
                   | _, _ => None
                   end) data grad.

Definition adam (params : loc) (lr : value) : result (torch_optimizer nat) :=
  match lr with
  | VScalar (SFloat f) => Return (TorchOptimizer [{["lr" := SFloat f]}] 0%nat params)
  | _ => Raise (Exn "TypeError" "lr")
  end.

#[export] Instance torch : Torch := {|
  Tensor := tensor;
  Obj := string;
  OptState := nat;
  LRScheduler := nat;
  Adam := adam;
  StepLR o _ _ := Return (0%nat, o);
  scheduler_step s o := (Return tt, (S s, o));
  clip_grad_norm_ g max_norm error_if_nonfinite :=
    if error_if_nonfinite && negb (finite g)
    then (Raise (Exn "RuntimeError" "non-finite norm"), g)
    else (Return tt, clamp max_norm <$> g);
  optimizer_step o ps :=
    (Return tt,
     (TorchOptimizer (param_groups o) (S (opt_state o)) (opt_params o),
      ParamState (descend (p_data ps) (p_grad ps)) (p_grad ps)));
  tensor_to v device := Return (v +:+ "@" +:+ device)
|}.

#[export] Instance random : Random := {|
  RandomGen := Z;
  NumpyGen := Z;
  TorchGen := Z;
  CudaGen := Z;
  random_seed seed _ := (Return tt, seed);
  np_random_seed seed g :=
    if (0 <=? seed) && (seed <? 2 ^ 32) then (Return tt, seed)
    else (Raise (ValueError "Seed must be between 0 and 2**32 - 1"), g);
  torch_cuda_manual_seed seed _ := (Return tt, seed);
  torch_manual_seed seed _ := (Return tt, seed);
  np_random_uniform low high g := (Return low, g + 1);
  int_of_float _ := Return 0
|}.

(** A table: its index, its columns, and the cells that are not NaN. *)
Record table := Table {
  t_index : list string;
  t_columns : list string;
  t_cells : list (string * string * string)
}.

Inductive node :=
| Dir
| TextFile (content : string)
| CsvFile (t : table).

Definition fs := gmap Path node.

Definition ends_with (suffix name : string) : bool :=
  String.prefix (String.rev suffix) (String.rev name).

(** [p.glob("*suffix")]: the entries directly under [p] whose name ends
    with [suffix]. *)
Definition glob (p : Path) (pattern : string) (files : fs) : list Path :=
  List.filter (λ q : Path,
      match last q with
      | Some name =>
          bool_decide (q = (p ++ [name])%list)
          && ends_with (replace pattern "*" "") name
      | None => false
      end)
    (map_to_list files).*1.

(** A path with a segment of more than 255 characters. *)
Definition too_long (p : Path) : bool :=
  existsb (λ name, (255 <? String.length name)%nat) p.

Definition name_too_long : exn := Exn "OSError" "[Errno 36] File name too long".

Definition append_text (p : Path) (text : string) (files : fs) : result unit * fs :=
  match files !! p with
  | Some (TextFile content) => (Return tt, <[p := TextFile (content +:+ text)]> files)
  | _ => (Raise (ValueError "I/O operation on closed file"), files)
  end.

#[export] Instance os : OS := {|
  FS := fs;
  File := Path;
  os_path_exists p files := bool_decide (is_Some (files !! [p]));
  os_makedirs p files :=
    if bool_decide (is_Some (files !! [p]))
    then (Raise (Exn "FileExistsError" p), files)
    else (Return tt, <[[p] := Dir]> files);
  open_ p mode files :=
    match files !! [p] with
    | Some Dir => (Raise (Exn "IsADirectoryError" p), files)
    | Some _ =>
        if bool_decide (mode = "w") then (Return [p], <[[p] := TextFile ""]> files)
        else (Return [p], files)
    | None => (Return [p], <[[p] := TextFile ""]> files)
    end;
  file_write := append_text;
  file_close _ files := (Return tt, files);
  path_exists p files :=
    if too_long p then Raise name_too_long
    else Return (bool_decide (is_Some (files !! p)));
  path_is_dir p files :=
    if too_long p then Raise name_too_long
    else Return (match files !! p with Some Dir => true | _ => false end);
  path_glob p pattern files :=
    if too_long p then Raise name_too_long else Return (glob p pattern files)
|}.

Definition rename_cells (theirs : list string) (suffix : string)
    (cells : list (string * string * string)) : list (string * string * string) :=
  (λ '(r, c, v), (r, suffixed theirs suffix c, v)) <$> cells.

(** An outer join on the index; the index is left unsorted. *)
Definition join (l r : table) (how lsuffix rsuffix : string) : result table :=
  if bool_decide (how = "outer") then
    Return (Table
      (t_index l ++ List.filter (λ i, negb (bool_decide (i ∈ t_index l))) (t_index r))%list
      ((suffixed (t_columns r) lsuffix <$> t_columns l)
       ++ (suffixed (t_columns l) rsuffix <$> t_columns r))%list
      (rename_cells (t_columns r) lsuffix (t_cells l)
       ++ rename_cells (t_columns l) rsuffix (t_cells r))%list)
  else Raise (ValueError "how").

Definition stack (l r : table) : table :=
  Table (t_index l ++ t_index r)%list
    (t_columns l ++ List.filter (λ c, negb (bool_decide (c ∈ t_columns l))) (t_columns r))%list
    (t_cells l ++ t_cells r)%list.

Definition concat_tables (dfs : list table) (axis : Z) : result table :=
  match dfs with
  | [] => Raise (ValueError "No objects to concatenate")
  | t :: ts =>
      if axis =? 0 then Return (foldl stack t ts)
      else foldl (λ acc r, match acc with
                           | Return l => join l r "outer" "" ""
                           | Raise e => Raise e
                           end) (Return t) ts
  end.

Definition relabel (t : table) (labels : list string) : result table :=
  if bool_decide (length labels = length (t_index t)) then
    let renaming := zip (t_index t) labels in
    Return (Table labels (t_columns t)
      ((λ '(r, c, v), (default r (snd <$> List.find (λ p, bool_decide (p.1 = r)) renaming), c, v))
         <$> t_cells t))
  else Raise (ValueError "Length mismatch").

Definition loc_rows_cols (t : table) (rows : list string) (cols : option (list string))
    : result table :=
  match cols with
  | None => Raise (KeyError "None")
  | Some cols =>
      if forallb (λ r, bool_decide (r ∈ t_index t)) rows
         && forallb (λ c, bool_decide (c ∈ t_columns t)) cols
      then Return (Table rows cols
             (List.filter (λ '(r, c, _), bool_decide (r ∈ rows) && bool_decide (c ∈ cols))
                (t_cells t)))
      else Raise (KeyError "not in index")
  end.

#[export] Instance pandas : Pandas := {|
  DataFrame := table;
  Series := list (string * string);
  read_csv p _ files :=
    match files !! p with
    | Some (CsvFile t) => Return t
    | _ => Raise (Exn "FileNotFoundError" (default "" (last p)))
    end;
  set_index df _ := Return df;
  concat := concat_tables;
  df_columns := t_columns;
  df_getitem df column :=
    if bool_decide (column ∈ t_columns df)
    then Return (omap (λ '(r, c, v), if bool_decide (c = column) then Some (r, v) else None)
                   (t_cells df))
    else Raise (KeyError column);
  series_dtype _ := "float64";
  factorize s _ := Return s;
  df_setitem df _ _ := Return df;
  df_index := t_index;
  df_set_index_labels := relabel;
  df_join := join;
  df_loc := loc_rows_cols
|}.

(** *** Concrete worlds and objects *)

Definition no_files : fs := ∅.

Definition world0 : World := MkWorld (RngState 0 0 0 0) [] no_files ∅ ∅.

(** One module, at reference 1, with finite gradients. *)
Definition training : World :=
  MkWorld (RngState 0 0 0 0) [] no_files
    {[ 1%positive := ParamState [Some 10; Some (-4)] [Some 3; Some (-7)] ]} ∅.

(** The same module after a backward pass that produced a NaN. *)
Definition exploded : World :=
  MkWorld (RngState 0 0 0 0) [] no_files
    {[ 1%positive := ParamState [Some 10; Some (-4)] [Some 3; None] ]} ∅.

Definition adam_on_1 : torch_optimizer nat :=
  TorchOptimizer [{["lr" := SFloat 0.5%float]}] 0%nat 1%positive.

(** An [Optimizer] in "constant" mode whose [model] attribute was
    assigned by its user. *)
Definition with_model : Optimizer :=
  MkOptimizer (VScalar (SFloat 0.5%float)) adam_on_1 "constant" None (Some 1%positive).

Definition stepping : Optimizer :=
  MkOptimizer (VScalar (SFloat 0.5%float)) adam_on_1 "scheduler" (Some 0%nat) None.

(** A custom schedule: 0.5 from epoch 1, 0.25 from epoch 10, 0.125 from
    epoch 20. *)
Definition schedule : gmap Z scalar :=
  {[ 10 := SFloat 0.25%float; 1 := SFloat 0.5%float; 20 := SFloat 0.125%float ]}.

Definition scheduled : Optimizer :=
  MkOptimizer (VDict schedule) adam_on_1 "custom_scheduler" None None.

Definition cfg_constant : gmap string value :=
  {[ "learning_rate" := VScalar (SFloat 0.5%float) ]}.

Definition cfg_scheduler : gmap string value :=
  {[ "learning_rate" := VScalar (SFloat 0.5%float);
     "adapt_learning_rate_epoch" := VScalar (SInt 10);
     "adapt_gamma_learning_rate" := VScalar (SFloat 0.5%float) ]}.

Definition cfg_custom : gmap string value :=
  {[ "learning_rate" := VDict schedule ]}.

(** A float learning rate with only one of the two scheduler keys. *)
Definition cfg_half : gmap string value :=
  {[ "learning_rate" := VScalar (SFloat 0.5%float);
     "adapt_learning_rate_epoch" := VScalar (SInt 10) ]}.

(** A sample as the data loader hands it over, at reference 7. *)
Definition sample_entries : list (string * string) :=
  [("x_d", "dynamic"); ("basin", "DE110000"); ("date", "2000-01-01"); ("y_obs", "target")].

Definition with_sample : World :=
  MkWorld (RngState 0 0 0 0) [] no_files ∅ {[ 7%positive := sample_entries ]}.

(** The two datasets on disk. *)
Definition camelsde_topo : table :=
  Table ["DE1"; "DE2"] ["area"; "elev"]
    [("DE1", "area", "10.5"); ("DE1", "elev", "340"); ("DE2", "area", "7.25")].

Definition caravan_clim : table :=
  Table ["camelsde_DE1"; "camelsde_DE2"] ["area"; "p_mean"]
    [("camelsde_DE1", "area", "10.4"); ("camelsde_DE1", "p_mean", "2.5");
     ("camelsde_DE2", "p_mean", "3.0")].

Definition camelsde_ts_DE1 : table :=
  Table ["2000-01-01"; "2000-01-02"] ["discharge_vol"; "precipitation"]
    [("2000-01-01", "discharge_vol", "1.5"); ("2000-01-02", "precipitation", "0.0")].

Definition caravan_ts_DE1 : table :=
  Table ["2000-01-02"; "2000-01-03"] ["precipitation"; "pet"]
    [("2000-01-02", "precipitation", "0.1"); ("2000-01-03", "pet", "2.0")].

Definition disk : fs :=
  {[ ["camelsde"] := Dir;
     ["camelsde"; "CAMELS_DE_topographic_attributes.csv"] := CsvFile camelsde_topo;
     ["camelsde"; "timeseries"] := Dir;
     ["camelsde"; "timeseries"; "CAMELS_DE_hydromet_timeseries_DE1.csv"]
       := CsvFile camelsde_ts_DE1;
     ["camelsde"; "timeseries"; "CAMELS_DE_hydromet_timeseries_DE2.csv"]
       := CsvFile camelsde_ts_DE1;
     ["caravan"] := Dir;
     ["caravan"; "attributes"] := Dir;
     ["caravan"; "attributes"; "camelsde"] := Dir;
     ["caravan"; "attributes"; "camelsde"; "attributes_caravan_camelsde.csv"]
       := CsvFile caravan_clim;
     ["caravan"; "timeseries"; "csv"; "camelsde"; "camelsde_DE1.csv"]
       := CsvFile caravan_ts_DE1;
     ["reports"] := Dir ]}.

Definition with_disk : World := MkWorld (RngState 0 0 0 0) [] disk ∅ ∅.

Definition dataset : UnifiedCAMELSDE_CARAVAN :=
  MkDataset ["camelsde"] ["caravan"] ["DE1"] (Some ["area"; "p_mean"]).

End Tiny.

(** "The CARAVAN index has its prefix stripped", read as a function on a
    label, to compare with what [str.replace] does. *)
Definition strip_prefix (prefix label : string) : string :=
  if String.prefix prefix label
  then String.substring (String.length prefix)
         (String.length label - String.length prefix) label
  else label.

(** ** Vocabulary of the statements *)

(** A list of keys in descending order. *)
Definition descending : list Z → Prop := StronglySorted (λ a b, b ≤ a).

(** A call leaves an observation [P] of the state as it was, whether it
    returns or raises. *)
Definition preserves {S X A} (P : S → X) (m : M S A) : Prop := ∀ s, P (m s).2 = P s.

(** A call raises [e] from state [s]. *)
Definition raises {S A} (m : M S A) (s : S) (e : exn) : Prop := (m s).1 = Raise e.

(** The three shapes of a configuration that [Optimizer.__init__] accepts. *)
Definition shape_constant (cfg : gmap string value) : bool :=
  isinstance_float (cfg !! "learning_rate")
  && negb (key_in "adapt_learning_rate_epoch" cfg)
  && negb (key_in "adapt_gamma_learning_rate" cfg).

Definition shape_scheduler (cfg : gmap string value) : bool :=
  isinstance_float (cfg !! "learning_rate")
  && key_in "adapt_learning_rate_epoch" cfg
  && key_in "adapt_gamma_learning_rate" cfg.

Definition shape_custom (cfg : gmap string value) : bool :=
  isinstance_Dict (cfg !! "learning_rate").

(** The optimizer names for which [optimizer_class] is assigned. *)
Definition names_adam (optimizer : option string) : Prop :=
  match optimizer with
  | None => True
  | Some name => lower name = "adam"
  end.

(** The message of the [ValueError] of [Optimizer.__init__]. *)
Definition invalid_learning_rate : exn :=
  ValueError "Please indicate a valid type of learning rate in the configuration.".

Section Vocabulary.
Context {Tc : Torch} {Rn : Random} {Os : OS} {Pd : Pandas}.

(** What [__init__] establishes about the attributes a mode relies on. *)
Definition valid_optimizer (self : Optimizer) : Prop :=
  (learning_rate_type self = "scheduler" → is_Some (scheduler self))
  ∧ (learning_rate_type self = "custom_scheduler" → ∃ d, learning_rate self = VDict d).

(** [self.optimizer] with [lr] written into every parameter group. *)
Definition with_lr (lr : scalar) (self : Optimizer) : Optimizer :=
  set_optimizer
    (TorchOptimizer (set_lr lr <$> param_groups (optimizer self))
       (opt_state (optimizer self)) (opt_params (optimizer self)))
    self.

(** The path where [_read_data] looks for the CARAVAN time series of a
    CAMELS-DE catchment. *)
Definition caravan_timeseries_path (self : UnifiedCAMELSDE_CARAVAN) (catch_id : string)
    : Path :=
  path_div (path_div (path_div (path_div (path_caravan self) "timeseries") "csv")
              "camelsde") (_map_gauge_id catch_id +:+ ".csv").

(** The world after [lines] have been printed. *)
Definition printed (lines : list string) (w : World) : World :=
  set_stdout (λ out, (out ++ lines)%list) w.

(** The values of the parameters behind a reference. *)
Definition data_of (w : World) (l : loc) : option Tensor := p_data <$> w_params w !! l.

(** The world after the gradients behind [m] have been set to [g]. *)
Definition with_grad (m : loc) (ps : param_state Tensor) (g : Tensor) (w : World) : World :=
  set_params (<[m := ParamState (p_data ps) g]>) w.

(** An entry of a sample before and after [upload_to_device]. *)
Definition moved (device : string) (before after : string * Obj) : Prop :=
  after.1 = before.1
  ∧ if is_tensor_key before.1
    then tensor_to before.2 device = Return after.2
    else after.2 = before.2.

End Vocabulary.

(** ** More of the vocabulary, and more concrete data *)

(** What the documentation of [os] and [open] says of the calls the two
    file functions make, in a process that is alone on the path. *)
Class OSLaws {Os : OS} : Prop := {
  (** [os.makedirs] returns once the folder is there *)
  makedirs_exists path fs fs' :
    os_makedirs path fs = (Return tt, fs') → os_path_exists path fs' = true;
  (** [open] in mode "a" or "w" returns once the file is there *)
  open_exists path mode fs f fs' :
    open_ path mode fs = (Return f, fs') → os_path_exists path fs' = true;
  (** writing and closing remove nothing *)
  write_keeps f text fs r fs' path :
    file_write f text fs = (r, fs') →
    os_path_exists path fs = true → os_path_exists path fs' = true;
  close_keeps f fs r fs' path :
    file_close f fs = (r, fs') →
    os_path_exists path fs = true → os_path_exists path fs' = true
}.

(** The laws of seeding: a seed that is accepted fixes the state of the
    generator, whatever the state was. *)
Class RandomLaws {Rn : Random} : Prop := {
  random_seed_resets seed g g' g1 :
    random_seed seed g = (Return tt, g1) → random_seed seed g' = (Return tt, g1);
  np_random_seed_resets seed g g' g1 :
    np_random_seed seed g = (Return tt, g1) → np_random_seed seed g' = (Return tt, g1);
  cuda_manual_seed_resets seed g g' g1 :
    torch_cuda_manual_seed seed g = (Return tt, g1) →
    torch_cuda_manual_seed seed g' = (Return tt, g1);
  torch_manual_seed_resets seed g g' g1 :
    torch_manual_seed seed g = (Return tt, g1) → torch_manual_seed seed g' = (Return tt, g1)
}.

Section Vocabulary2.
Context {Tc : Torch} {Rn : Random} {Os : OS} {Pd : Pandas}.

(** [write_report] with the mode fixed to "a". *)
Definition append_report (file_path : string) (text : string) : M World unit :=
  highscore ← with_fs (open_ file_path "a");
  with_fs (file_write highscore (text +:+ newline));;
  with_fs (file_close highscore).

(** An entry of a sample and what [upload_to_device] may have made of it:
    the key is the same, and the value too unless the key is a tensor key. *)
Definition kept (before after : string * Obj) : Prop :=
  after.1 = before.1 ∧ (is_tensor_key before.1 = false → after.2 = before.2).

(** The parts of the world outside the random generators. *)
Definition beside_rng (w : World)
    : list string * FS * gmap loc (param_state Tensor) * gmap loc (list (string * Obj)) :=
  (w_stdout w, w_fs w, w_params w, w_dicts w).

(** The parts of the world outside the file system and standard output. *)
Definition beside_files (w : World)
    : rng_state * gmap loc (param_state Tensor) * gmap loc (list (string * Obj)) :=
  (w_rng w, w_params w, w_dicts w).

(** The parts of the world outside the dicts. *)
Definition beside_dicts (w : World)
    : rng_state * list string * FS * gmap loc (param_state Tensor) :=
  (w_rng w, w_stdout w, w_fs w, w_params w).

(** A label of the CARAVAN index and the CAMELS-DE id it stands for: the id
    itself (a row of another sub-dataset) or the mapped id. *)
Definition stands_for (label gauge_id : string) : Prop :=
  contains "camelsde_" gauge_id = false
  ∧ (label = gauge_id ∨ label = _map_gauge_id gauge_id).

(** A call of one of the two public methods of [Optimizer], as a training
    loop makes them. *)
Inductive method_call :=
| Update (epoch : Z)
| ClipStep (epoch batch : Z).

Definition invoke (c : method_call) : M (Optimizer * World) unit :=
  match c with
  | Update epoch => update_optimizer_lr epoch
  | ClipStep epoch batch => clip_grad_and_step epoch batch
  end.

(** The object and the world after a sequence of calls, whatever each of
    them returned or raised. *)
Definition invoke_all (calls : list method_call) (s : Optimizer * World)
    : Optimizer * World :=
  fold_left (λ s c, (invoke c s).2) calls s.

(** What [clip_grad_and_step] prints when the step is skipped for want of
    [self.model]. *)
Definition skipped_lines (c : method_call) : list string :=
  match c with
  | Update _ => []
  | ClipStep epoch batch =>
      [skipped_message epoch batch; error_message (AttributeError "model")]
  end.

(** Two parameter groups that agree outside "lr". *)
Definition same_but_lr (g g' : gmap string scalar) : Prop :=
  ∀ k, k ≠ "lr" → g' !! k = g !! k.

(** The merge of [_read_attributes] as the claim words it, to compare with
    the code: "the CARAVAN index has its "camelsde_" prefix stripped so it
    matches CAMELS-DE ids". *)
Definition merge_stripping_prefix (self : UnifiedCAMELSDE_CARAVAN)
    (camelsde_attrs caravan_attrs : DataFrame) : result DataFrame :=
  match df_set_index_labels caravan_attrs
          (strip_prefix "camelsde_" <$> df_index caravan_attrs) with
  | Return renamed =>
      match df_join camelsde_attrs renamed "outer" "" "_caravan" with
      | Return merged_attrs => df_loc merged_attrs (entities_ids self) (static_input self)
      | Raise e => Raise e
      end
  | Raise e => Raise e
  end.

End Vocabulary2.

(** A second instance of torch, whose samples may hold entries that are
    not tensors: [.to] is an [AttributeError] on a [str]. *)
Module Mixed.

Inductive obj :=
| TensorObj (name : string)
| StrObj (s : string).

Definition to (x : obj) (device : string) : result obj :=
  match x with
  | TensorObj name => Return (TensorObj (name +:+ "@" +:+ device))
  | StrObj _ => Raise (AttributeError "'str' object has no attribute 'to'")
  end.

#[export] Instance torch : Torch := {|
  Tensor := Tiny.tensor;
  Obj := obj;
  OptState := nat;
  LRScheduler := nat;
  Adam := Tiny.adam;
  StepLR o _ _ := Return (0%nat, o);
  scheduler_step s o := (Return tt, (S s, o));
  clip_grad_norm_ := @clip_grad_norm_ Tiny.torch;
  optimizer_step := @optimizer_step Tiny.torch;
  tensor_to := to
|}.

(** A sample with a frequency tag between its tensors. *)
Definition sample_entries : list (string * obj) :=
  [("x_d", TensorObj "dynamic"); ("basin", StrObj "DE110000");
   ("freq", StrObj "1D"); ("y_obs", TensorObj "target")].

Definition with_sample : @World torch Tiny.random Tiny.os :=
  @MkWorld torch Tiny.random Tiny.os (@RngState Tiny.random 0 0 0 0) [] Tiny.no_files ∅
    {[ 7%positive := sample_entries ]}.

(** A second instance of the generators, whose numpy hands out NaN, which
    [int] refuses. *)
#[export] Instance random : Random := {|
  RandomGen := Z;
  NumpyGen := Z;
  TorchGen := Z;
  CudaGen := Z;
  random_seed seed _ := (Return tt, seed);
  np_random_seed seed _ := (Return tt, seed);
  torch_cuda_manual_seed seed _ := (Return tt, seed);
  torch_manual_seed seed _ := (Return tt, seed);
  np_random_uniform _ _ g := (Return PrimFloat.nan, g + 1);
  int_of_float x :=
    if PrimFloat.is_nan x then Raise (ValueError "cannot convert float NaN to integer")
    else Return 0
|}.

Definition with_nan : @World Tiny.torch random Tiny.os :=
  @MkWorld Tiny.torch random Tiny.os (@RngState random 0 0 0 0) [] Tiny.no_files ∅ ∅.

End Mixed.

(** More configurations and objects on the first instance. *)
Module More.

(** A schedule that starts at epoch 5. *)
Definition late_schedule : gmap Z scalar :=
  {[ 5 := SFloat 0.5%float; 10 := SFloat 0.25%float ]}.

Definition cfg_late : gmap string value := {[ "learning_rate" := VDict late_schedule ]}.

(** An [int] learning rate, with both scheduler keys. *)
Definition cfg_int : gmap string value :=
  {[ "learning_rate" := VScalar (SInt 1);
     "adapt_learning_rate_epoch" := VScalar (SInt 10);
     "adapt_gamma_learning_rate" := VScalar (SFloat 0.5%float) ]}.

(** A world whose generators have been used. *)
Definition used : @World Tiny.torch Tiny.random Tiny.os :=
  @MkWorld Tiny.torch Tiny.random Tiny.os (@RngState Tiny.random 1 7 2 3) []
    Tiny.no_files ∅ ∅.

(** A dataset whose CAMELS-DE folder is not on the disk, and one whose
    folder has a name of 256 characters. *)
Definition nowhere : UnifiedCAMELSDE_CARAVAN :=
  MkDataset ["nowhere"] ["caravan"] ["DE1"] (Some ["area"; "p_mean"]).

Definition long_name : string := string_of_list_ascii (repeat "a"%char 256).

Definition unreachable : UnifiedCAMELSDE_CARAVAN :=
  MkDataset [long_name] ["caravan"] ["DE1"] (Some ["area"; "p_mean"]).

(** A disk whose CARAVAN attributes hold an entry with such a name. *)
Definition disk_long : Tiny.fs :=
  {[ ["caravan"] := Tiny.Dir;
     ["caravan"; "attributes"] := Tiny.Dir;
     ["caravan"; "attributes"; long_name] := Tiny.Dir ]}.

Definition with_long : @World Tiny.torch Tiny.random Tiny.os :=
  @MkWorld Tiny.torch Tiny.random Tiny.os (@RngState Tiny.random 0 0 0 0) [] disk_long ∅ ∅.

(** A catchment whose CAMELS-DE id holds "camelsde_" itself: its two
    attribute tables, the disk, and the dataset that asks for it. *)
Definition camelsde_nested : Tiny.table :=
  Tiny.Table ["camelsde_1"] ["area"] [("camelsde_1", "area", "10.5")].

Definition caravan_nested : Tiny.table :=
  Tiny.Table ["camelsde_camelsde_1"] ["p_mean"] [("camelsde_camelsde_1", "p_mean", "2.5")].

Definition disk_nested : Tiny.fs :=
  {[ ["camelsde"] := Tiny.Dir;
     ["camelsde"; "CAMELS_DE_topographic_attributes.csv"] := Tiny.CsvFile camelsde_nested;
     ["caravan"] := Tiny.Dir;
     ["caravan"; "attributes"] := Tiny.Dir;
     ["caravan"; "attributes"; "camelsde"] := Tiny.Dir;
     ["caravan"; "attributes"; "camelsde"; "attributes_caravan_camelsde.csv"]
       := Tiny.CsvFile caravan_nested ]}.

Definition with_nested : @World Tiny.torch Tiny.random Tiny.os :=
  @MkWorld Tiny.torch Tiny.random Tiny.os (@RngState Tiny.random 0 0 0 0) [] disk_nested ∅ ∅.

Definition dataset_nested : UnifiedCAMELSDE_CARAVAN :=
  MkDataset ["camelsde"] ["caravan"] ["camelsde_1"] (Some ["area"; "p_mean"]).

(** A table of CARAVAN attributes with rows of two sub-datasets. *)
Definition caravan_two : Tiny.table :=
  Tiny.Table ["camels_01013500"; "camelsde_DE1"] ["p_mean"]
    [("camels_01013500", "p_mean", "3.1"); ("camelsde_DE1", "p_mean", "2.5")].

End More.

(** * Properties *)

(** ** Strings *)

Lemma prefix_empty (s : string) : String.prefix "" s = true.
Proof. by destruct s. Qed.

Lemma prefix_append (p s : string) : String.prefix p (p +:+ s) = true.
Proof.
  induction p as [|c p IH]; [apply prefix_empty|].
  change (String c p +:+ s) with (String c (p +:+ s)).
  cbn [String.prefix]. destruct (ascii_dec c c); [exact IH|congruence].
Qed.

Lemma contains_cons (old : string) (c : ascii) (s : string) :
  contains old (String c s) = false →
  String.prefix old (String c s) = false ∧ contains old s = false.
Proof. cbn [contains]. intros Hc. by apply orb_false_elim in Hc. Qed.

Lemma replace_go_skip (old new t s : string) :
  replace_go old new (String.length t) (t +:+ s) = replace_go old new 0 s.
Proof. induction t as [|c t IH]; [done|]. exact IH. Qed.

Lemma replace_go_absent (old new s : string) :
  contains old s = false → replace_go old new 0 s = s.
Proof.
  induction s as [|c s IH]; [done|].
  intros [Hp Hc]%contains_cons. cbn [replace_go]. rewrite Hp. f_equal. by apply IH.
Qed.

Lemma replace_go_prefix (c : ascii) (old new s : string) :
  replace_go (String c old) new 0 (String c old +:+ s)
  = new +:+ replace_go (String c old) new 0 s.
Proof.
  change (String c old +:+ s) with (String c (old +:+ s)).
  cbn [replace_go].
  change (String c (old +:+ s)) with (String c old +:+ s).
  rewrite prefix_append. f_equal.
  replace (String.length (String c old) - 1)%nat with (String.length old)
    by (cbn [String.length]; lia).
  apply replace_go_skip.
Qed.

(** Removing the pattern from [pattern ++ s] gives back [s] when [s] is free
    of it. *)
Lemma replace_prefix_absent (c : ascii) (old s : string) :
  contains (String c old) s = false →
  replace (String c old +:+ s) (String c old) "" = s.
Proof.
  intros Hs. unfold replace. rewrite replace_go_prefix.
  by rewrite replace_go_absent.
Qed.

(** ** [sorted(keys, reverse=True)] *)

Lemma insert_desc_perm (k : Z) (l : list Z) : insert_desc k l ≡ₚ k :: l.
Proof.
  induction l as [|x l IH]; [done|].
  cbn. destruct (x <=? k); [done|]. rewrite IH. apply Permutation_swap.
Qed.

Lemma sorted_reverse_perm (l : list Z) : sorted_reverse l ≡ₚ l.
Proof.
  induction l as [|x l IH]; [done|].
  cbn. rewrite insert_desc_perm. by rewrite IH.
Qed.

Lemma insert_desc_descending (k : Z) (l : list Z) :
  descending l → descending (insert_desc k l).
Proof.
  unfold descending. induction 1 as [|x l Hl IH Hx]; cbn.
  - repeat constructor.
  - destruct (Z.leb_spec x k) as [Hle|Hlt].
    + constructor; [by constructor|].
      constructor; [done|]. eapply Forall_impl; [exact Hx|]. cbn. lia.
    + constructor; [done|].
      rewrite insert_desc_perm. constructor; [lia|done].
Qed.

Lemma sorted_reverse_descending (l : list Z) : descending (sorted_reverse l).
Proof.
  induction l as [|x l IH]; [constructor|]. by apply insert_desc_descending.
Qed.

(** ** The monad *)

Ltac unfold_M :=
  unfold mbind, M_bind, mret, M_ret, call, raise, try_except in *; cbn beta iota in *.

Lemma bind_return {S A B} (m : M S A) (k : A → M S B) (s s' : S) (a : A) :
  m s = (Return a, s') → (m ≫= k) s = k a s'.
Proof. intros Hm. unfold_M. by rewrite Hm. Qed.

Lemma bind_raise {S A B} (m : M S A) (k : A → M S B) (s s' : S) (e : exn) :
  m s = (Raise e, s') → (m ≫= k) s = (Raise e, s').
Proof. intros Hm. unfold_M. by rewrite Hm. Qed.

(** A loop whose body returns without touching the state is a map. *)
Lemma for_list_pure {S A B} (f : A → B) (body : A → M S B) (xs : list A) (s : S) :
  (∀ x, x ∈ xs → body x s = (Return (f x), s)) →
  for_list xs body s = (Return (f <$> xs), s).
Proof.
  induction xs as [|x xs IH]; intros Hbody; [done|].
  cbn [for_list]. erewrite bind_return; [|apply Hbody; left].
  erewrite bind_return; [|apply IH; intros; apply Hbody; by right].
  done.
Qed.

(** The loop stops at the first element whose body raises. *)
Lemma for_list_raise {S A B} (body : A → M S B)
    (pre post : list A) (x : A) (s : S) (e : exn) :
  (∀ y, y ∈ pre → ∃ b, body y s = (Return b, s)) →
  body x s = (Raise e, s) →
  for_list (pre ++ x :: post) body s = (Raise e, s).
Proof.
  induction pre as [|y pre IH]; intros Hpre Hx; cbn [for_list app].
  - by erewrite bind_raise.
  - destruct (Hpre y) as [b Hb]; [left|].
    erewrite bind_return; [|exact Hb].
    erewrite bind_raise; [done|]. apply IH; [|done]. intros; apply Hpre; by right.
Qed.

(** The condition of a comprehension that raises ends it. *)
Lemma for_filter_raise {S A} (test : A → M S bool)
    (pre post : list A) (x : A) (s : S) (e : exn) :
  (∀ y, y ∈ pre → ∃ b, test y s = (Return b, s)) →
  test x s = (Raise e, s) →
  for_filter (pre ++ x :: post) test s = (Raise e, s).
Proof.
  induction pre as [|y pre IH]; intros Hpre Hx; cbn [for_filter app].
  - by erewrite bind_raise.
  - destruct (Hpre y) as [b Hb]; [left|].
    erewrite bind_return; [|exact Hb].
    erewrite bind_raise; [done|]. apply IH; [|done]. intros; apply Hpre; by right.
Qed.

(** An accumulating loop stops at the first element whose body raises. *)
Lemma for_each_raise {S A B} (body : B → A → M S B)
    (pre post : list A) (x : A) (acc acc' : B) (s s' s'' : S) (e : exn) :
  for_each pre body acc s = (Return acc', s') →
  body acc' x s' = (Raise e, s'') →
  for_each (pre ++ x :: post) body acc s = (Raise e, s'').
Proof.
  revert acc s. induction pre as [|y pre IH]; intros acc s Hpre Hx; cbn [for_each app] in *.
  - injection Hpre as -> ->. by erewrite bind_raise.
  - revert Hpre. unfold mbind, M_bind.
    destruct (body acc y s) as [[acc1|e1] s1]; [|done]. intros Hpre. by apply IH.
Qed.

(** ** What a call leaves as it was *)

Lemma preserves_mret {S X A} (P : S → X) (a : A) : preserves P (mret a : M S A).
Proof. by intros s. Qed.

Lemma preserves_raise {S X A} (P : S → X) (e : exn) : preserves P (raise e : M S A).
Proof. by intros s. Qed.

Lemma preserves_call {S X A} (P : S → X) (r : result A) : preserves P (call r : M S A).
Proof. by intros s. Qed.

Lemma preserves_bind {S X A B} (P : S → X) (m : M S A) (k : A → M S B) :
  preserves P m → (∀ a, preserves P (k a)) → preserves P (m ≫= k).
Proof.
  intros Hm Hk s. unfold_M. specialize (Hm s). destruct (m s) as [[a|e] s']; cbn in *.
  - by rewrite Hk.
  - done.
Qed.

Lemma preserves_try_except {S X A} (P : S → X) (body : M S A) (handler : exn → M S A) :
  preserves P body → (∀ e, preserves P (handler e)) → preserves P (try_except body handler).
Proof.
  intros Hm Hk s. unfold_M. specialize (Hm s). destruct (body s) as [[a|e] s']; cbn in *.
  - done.
  - by rewrite Hk.
Qed.

Lemma preserves_for_list {S X A B} (P : S → X) (xs : list A) (body : A → M S B) :
  (∀ x, preserves P (body x)) → preserves P (for_list xs body).
Proof.
  intros Hbody. induction xs as [|x xs IH]; cbn [for_list].
  - apply preserves_mret.
  - apply preserves_bind; [done|]. intros y.
    apply preserves_bind; [done|]. intros ys. apply preserves_mret.
Qed.

Lemma preserves_for_filter {S X A} (P : S → X) (xs : list A) (test : A → M S bool) :
  (∀ x, preserves P (test x)) → preserves P (for_filter xs test).
Proof.
  intros Htest. induction xs as [|x xs IH]; cbn [for_filter].
  - apply preserves_mret.
  - apply preserves_bind; [done|]. intros keep.
    apply preserves_bind; [done|]. intros ys. apply preserves_mret.
Qed.

Lemma preserves_for_each {S X A B} (P : S → X) (xs : list A) (body : B → A → M S B) (acc : B) :
  (∀ acc x, preserves P (body acc x)) → preserves P (for_each xs body acc).
Proof.
  intros Hbody. revert acc. induction xs as [|x xs IH]; intros acc; cbn [for_each].
  - apply preserves_mret.
  - apply preserves_bind; [done|]. intros acc'. apply IH.
Qed.

(** A call that leaves the state as it was is known by its result. *)
Lemma reads_returns {S A} (m : M S A) (s : S) (a : A) :
  preserves id m → (m s).1 = Return a → m s = (Return a, s).
Proof. intros Hm Ha. specialize (Hm s). destruct (m s). cbn in *. by subst. Qed.

Lemma reads_raises {S A} (m : M S A) (s : S) (e : exn) :
  preserves id m → (m s).1 = Raise e → m s = (Raise e, s).
Proof. intros Hm He. specialize (Hm s). destruct (m s). cbn in *. by subst. Qed.

Create HintDb frame.

#[export] Hint Resolve preserves_mret preserves_raise preserves_call preserves_bind
  preserves_try_except preserves_for_list preserves_for_each : frame.

(** Splits a call along its binds, loops and branches. *)
Ltac frame :=
  repeat first
    [ progress intros
    | solve [auto with frame]
    | apply preserves_bind
    | apply preserves_try_except
    | apply preserves_for_list
    | apply preserves_for_filter
    | apply preserves_for_each
    | match goal with
      | |- preserves _ (if ?b then _ else _) => destruct b
      | |- preserves _ (match ?x with _ => _ end) => destruct x
      end ].

Section Properties.
Context {Tc : Torch} {Rn : Random} {Os : OS} {Pd : Pandas}.

Abbreviation Method := (M (Optimizer * World)).

(** ** [_find_learning_rate] *)

Lemma find_learning_rate_loop_descending (d : gmap Z scalar) (epoch : Z) (l : list Z) :
  descending l → (∀ k, k ∈ l → is_Some (d !! k)) →
  ∃ lr, find_learning_rate_loop d epoch l = Return lr ∧
    ((∃ k, k ∈ l ∧ d !! k = Some lr ∧ k ≤ epoch ∧ ∀ k', k' ∈ l → k' ≤ epoch → k' ≤ k)
     ∨ (lr = SNone ∧ ∀ k, k ∈ l → epoch < k)).
Proof.
  unfold descending. induction 1 as [|x l Hl IH Hx]; intros Hdom; cbn [find_learning_rate_loop].
  - exists SNone. split; [done|]. right. split; [done|]. intros k Hk. by apply elem_of_nil in Hk.
  - rewrite Z.geb_leb. destruct (Z.leb_spec x epoch) as [Hle|Hlt].
    + destruct (Hdom x) as [v Hv]; [left|]. rewrite Hv. exists v. split; [done|].
      left. exists x. repeat split; [left|done|done|].
      intros k' [->|Hk']%elem_of_cons _; [lia|].
      rewrite Forall_forall in Hx. by apply Hx.
    + destruct IH as (lr & Hloop & Hlr); [intros; apply Hdom; by right|].
      exists lr. split; [done|]. destruct Hlr as [(k & Hk & Hdk & Hke & Hmax)|[-> Hall]].
      * left. exists k. repeat split; [by right|done|done|].
        intros k' [->|Hk']%elem_of_cons Hle; [lia|by apply Hmax].
      * right. split; [done|]. intros k [->|Hk]%elem_of_cons; [done|by apply Hall].
Qed.

Lemma elem_of_sorted_keys (d : gmap Z scalar) (k : Z) :
  k ∈ sorted_reverse (map_to_list d).*1 ↔ is_Some (d !! k).
Proof.
  rewrite sorted_reverse_perm, list_elem_of_fmap. split.
  - intros ([k' v] & -> & Hkv). exists v. by apply elem_of_map_to_list.
  - intros [v Hv]. exists (k, v). split; [done|]. by apply elem_of_map_to_list.
Qed.

(** On a dict the function always returns: the value under the greatest
    key that is at most [epoch], or [None] when every key is greater. *)
Lemma find_learning_rate_dict (d : gmap Z scalar) (epoch : Z) :
  ∃ lr, _find_learning_rate (VDict d) epoch = Return lr ∧
    ((∃ k, d !! k = Some lr ∧ k ≤ epoch ∧ ∀ k', is_Some (d !! k') → k' ≤ epoch → k' ≤ k)
     ∨ (lr = SNone ∧ ∀ k, is_Some (d !! k) → epoch < k)).
Proof.
  destruct (find_learning_rate_loop_descending d epoch (sorted_reverse (map_to_list d).*1))
    as (lr & Hloop & Hlr).
  - apply sorted_reverse_descending.
  - intros k. apply elem_of_sorted_keys.
  - exists lr. split; [exact Hloop|].
    destruct Hlr as [(k & Hk & Hdk & Hke & Hmax)|[-> Hall]].
    + left. exists k. repeat split; [done..|].
      intros k' Hk' Hle. apply Hmax; [|done]. by apply elem_of_sorted_keys.
    + right. split; [done|]. intros k Hk. apply Hall. by apply elem_of_sorted_keys.
Qed.

(** ** [update_optimizer_lr] *)

Lemma update_optimizer_lr_custom (self : Optimizer) (w : World) (epoch : Z) (lr : scalar) :
  learning_rate_type self = "custom_scheduler" →
  _find_learning_rate (learning_rate self) epoch = Return lr →
  update_optimizer_lr epoch (self, w) = (Return tt, (with_lr lr self, w)).
Proof.
  intros Htype Hlr. unfold update_optimizer_lr.
  erewrite bind_return; [|reflexivity]. rewrite Htype.
  rewrite decide_False, decide_True by done.
  do 2 (erewrite bind_return; [|reflexivity]).
  erewrite bind_return; cycle 1.
  { apply (for_list_pure (set_lr lr)). intros g _. unfold_M. by rewrite Hlr. }
  reflexivity.
Qed.

(** C5: [update_optimizer_lr] follows the mode.  In "constant" mode the
    object and the world are left as they are; in "scheduler" mode the
    scheduler takes exactly one step, on [self.optimizer]; in
    "custom_scheduler" mode every parameter group gets
    [_find_learning_rate(epoch)] as its lr. *)
Theorem update_optimizer_lr_modes (self : Optimizer) (w : World) (epoch : Z) :
  valid_optimizer self →
  (learning_rate_type self = "constant" →
     update_optimizer_lr epoch (self, w) = (Return tt, (self, w)))
  ∧ (learning_rate_type self = "scheduler" →
     ∃ s, scheduler self = Some s ∧
       ∀ r s' o', scheduler_step s (optimizer self) = (r, (s', o')) →
         update_optimizer_lr epoch (self, w)
         = (r, (set_scheduler s' (set_optimizer o' self), w)))
  ∧ (learning_rate_type self = "custom_scheduler" →
     ∃ lr, _find_learning_rate (learning_rate self) epoch = Return lr ∧
       update_optimizer_lr epoch (self, w) = (Return tt, (with_lr lr self, w)) ∧
       Forall (λ g, g !! "lr" = Some lr) (param_groups (optimizer (with_lr lr self)))).
Proof.
  intros [Hsched Hcustom]. repeat split.
  - intros Htype. unfold update_optimizer_lr.
    erewrite bind_return; [|reflexivity]. rewrite Htype.
    by rewrite !decide_False by done.
  - intros Htype. destruct (Hsched Htype) as [s Hs]. exists s. split; [done|].
    intros r s' o' Hstep. unfold update_optimizer_lr.
    erewrite bind_return; [|reflexivity]. rewrite Htype, decide_True by done.
    erewrite bind_return; [|unfold getattr_opt; by rewrite Hs].
    unfold self_scheduler_step. by rewrite Hstep.
  - intros Htype. destruct (Hcustom Htype) as [d Hd].
    destruct (find_learning_rate_dict d epoch) as (lr & Hlr & _).
    exists lr. rewrite Hd. split; [done|]. split.
    + apply update_optimizer_lr_custom; [done|by rewrite Hd].
    + cbn. apply Forall_fmap, Forall_true. intros g. apply lookup_insert_eq.
Qed.

(** C9: [_find_learning_rate] returns the value under the greatest key
    that is at most [epoch]; when [epoch] is below every key it falls off
    the loop and returns [None], and [update_optimizer_lr] in
    "custom_scheduler" mode then writes [None] as the lr of every
    parameter group. *)
Theorem find_learning_rate_greatest_key (d : gmap Z scalar) (epoch : Z)
    (self : Optimizer) (w : World) :
  learning_rate self = VDict d →
  learning_rate_type self = "custom_scheduler" →
  ∃ lr, _find_learning_rate (learning_rate self) epoch = Return lr ∧
    ((∃ k, d !! k = Some lr ∧ k ≤ epoch ∧
        ∀ k', is_Some (d !! k') → k' ≤ epoch → k' ≤ k)
     ∨ (lr = SNone ∧ ∀ k, is_Some (d !! k) → epoch < k)) ∧
    ((∀ k, is_Some (d !! k) → epoch < k) →
       lr = SNone ∧
       update_optimizer_lr epoch (self, w) = (Return tt, (with_lr SNone self, w)) ∧
       Forall (λ g, g !! "lr" = Some SNone) (param_groups (optimizer (with_lr SNone self)))).
Proof.
  intros Hd Htype. destruct (find_learning_rate_dict d epoch) as (lr & Hlr & Hcases).
  exists lr. rewrite Hd. split; [done|]. split; [done|].
  intros Hbelow.
  assert (lr = SNone) as ->.
  { destruct Hcases as [(k & Hk & Hle & _)|[-> _]]; [|done].
    specialize (Hbelow k (ex_intro _ lr Hk)). lia. }
  split; [done|]. split.
  - apply update_optimizer_lr_custom; [done|by rewrite Hd].
  - cbn. apply Forall_fmap, Forall_true. intros g. apply lookup_insert_eq.
Qed.

(** ** [Optimizer.__init__] *)

Lemma shape_scheduler_not_constant (cfg : gmap string value) :
  shape_scheduler cfg = true → shape_constant cfg = false.
Proof.
  unfold shape_scheduler, shape_constant.
  destruct (isinstance_float _), (key_in "adapt_learning_rate_epoch" cfg); naive_solver.
Qed.

Lemma shape_custom_not_float (cfg : gmap string value) :
  shape_custom cfg = true → shape_constant cfg = false ∧ shape_scheduler cfg = false.
Proof.
  unfold shape_custom, shape_scheduler, shape_constant.
  by destruct (cfg !! "learning_rate") as [[[]|]|].
Qed.

Lemma optimizer_class_adam (optimizer : option string) :
  names_adam optimizer →
  match optimizer with
  | None => Some Adam
  | Some name => if decide (lower name = "adam") then Some Adam else None
  end = Some Adam.
Proof. destruct optimizer as [name|]; [|done]. cbn. intros Hn. by rewrite decide_True. Qed.

Lemma Optimizer_init_constant (model : loc) (cfg : gmap string value)
    (optimizer : option string) (w : World) :
  names_adam optimizer → shape_constant cfg = true →
  __init__ model cfg optimizer w
  = (match Adam (parameters model) (dict_get cfg "learning_rate") with
     | Return o => Return (MkOptimizer (dict_get cfg "learning_rate") o "constant" None None)
     | Raise e => Raise e
     end, w).
Proof.
  intros Hadam Hshape. unfold __init__. rewrite (optimizer_class_adam _ Hadam).
  unfold shape_constant in Hshape. rewrite Hshape. unfold_M. cbn.
  by destruct (Adam _ _).
Qed.

Lemma Optimizer_init_scheduler (model : loc) (cfg : gmap string value)
    (optimizer : option string) (w : World) (step_size gamma : value) :
  names_adam optimizer → shape_scheduler cfg = true →
  cfg !! "adapt_learning_rate_epoch" = Some step_size →
  cfg !! "adapt_gamma_learning_rate" = Some gamma →
  __init__ model cfg optimizer w
  = (match Adam (parameters model) (dict_get cfg "learning_rate") with
     | Return o =>
         match StepLR o step_size gamma with
         | Return (s, o') =>
             Return (MkOptimizer (dict_get cfg "learning_rate") o' "scheduler" (Some s) None)
         | Raise e => Raise e
         end
     | Raise e => Raise e
     end, w).
Proof.
  intros Hadam Hshape Hstep Hgamma. unfold __init__.
  rewrite (optimizer_class_adam _ Hadam).
  pose proof (shape_scheduler_not_constant _ Hshape) as Hnot.
  unfold shape_constant in Hnot. unfold shape_scheduler in Hshape.
  rewrite Hnot, Hshape. unfold_M. unfold cfg_getitem. rewrite Hstep, Hgamma. cbn.
  destruct (Adam _ _) as [o|e]; [|done].
  by destruct (StepLR _ _ _) as [[s o']|e].
Qed.

Lemma Optimizer_init_custom (model : loc) (cfg : gmap string value)
    (optimizer : option string) (w : World) (lr : scalar) :
  names_adam optimizer → shape_custom cfg = true →
  _find_learning_rate (dict_get cfg "learning_rate") 1 = Return lr →
  __init__ model cfg optimizer w
  = (match Adam (parameters model) (VScalar lr) with
     | Return o =>
         Return (MkOptimizer (dict_get cfg "learning_rate") o "custom_scheduler" None None)
     | Raise e => Raise e
     end, w).
Proof.
  intros Hadam Hshape Hlr. unfold __init__.
  rewrite (optimizer_class_adam _ Hadam).
  destruct (shape_custom_not_float _ Hshape) as [Hc Hs].
  unfold shape_constant in Hc. unfold shape_scheduler in Hs. unfold shape_custom in Hshape.
  rewrite Hc, Hs, Hshape. unfold_M. rewrite Hlr. cbn.
  by destruct (Adam _ _).
Qed.

Lemma Optimizer_init_no_shape (model : loc) (cfg : gmap string value)
    (optimizer : option string) (w : World) :
  shape_constant cfg = false → shape_scheduler cfg = false → shape_custom cfg = false →
  __init__ model cfg optimizer w = (Raise invalid_learning_rate, w).
Proof.
  intros Hc Hs Hd. unfold __init__.
  unfold shape_constant in Hc. unfold shape_scheduler in Hs. unfold shape_custom in Hd.
  by rewrite Hc, Hs, Hd.
Qed.

Lemma Optimizer_init_unbound (model : loc) (cfg : gmap string value)
    (name : string) (w : World) :
  lower name ≠ "adam" →
  shape_constant cfg || shape_scheduler cfg || shape_custom cfg = true →
  __init__ model cfg (Some name) w = (Raise (UnboundLocalError "optimizer_class"), w).
Proof.
  intros Hname Hshape. unfold __init__. rewrite decide_False by done.
  unfold shape_constant, shape_scheduler, shape_custom in Hshape.
  destruct (isinstance_float _ && negb _ && negb _); [done|].
  destruct (isinstance_float _ && _ && _); [done|].
  destruct (isinstance_Dict _); [done|]. done.
Qed.

Lemma shape_scheduler_keys (cfg : gmap string value) :
  shape_scheduler cfg = true →
  is_Some (cfg !! "adapt_learning_rate_epoch") ∧ is_Some (cfg !! "adapt_gamma_learning_rate").
Proof.
  unfold shape_scheduler, key_in.
  intros [[_ ?%bool_decide_eq_true]%andb_true_iff ?%bool_decide_eq_true]%andb_true_iff.
  done.
Qed.

Lemma shape_custom_dict (cfg : gmap string value) :
  shape_custom cfg = true → ∃ d, dict_get cfg "learning_rate" = VDict d.
Proof.
  unfold shape_custom, dict_get.
  destruct (cfg !! "learning_rate") as [[x|d]|]; [done| |done]. by exists d.
Qed.

(** C2, as amended: with [optimizer] left out or naming Adam,
    [__init__] selects the mode by the shape of the configuration and,
    once the torch constructors of that branch return, returns an object
    whose [learning_rate_type] is "constant", "scheduler" or
    "custom_scheduler"; with no shape matched it raises the [ValueError],
    and in the three shapes it raises only what a torch constructor
    raised. *)
Theorem Optimizer_init_modes (model : loc) (cfg : gmap string value)
    (optimizer : option string) (w : World) :
  names_adam optimizer →
  (shape_constant cfg = true →
     ∀ o, Adam (parameters model) (dict_get cfg "learning_rate") = Return o →
       __init__ model cfg optimizer w
       = (Return (MkOptimizer (dict_get cfg "learning_rate") o "constant" None None), w))
  ∧ (shape_scheduler cfg = true →
     ∃ step_size gamma,
       cfg !! "adapt_learning_rate_epoch" = Some step_size ∧
       cfg !! "adapt_gamma_learning_rate" = Some gamma ∧
       ∀ o s o', Adam (parameters model) (dict_get cfg "learning_rate") = Return o →
         StepLR o step_size gamma = Return (s, o') →
         __init__ model cfg optimizer w
         = (Return (MkOptimizer (dict_get cfg "learning_rate") o' "scheduler" (Some s) None),
            w))
  ∧ (shape_custom cfg = true →
     ∃ lr, _find_learning_rate (dict_get cfg "learning_rate") 1 = Return lr ∧
       ∀ o, Adam (parameters model) (VScalar lr) = Return o →
         __init__ model cfg optimizer w
         = (Return (MkOptimizer (dict_get cfg "learning_rate") o "custom_scheduler"
                      None None), w))
  ∧ (shape_constant cfg || shape_scheduler cfg || shape_custom cfg = false →
     __init__ model cfg optimizer w = (Raise invalid_learning_rate, w))
  ∧ (shape_constant cfg || shape_scheduler cfg || shape_custom cfg = true →
     ∀ e, (__init__ model cfg optimizer w).1 = Raise e →
       (∃ lr, Adam (parameters model) lr = Raise e) ∨ (∃ o a b, StepLR o a b = Raise e)).
Proof.
  intros Hadam. split; [|split; [|split; [|split]]].
  - intros Hshape o Ho. rewrite Optimizer_init_constant by done. by rewrite Ho.
  - intros Hshape. destruct (shape_scheduler_keys _ Hshape) as [[step_size Hs] [gamma Hg]].
    exists step_size, gamma. do 2 (split; [done|]). intros o s o' Ho Hso.
    rewrite (Optimizer_init_scheduler _ _ _ _ step_size gamma) by done.
    by rewrite Ho, Hso.
  - intros Hshape. destruct (shape_custom_dict _ Hshape) as [d Hd].
    destruct (find_learning_rate_dict d 1) as (lr & Hlr & _).
    exists lr. split; [by rewrite Hd|]. intros o Ho.
    rewrite (Optimizer_init_custom _ _ _ _ lr) by (by rewrite ?Hd).
    by rewrite Ho.
  - intros [[Hc Hs]%orb_false_iff Hd]%orb_false_iff. by apply Optimizer_init_no_shape.
  - intros Hshape e.
    destruct (shape_constant cfg) eqn:Hc; [|destruct (shape_scheduler cfg) eqn:Hs].
    + rewrite Optimizer_init_constant by done. cbn.
      destruct (Adam _ _) eqn:Ho; [done|]. intros [= <-]. left. eauto.
    + destruct (shape_scheduler_keys _ Hs) as [[step_size Hstep] [gamma Hg]].
      rewrite (Optimizer_init_scheduler _ _ _ _ step_size gamma) by done. cbn.
      destruct (Adam _ _) as [o|e'] eqn:Ho; [|intros [= <-]; left; eauto].
      destruct (StepLR _ _ _) as [[s o']|e'] eqn:Hso; [done|].
      intros [= <-]. right. eauto.
    + cbn in Hshape. destruct (shape_custom_dict _ Hshape) as [d Hd].
      destruct (find_learning_rate_dict d 1) as (lr & Hlr & _).
      rewrite (Optimizer_init_custom _ _ _ _ lr) by (by rewrite ?Hd). cbn.
      destruct (Adam _ _) eqn:Ho; [done|]. intros [= <-]. left. eauto.
Qed.

(** C8, as amended: with an optimizer name other than "adam" (in any
    case), [optimizer_class] is never assigned; on a configuration of one
    of the three shapes the constructor fails with [UnboundLocalError],
    and on any other configuration with the [ValueError]. *)
Theorem Optimizer_init_other_name (model : loc) (cfg : gmap string value)
    (name : string) (w : World) :
  lower name ≠ "adam" →
  (shape_constant cfg || shape_scheduler cfg || shape_custom cfg = true →
     __init__ model cfg (Some name) w
     = (Raise (UnboundLocalError "optimizer_class"), w))
  ∧ (shape_constant cfg || shape_scheduler cfg || shape_custom cfg = false →
     __init__ model cfg (Some name) w = (Raise invalid_learning_rate, w)).
Proof.
  intros Hname. split.
  - by apply Optimizer_init_unbound.
  - intros [[Hc Hs]%orb_false_iff Hd]%orb_false_iff. by apply Optimizer_init_no_shape.
Qed.

(** What [__init__] returns is valid, has no [model] attribute, and the
    world is as before. *)
Lemma Optimizer_init_valid (m : loc) (cfg : gmap string value)
    (name : option string) (w w' : World) (self : Optimizer) :
  __init__ m cfg name w = (Return self, w') →
  valid_optimizer self ∧ model self = None ∧ w' = w.
Proof.
  unfold __init__.
  set (cls := match name with None => _ | Some _ => _ end). clearbody cls.
  destruct (isinstance_float _ && negb _ && negb _);
    [|destruct (isinstance_float _ && _ && _) eqn:Hs;
      [|destruct (isinstance_Dict _) eqn:Hd]].
  - unfold_M. destruct (load_local _ cls); [|done]. destruct (a _ _); [|done].
    intros [= <- <-]. by repeat split.
  - unfold_M. destruct (load_local _ cls); [|done]. destruct (a _ _); [|done].
    destruct (cfg_getitem _ _); [|done]. destruct (cfg_getitem _ _); [|done].
    destruct (StepLR _ _ _) as [[s o']|]; [|done].
    intros [= <- <-]. repeat split; [by eexists|done].
  - unfold_M. destruct (load_local _ cls); [|done].
    destruct (_find_learning_rate _ _); [|done]. destruct (a _ _); [|done].
    intros [= <- <-]. repeat split; [done|]. intros _.
    apply (shape_custom_dict cfg Hd).
  - done.
Qed.

(** The methods keep what [__init__] has established. *)
Lemma update_optimizer_lr_valid (self : Optimizer) (w : World) (epoch : Z) :
  valid_optimizer self → valid_optimizer (update_optimizer_lr epoch (self, w)).2.1.
Proof.
  intros Hvalid.
  destruct (decide (learning_rate_type self = "custom_scheduler")) as [Hc|Hc].
  { destruct Hvalid as [Hsched Hcustom]. destruct (Hcustom Hc) as [d Hd].
    destruct (find_learning_rate_dict d epoch) as (lr & Hlr & _).
    rewrite (update_optimizer_lr_custom self w epoch lr) by (by rewrite ?Hd).
    by split. }
  unfold update_optimizer_lr. erewrite bind_return; [|reflexivity].
  rewrite (decide_False (P := learning_rate_type self = "custom_scheduler")) by done.
  destruct (decide (learning_rate_type self = "scheduler")) as [Hs|Hs]; [|done].
  unfold getattr_opt. unfold_M. destruct (scheduler self) as [s|]; [|done].
  unfold self_scheduler_step. destruct (scheduler_step _ _) as [r [s' o']]. cbn.
  destruct Hvalid as [_ Hcustom]. split; [by eexists|exact Hcustom].
Qed.

Lemma Optimizer_after_init_valid (m : loc) (cfg : gmap string value) (name : option string)
    (w w' : World) (self : Optimizer) (epoch : Z) :
  __init__ m cfg name w = (Return self, w') →
  valid_optimizer (update_optimizer_lr epoch (self, w')).2.1.
Proof. intros (Hvalid & _)%Optimizer_init_valid. by apply update_optimizer_lr_valid. Qed.

(** ** [clip_grad_and_step] *)

(** The handler: two lines are printed, nothing else changes. *)
Lemma except_skip_prints (epoch batch : Z) (e : exn) (self : Optimizer) (w : World) :
  except_skip epoch batch e (self, w)
  = (Return false,
     (self, printed [skipped_message epoch batch; error_message e] w)).
Proof.
  unfold except_skip, world, print, printed, set_stdout. unfold_M. cbn.
  by rewrite <- app_assoc.
Qed.

Lemma try_clip_no_model (self : Optimizer) (w : World) :
  model self = None → try_clip (self, w) = (Raise (AttributeError "model"), (self, w)).
Proof. intros Hm. unfold try_clip, getattr_opt. unfold_M. by rewrite Hm. Qed.

Lemma try_clip_model (self : Optimizer) (w : World) (m : loc) (ps : param_state Tensor)
    (r : result unit) (g : Tensor) :
  model self = Some m → w_params w !! m = Some ps →
  clip_grad_norm_ (p_grad ps) 1 true = (r, g) →
  try_clip (self, w)
  = (match r with Return _ => Return true | Raise e => Raise e end,
     (self, with_grad m ps g w)).
Proof.
  intros Hm Hps Hclip. unfold try_clip, getattr_opt, world, clip_params, parameters.
  unfold_M. rewrite Hm, Hps, Hclip. by destruct r.
Qed.

Lemma clip_grad_and_step_caught (self s' : Optimizer) (w w' : World) (epoch batch : Z)
    (e : exn) :
  try_clip (self, w) = (Raise e, (s', w')) →
  clip_grad_and_step epoch batch (self, w)
  = (Return tt, (s', printed [skipped_message epoch batch; error_message e] w')).
Proof.
  intros Hbody. unfold clip_grad_and_step, try_except.
  unfold mbind, M_bind. by rewrite Hbody, except_skip_prints.
Qed.

Lemma clip_grad_and_step_clipped (self s' : Optimizer) (w w' : World) (epoch batch : Z) :
  try_clip (self, w) = (Return true, (s', w')) →
  clip_grad_and_step epoch batch (self, w) = self_optimizer_step (s', w').
Proof.
  intros Hbody. unfold clip_grad_and_step, try_except.
  unfold mbind, M_bind. by rewrite Hbody.
Qed.

Lemma data_of_with_grad (m : loc) (ps : param_state Tensor) (g : Tensor) (w : World) (l : loc) :
  w_params w !! m = Some ps → data_of (with_grad m ps g w) l = data_of w l.
Proof.
  intros Hm. unfold data_of, with_grad. cbn.
  destruct (decide (m = l)) as [->|Hne].
  - by rewrite lookup_insert_eq, Hm.
  - by rewrite lookup_insert_ne.
Qed.

(** C1: an exception raised inside the [try] of [clip_grad_and_step]
    (by the clipping, or by reading [self.model]) is caught: the method
    returns, [self] and with it the optimizer state is as before, no
    parameter value has changed, and two lines were printed.  When the
    clipping returns, the gradients are the ones clipped with
    [max_norm=1] and [optimizer.step()] runs on them. *)
Theorem clip_grad_and_step_spec (self : Optimizer) (w : World) (epoch batch : Z) :
  (∀ m ps e g,
     model self = Some m → w_params w !! m = Some ps →
     clip_grad_norm_ (p_grad ps) 1 true = (Raise e, g) →
     let w' := printed [skipped_message epoch batch; error_message e] (with_grad m ps g w) in
     clip_grad_and_step epoch batch (self, w) = (Return tt, (self, w'))
     ∧ ∀ l, data_of w' l = data_of w l)
  ∧ (model self = None →
     clip_grad_and_step epoch batch (self, w)
     = (Return tt,
        (self, printed [skipped_message epoch batch;
                        error_message (AttributeError "model")] w)))
  ∧ (∀ m ps g,
     model self = Some m → w_params w !! m = Some ps →
     clip_grad_norm_ (p_grad ps) 1 true = (Return tt, g) →
     clip_grad_and_step epoch batch (self, w)
     = self_optimizer_step (self, with_grad m ps g w)
     ∧ (opt_params (optimizer self) = m →
        ∀ r o' ps',
          optimizer_step (optimizer self) (ParamState (p_data ps) g) = (r, (o', ps')) →
          clip_grad_and_step epoch batch (self, w)
          = (r, (set_optimizer o' self, set_params (<[m := ps']>) w)))).
Proof.
  split; [|split].
  - intros m ps e g Hm Hps Hclip w'. split.
    + apply clip_grad_and_step_caught. by rewrite (try_clip_model _ _ m ps (Raise e) g).
    + intros l. subst w'. by apply data_of_with_grad.
  - intros Hm. apply clip_grad_and_step_caught. by apply try_clip_no_model.
  - intros m ps g Hm Hps Hclip.
    assert (clip_grad_and_step epoch batch (self, w)
            = self_optimizer_step (self, with_grad m ps g w)) as Heq.
    { apply clip_grad_and_step_clipped.
      by rewrite (try_clip_model _ _ m ps (Return tt) g). }
    split; [done|]. intros Hopt r o' ps' Hstep. rewrite Heq.
    unfold self_optimizer_step, with_grad. cbn. rewrite Hopt, lookup_insert_eq, Hstep.
    unfold set_params. cbn. by rewrite insert_insert_eq.
Qed.

(** An object that [__init__] has returned has no [model] attribute, so
    its [clip_grad_and_step] takes the handler on every call. *)
Lemma clip_grad_and_step_after_init (m : loc) (cfg : gmap string value)
    (name : option string) (w w0 : World) (self : Optimizer) (epoch batch : Z) :
  __init__ m cfg name w0 = (Return self, w0) →
  clip_grad_and_step epoch batch (self, w)
  = (Return tt,
     (self, printed [skipped_message epoch batch; error_message (AttributeError "model")] w)).
Proof.
  intros (_ & Hmodel & _)%Optimizer_init_valid.
  apply clip_grad_and_step_caught. by apply try_clip_no_model.
Qed.

(** ** [upload_to_device] *)

Lemma entries_get_app (pre d : list (string * Obj)) (key : string) :
  key ∉ pre.*1 → entries_get (pre ++ d) key = entries_get d key.
Proof.
  induction pre as [|[k v] pre IH]; [done|].
  intros Hk. apply not_elem_of_cons in Hk as [Hne Hk]. cbn.
  rewrite decide_False by done. by apply IH.
Qed.

Lemma entries_set_app (pre d : list (string * Obj)) (key : string) (v : Obj) :
  key ∉ pre.*1 → entries_set (pre ++ d) key v = pre ++ entries_set d key v.
Proof.
  induction pre as [|[k x] pre IH]; [done|].
  intros Hk. apply not_elem_of_cons in Hk as [Hne Hk]. cbn.
  rewrite decide_False by done. f_equal. by apply IH.
Qed.

Lemma set_dicts_id (l : loc) (d : list (string * Obj)) (w : World) :
  w_dicts w !! l = Some d → set_dicts (<[l := d]>) w = w.
Proof. intros Hl. destruct w. unfold set_dicts. cbn in *. by rewrite insert_id. Qed.

Lemma set_dicts_twice (l : loc) (d d' : list (string * Obj)) (w : World) :
  set_dicts (<[l := d']>) (set_dicts (<[l := d]>) w) = set_dicts (<[l := d']>) w.
Proof. unfold set_dicts. cbn. by rewrite insert_insert_eq. Qed.

Lemma NoDup_keys_middle (pre post : list (string * Obj)) (k : string) (v : Obj) :
  NoDup (pre ++ (k, v) :: post).*1 → k ∉ pre.*1.
Proof.
  rewrite fmap_app, fmap_cons. intros [_ [Hd _]]%NoDup_app Hk. apply (Hd k Hk). left.
Qed.

(** One round of the loop of [upload_to_device], at an entry that is
    still as it was. *)
Lemma upload_round (sample : loc) (device : string) (pre post : list (string * Obj))
    (k : string) (v : Obj) (w : World) :
  NoDup (pre ++ (k, v) :: post).*1 →
  w_dicts w !! sample = Some (pre ++ (k, v) :: post) →
  (if is_tensor_key k then
     v ← dict_getitem sample k;
     v' ← call (tensor_to v device);
     dict_setitem sample k v'
   else mret tt) w
  = if is_tensor_key k then
      match tensor_to v device with
      | Return v' => (Return tt, set_dicts (<[sample := pre ++ (k, v') :: post]>) w)
      | Raise e => (Raise e, w)
      end
    else (Return tt, w).
Proof.
  intros Hnd Hw. destruct (is_tensor_key k); [|done].
  pose proof (NoDup_keys_middle _ _ _ _ Hnd) as Hk.
  unfold dict_getitem, dict_setitem, load_dict, store_dict. unfold_M.
  rewrite Hw, entries_get_app by done. cbn. rewrite decide_True by done.
  destruct (tensor_to v device) as [v'|e]; [|done].
  rewrite Hw, entries_set_app by done. cbn. by rewrite decide_True.
Qed.

Lemma upload_loop_moves (sample : loc) (device : string) (todo todo' : list (string * Obj)) :
  Forall2 (moved device) todo todo' →
  ∀ (pre : list (string * Obj)) (w : World),
    NoDup (pre ++ todo).*1 →
    w_dicts w !! sample = Some (pre ++ todo) →
    upload_loop sample device todo.*1 w
    = (Return tt, set_dicts (<[sample := pre ++ todo']>) w).
Proof.
  induction 1 as [|[k v] [k' v'] t t' [Hkey Hval] Ht IH]; intros pre w Hnd Hw.
  - cbn. by rewrite set_dicts_id.
  - cbn in Hkey, Hval. subst k'. cbn [fmap list_fmap fst upload_loop].
    unfold mbind at 1. unfold M_bind at 1.
    rewrite (upload_round _ _ pre t k v) by done.
    destruct (is_tensor_key k).
    + rewrite Hval. rewrite (IH (pre ++ [(k, v')])).
      * by rewrite set_dicts_twice, <- app_assoc.
      * rewrite <- app_assoc. cbn. by rewrite fmap_app, fmap_cons in *.
      * cbn. by rewrite lookup_insert_eq, <- app_assoc.
    + subst v'. rewrite (IH (pre ++ [(k, v)])).
      * by rewrite <- app_assoc.
      * by rewrite <- app_assoc.
      * by rewrite <- app_assoc.
Qed.

Lemma moved_entries (device : string) (d d' : list (string * Obj)) :
  Forall2 (moved device) d d' →
  d'.*1 = d.*1
  ∧ (∀ k, is_tensor_key k = false → entries_get d' k = entries_get d k)
  ∧ (∀ k v, is_tensor_key k = true → entries_get d k = Some v →
       ∃ v', tensor_to v device = Return v' ∧ entries_get d' k = Some v').
Proof.
  induction 1 as [|[k v] [k' v'] t t' [Hkey Hval] Ht (IHk & IHn & IHt)].
  - by repeat split.
  - cbn in Hkey, Hval. subst k'. repeat split.
    + cbn. by rewrite IHk.
    + intros key Hkey. cbn. destruct (decide (k = key)) as [->|]; [|by apply IHn].
      rewrite Hkey in Hval. by subst.
    + intros key x Hkey. cbn. destruct (decide (k = key)) as [->|]; [|by apply IHt].
      rewrite Hkey in Hval. intros [= <-]. eauto.
Qed.

(** C10: [upload_to_device] writes into the dict it is given and returns
    that dict: the value under every key other than "basin" and "date" is
    replaced by the result of [.to(device)], the entries under "basin" and
    "date" are as before, and the keys and their order are as before. *)
Theorem upload_to_device_in_place (sample : loc) (device : string) (w : World)
    (d d' : list (string * Obj)) :
  w_dicts w !! sample = Some d →
  NoDup d.*1 →
  Forall2 (moved device) d d' →
  upload_to_device sample device w = (Return sample, set_dicts (<[sample := d']>) w)
  ∧ d'.*1 = d.*1
  ∧ entries_get d' "basin" = entries_get d "basin"
  ∧ entries_get d' "date" = entries_get d "date"
  ∧ (∀ k v, k ≠ "basin" → k ≠ "date" → entries_get d k = Some v →
       ∃ v', tensor_to v device = Return v' ∧ entries_get d' k = Some v').
Proof.
  intros Hw Hnd Hmoved.
  destruct (moved_entries _ _ _ Hmoved) as (Hkeys & Hsame & Hto).
  split; [|split; [done|split; [by apply Hsame|split; [by apply Hsame|]]]].
  - unfold upload_to_device, load_dict. unfold mbind at 1. unfold M_bind at 1.
    rewrite Hw. unfold mbind at 1. unfold M_bind at 1.
    by rewrite (upload_loop_moves _ _ d d' Hmoved []).
  - intros k v Hb Hd. apply Hto. unfold is_tensor_key.
    rewrite bool_decide_eq_false_2; [done|].
    rewrite !elem_of_cons, elem_of_nil. by intros [?|[?|[]]].
Qed.

(** ** The dataset adapter *)

Lemma preserves_read_fs {X A} (P : World → X) (f : FS → A) : preserves P (read_fs f).
Proof. by intros w. Qed.

Lemma preserves_try_fs {X A} (P : World → X) (f : FS → result A) : preserves P (try_fs f).
Proof. by intros w. Qed.

Hint Resolve preserves_read_fs preserves_try_fs : frame.

(** The readers only read: the world is as before. *)
Lemma encode_column_reads (attrs : DataFrame) (column : string) :
  preserves id (encode_column attrs column).
Proof. unfold encode_column. frame. Qed.

Lemma encode_categorical_reads (attrs : DataFrame) : preserves id (encode_categorical attrs).
Proof. unfold encode_categorical. pose proof encode_column_reads. frame. Qed.

Lemma read_camelsde_file_reads (file : Path) : preserves id (read_camelsde_file file).
Proof. unfold read_camelsde_file. frame. Qed.

Lemma read_camelsde_attributes_reads (self : UnifiedCAMELSDE_CARAVAN) :
  preserves id (read_camelsde_attributes self).
Proof.
  unfold read_camelsde_attributes.
  pose proof encode_categorical_reads. pose proof read_camelsde_file_reads. frame.
Qed.

Lemma read_caravan_file_reads (csv_file : Path) : preserves id (read_caravan_file csv_file).
Proof. unfold read_caravan_file. frame. Qed.

Lemma read_subdataset_reads (subdataset_dir : Path) :
  preserves id (read_subdataset subdataset_dir).
Proof. unfold read_subdataset. pose proof read_caravan_file_reads. frame. Qed.

Lemma list_subdataset_dirs_reads (self : UnifiedCAMELSDE_CARAVAN) :
  preserves id (list_subdataset_dirs self).
Proof. unfold list_subdataset_dirs. frame. Qed.

Lemma read_caravan_attributes_reads (self : UnifiedCAMELSDE_CARAVAN) :
  preserves id (read_caravan_attributes self).
Proof.
  unfold read_caravan_attributes.
  pose proof encode_categorical_reads. pose proof read_subdataset_reads.
  pose proof list_subdataset_dirs_reads. frame.
Qed.

Lemma read_attributes_reads (self : UnifiedCAMELSDE_CARAVAN) :
  preserves id (_read_attributes self).
Proof.
  unfold _read_attributes.
  pose proof read_camelsde_attributes_reads. pose proof read_caravan_attributes_reads.
  frame.
Qed.

Lemma read_data_reads (self : UnifiedCAMELSDE_CARAVAN) (catch_id : string) :
  preserves id (_read_data self catch_id).
Proof. unfold _read_data. frame. Qed.

(** The first segment of a mapped id is the sub-dataset name. *)
Lemma split_map_gauge_id (catch_id : string) :
  ∃ rest, split (_map_gauge_id catch_id) "_" = Return ("camelsde" :: rest).
Proof.
  unfold _map_gauge_id, split.
  change ("camelsde_" +:+ catch_id) with
    (String "c" (String "a" (String "m" (String "e" (String "l" (String "s"
      (String "d" (String "e" (String "_" catch_id))))))))).
  cbn. rewrite prefix_empty. destruct (split_go "_" 0 catch_id) as [x xs]. eauto.
Qed.

(** C4: [_read_data] reads the CAMELS-DE time series of the catchment;
    when the CARAVAN file of the mapped id exists it returns the outer
    join of the two tables with the suffix "_caravan" on the right, and
    when that file does not exist it returns the CAMELS-DE table as
    read. *)
Theorem read_data_spec (self : UnifiedCAMELSDE_CARAVAN) (catch_id : string) (w : World)
    (camelsde_ts : DataFrame) :
  read_csv (camelsde_timeseries_path self catch_id) timeseries_args (w_fs w)
  = Return camelsde_ts →
  (path_exists (caravan_timeseries_path self catch_id) (w_fs w) = Return true →
     ∀ caravan_ts,
       read_csv (caravan_timeseries_path self catch_id) timeseries_args (w_fs w)
       = Return caravan_ts →
       _read_data self catch_id w
       = (df_join camelsde_ts caravan_ts "outer" "" "_caravan", w))
  ∧ (path_exists (caravan_timeseries_path self catch_id) (w_fs w) = Return false →
     _read_data self catch_id w = (Return camelsde_ts, w)).
Proof.
  intros Hcamels. destruct (split_map_gauge_id catch_id) as [rest Hsplit].
  unfold caravan_timeseries_path. split.
  - intros Hfound caravan_ts Hcaravan.
    unfold _read_data, try_fs, read_fs. unfold_M.
    rewrite Hcamels, Hsplit. cbn [getitem0].
    change (lower "camelsde") with "camelsde".
    by rewrite Hfound, Hcaravan.
  - intros Hmissing.
    unfold _read_data, try_fs, read_fs. unfold_M.
    rewrite Hcamels, Hsplit. cbn [getitem0].
    change (lower "camelsde") with "camelsde".
    by rewrite Hmissing.
Qed.

(** A mapped id gets its CAMELS-DE id back when that id is free of the
    pattern. *)
Lemma renamed_map_gauge_id (gauge_id : string) :
  contains "camelsde_" gauge_id = false →
  replace (_map_gauge_id gauge_id) "camelsde_" "" = gauge_id.
Proof. intros Hfree. unfold _map_gauge_id. by apply replace_prefix_absent. Qed.

(** What [_read_attributes] computes once its two blocks have returned:
    it relabels the CARAVAN table by [renamed_index], joins the CAMELS-DE
    table with it by an outer join with the suffix "_caravan" on the
    right, and returns the rows of [entities_ids] and the columns of
    [static_input] of the joined table.  On a mapped id that is free of
    "camelsde_" the relabelling gives the CAMELS-DE id back. *)
Lemma read_attributes_spec (self : UnifiedCAMELSDE_CARAVAN) (w : World)
    (camelsde_attrs caravan_attrs renamed merged_attrs : DataFrame) :
  (read_camelsde_attributes self w).1 = Return camelsde_attrs →
  (read_caravan_attributes self w).1 = Return caravan_attrs →
  df_set_index_labels caravan_attrs
    ((λ label, replace label "camelsde_" "") <$> df_index caravan_attrs)
  = Return renamed →
  df_join camelsde_attrs renamed "outer" "" "_caravan" = Return merged_attrs →
  _read_attributes self w
  = (df_loc merged_attrs (entities_ids self) (static_input self), w)
  ∧ ∀ gauge_id, contains "camelsde_" gauge_id = false →
      replace (_map_gauge_id gauge_id) "camelsde_" "" = gauge_id.
Proof.
  intros Hcamels Hcaravan Hrenamed Hmerged. split; [|apply renamed_map_gauge_id].
  pose proof (read_camelsde_attributes_reads self w) as Hw1.
  pose proof (read_caravan_attributes_reads self w) as Hw2.
  unfold _read_attributes. unfold_M.
  destruct (read_camelsde_attributes self w) as [r1 w1]. cbn in Hcamels, Hw1. subst.
  destruct (read_caravan_attributes self w) as [r2 w2]. cbn in Hcaravan, Hw2. subst.
  unfold renamed_index. by rewrite Hrenamed, Hmerged.
Qed.

(** ** The random generators *)

Lemma print_rng (line : string) : preserves w_rng (print line).
Proof. by intros w. Qed.

Lemma with_fs_rng {A} (f : FS → result A * FS) : preserves w_rng (with_fs f).
Proof. intros w. unfold with_fs. by destruct (f _). Qed.

Lemma load_dict_rng (l : loc) : preserves w_rng (load_dict l).
Proof. intros w. unfold load_dict. by destruct (_ !! _). Qed.

Lemma store_dict_rng (l : loc) (d : list (string * Obj)) : preserves w_rng (store_dict l d).
Proof. by intros w. Qed.

Lemma clip_params_rng (params : loc) (max_norm : Z) (flag : bool) :
  preserves w_rng (clip_params params max_norm flag).
Proof.
  intros w. unfold clip_params. destruct (_ !! _); [|done]. by destruct (clip_grad_norm_ _ _ _).
Qed.

Lemma world_rng {A} (m : M World A) :
  preserves w_rng m → preserves (λ s : Optimizer * World, w_rng s.2) (world m).
Proof. intros Hm [self w]. unfold world. specialize (Hm w). by destruct (m w). Qed.

Lemma getattr_rng {A} (attr : Optimizer → A) :
  preserves (λ s : Optimizer * World, w_rng s.2) (getattr attr).
Proof. by intros [self w]. Qed.

Lemma getattr_opt_rng {A} (name : string) (attr : Optimizer → option A) :
  preserves (λ s : Optimizer * World, w_rng s.2) (getattr_opt name attr).
Proof. intros [self w]. unfold getattr_opt. by destruct (attr self). Qed.

Lemma self_scheduler_step_rng (s : LRScheduler) :
  preserves (λ s : Optimizer * World, w_rng s.2) (self_scheduler_step s).
Proof.
  intros [self w]. unfold self_scheduler_step. by destruct (scheduler_step _ _) as [r [s' o']].
Qed.

Lemma write_param_groups_rng (groups : list (gmap string scalar)) :
  preserves (λ s : Optimizer * World, w_rng s.2) (write_param_groups groups).
Proof. by intros [self w]. Qed.

Lemma self_optimizer_step_rng :
  preserves (λ s : Optimizer * World, w_rng s.2) self_optimizer_step.
Proof.
  intros [self w]. unfold self_optimizer_step. destruct (_ !! _); [|done].
  by destruct (optimizer_step _ _) as [r [o' ps']].
Qed.

Hint Resolve print_rng with_fs_rng load_dict_rng store_dict_rng clip_params_rng world_rng
  getattr_rng getattr_opt_rng self_scheduler_step_rng write_param_groups_rng
  self_optimizer_step_rng : frame.

Lemma Optimizer_init_rng (m : loc) (cfg : gmap string value) (name : option string) :
  preserves w_rng (__init__ m cfg name).
Proof. unfold __init__. frame. Qed.

Lemma update_optimizer_lr_rng (epoch : Z) :
  preserves (λ s : Optimizer * World, w_rng s.2) (update_optimizer_lr epoch).
Proof. unfold update_optimizer_lr. frame. Qed.

Lemma clip_grad_and_step_rng (epoch batch : Z) :
  preserves (λ s : Optimizer * World, w_rng s.2) (clip_grad_and_step epoch batch).
Proof. unfold clip_grad_and_step, try_clip, except_skip. frame. Qed.

Lemma create_folder_rng (folder_path : string) : preserves w_rng (create_folder folder_path).
Proof. unfold create_folder. frame. Qed.

Lemma upload_loop_rng (sample : loc) (device : string) (keys : list string) :
  preserves w_rng (upload_loop sample device keys).
Proof.
  induction keys as [|key keys IH]; cbn [upload_loop]; [frame|].
  unfold dict_getitem, dict_setitem. frame.
Qed.

Lemma upload_to_device_rng (sample : loc) (device : string) :
  preserves w_rng (upload_to_device sample device).
Proof. unfold upload_to_device. pose proof upload_loop_rng. frame. Qed.

Lemma write_report_rng (file_path text : string) :
  preserves w_rng (write_report file_path text).
Proof. unfold write_report. frame. Qed.

Lemma preserves_id_rng {A} (m : M World A) : preserves id m → preserves w_rng m.
Proof. intros Hm w. specialize (Hm w). unfold id in Hm. by rewrite Hm. Qed.

Lemma set_random_seed_some (seed : Z) (w : World)
    (g1 : RandomGen) (g2 : NumpyGen) (g3 : CudaGen) (g4 : TorchGen) :
  random_seed seed (random_gen (w_rng w)) = (Return tt, g1) →
  np_random_seed seed (numpy_gen (w_rng w)) = (Return tt, g2) →
  torch_cuda_manual_seed seed (cuda_gen (w_rng w)) = (Return tt, g3) →
  torch_manual_seed seed (torch_gen (w_rng w)) = (Return tt, g4) →
  set_random_seed (Some seed) w = (Return tt, set_rng (λ _, RngState g1 g2 g4 g3) w).
Proof.
  intros Hrandom Hnumpy Hcuda Htorch.
  unfold set_random_seed, with_random, with_numpy, with_cuda, with_torch. unfold_M. cbn.
  rewrite Hrandom. cbn. rewrite Hnumpy. cbn. rewrite Hcuda. cbn. by rewrite Htorch.
Qed.

Lemma set_random_seed_none (w : World) (x : float) (g : NumpyGen) (seed : Z) :
  np_random_uniform 0%float 1e6%float (numpy_gen (w_rng w)) = (Return x, g) →
  int_of_float x = Return seed →
  set_random_seed None w
  = set_random_seed (Some seed)
      (set_rng (λ s, RngState (random_gen s) g (torch_gen s) (cuda_gen s)) w).
Proof.
  intros Hx Hseed. unfold set_random_seed, with_numpy. unfold_M.
  rewrite Hx. cbn. by rewrite Hseed.
Qed.

(** C6, as amended: of the functions of the two modules only
    [set_random_seed] writes to the random generators.  Every other
    function leaves the four generators as they were, whatever it returns
    or raises; [set_random_seed(seed)] seeds the generators of [random],
    [numpy], [torch.cuda] and [torch] with [seed], which it first draws
    from numpy's generator when no seed is given. *)
Theorem only_set_random_seed_seeds :
  (∀ m cfg name, preserves w_rng (__init__ m cfg name))
  ∧ (∀ epoch, preserves (λ s : Optimizer * World, w_rng s.2) (update_optimizer_lr epoch))
  ∧ (∀ epoch batch,
       preserves (λ s : Optimizer * World, w_rng s.2) (clip_grad_and_step epoch batch))
  ∧ (∀ folder_path, preserves w_rng (create_folder folder_path))
  ∧ (∀ sample device, preserves w_rng (upload_to_device sample device))
  ∧ (∀ file_path text, preserves w_rng (write_report file_path text))
  ∧ (∀ self, preserves w_rng (_read_attributes self))
  ∧ (∀ self catch_id, preserves w_rng (_read_data self catch_id))
  ∧ (∀ seed w g1 g2 g3 g4,
       random_seed seed (random_gen (w_rng w)) = (Return tt, g1) →
       np_random_seed seed (numpy_gen (w_rng w)) = (Return tt, g2) →
       torch_cuda_manual_seed seed (cuda_gen (w_rng w)) = (Return tt, g3) →
       torch_manual_seed seed (torch_gen (w_rng w)) = (Return tt, g4) →
       set_random_seed (Some seed) w = (Return tt, set_rng (λ _, RngState g1 g2 g4 g3) w))
  ∧ (∀ w x g seed,
       np_random_uniform 0%float 1e6%float (numpy_gen (w_rng w)) = (Return x, g) →
       int_of_float x = Return seed →
       set_random_seed None w
       = set_random_seed (Some seed)
           (set_rng (λ s, RngState (random_gen s) g (torch_gen s) (cuda_gen s)) w)).
Proof.
  repeat split.
  - apply Optimizer_init_rng.
  - apply update_optimizer_lr_rng.
  - apply clip_grad_and_step_rng.
  - apply create_folder_rng.
  - apply upload_to_device_rng.
  - apply write_report_rng.
  - intros self. apply preserves_id_rng, read_attributes_reads.
  - intros self catch_id. apply preserves_id_rng, read_data_reads.
  - apply set_random_seed_some.
  - apply set_random_seed_none.
Qed.

(** ** Exceptions *)

Lemma upload_loop_raises (sample : loc) (device : string) (moved_before moved_after
    post : list (string * Obj)) (k : string) (v : Obj) (e : exn) :
  Forall2 (moved device) moved_before moved_after →
  is_tensor_key k = true → tensor_to v device = Raise e →
  ∀ (pre : list (string * Obj)) (w : World),
    NoDup (pre ++ moved_before ++ (k, v) :: post).*1 →
    w_dicts w !! sample = Some (pre ++ moved_before ++ (k, v) :: post) →
    raises (upload_loop sample device (moved_before ++ (k, v) :: post).*1) w e.
Proof.
  intros Hmoved Hk Hv. unfold raises.
  induction Hmoved as [|[k0 v0] [k0' v0'] t t' [Hkey Hval] Ht IH]; intros pre w Hnd Hw.
  - cbn [app fmap list_fmap fst upload_loop]. unfold mbind at 1. unfold M_bind at 1.
    rewrite (upload_round _ _ pre post k v) by done. by rewrite Hk, Hv.
  - cbn in Hkey, Hval. subst k0'. cbn [app fmap list_fmap fst upload_loop].
    unfold mbind at 1. unfold M_bind at 1.
    rewrite (upload_round _ _ pre (t ++ (k, v) :: post) k0 v0) by done.
    destruct (is_tensor_key k0).
    + rewrite Hval. apply (IH (pre ++ [(k0, v0')])).
      * rewrite <- app_assoc. cbn in Hnd |- *.
        rewrite fmap_app, fmap_cons in Hnd |- *. exact Hnd.
      * cbn. by rewrite lookup_insert_eq, <- app_assoc.
    + subst v0'. apply (IH (pre ++ [(k0, v0)])); by rewrite <- app_assoc.
Qed.

(** C7: outside the [try] of [clip_grad_and_step] nothing is caught.  In
    [Optimizer.__init__], [update_optimizer_lr], the step of
    [clip_grad_and_step], [create_folder], [write_report],
    [upload_to_device], [set_random_seed] and the dataset readers, every
    call that can fail is listed with the calls before it having
    returned, and the exception it raises is the exception the operation
    raises. *)
Theorem errors_propagate :
  (* Optimizer.__init__ *)
  (∀ m cfg name w, lower name ≠ "adam" →
     shape_constant cfg || shape_scheduler cfg || shape_custom cfg = true →
     raises (__init__ m cfg (Some name)) w (UnboundLocalError "optimizer_class"))
  ∧ (∀ m cfg name w e, names_adam name →
     shape_constant cfg = true ∨ shape_scheduler cfg = true →
     Adam (parameters m) (dict_get cfg "learning_rate") = Raise e →
     raises (__init__ m cfg name) w e)
  ∧ (∀ m cfg name w o step_size gamma e, names_adam name →
     shape_scheduler cfg = true →
     Adam (parameters m) (dict_get cfg "learning_rate") = Return o →
     cfg !! "adapt_learning_rate_epoch" = Some step_size →
     cfg !! "adapt_gamma_learning_rate" = Some gamma →
     StepLR o step_size gamma = Raise e →
     raises (__init__ m cfg name) w e)
  ∧ (∀ m cfg name w lr e, names_adam name →
     shape_custom cfg = true →
     _find_learning_rate (dict_get cfg "learning_rate") 1 = Return lr →
     Adam (parameters m) (VScalar lr) = Raise e →
     raises (__init__ m cfg name) w e)
  (* update_optimizer_lr *)
  ∧ (∀ self w epoch,
     learning_rate_type self = "scheduler" → scheduler self = None →
     raises (update_optimizer_lr epoch) (self, w) (AttributeError "scheduler"))
  ∧ (∀ self w epoch s e after,
     learning_rate_type self = "scheduler" → scheduler self = Some s →
     scheduler_step s (optimizer self) = (Raise e, after) →
     raises (update_optimizer_lr epoch) (self, w) e)
  ∧ (∀ self w epoch e,
     learning_rate_type self = "custom_scheduler" →
     param_groups (optimizer self) ≠ [] →
     _find_learning_rate (learning_rate self) epoch = Raise e →
     raises (update_optimizer_lr epoch) (self, w) e)
  (* clip_grad_and_step, after the try *)
  ∧ (∀ self w epoch batch m ps g ps' e after,
     model self = Some m → w_params w !! m = Some ps →
     clip_grad_norm_ (p_grad ps) 1 true = (Return tt, g) →
     w_params (with_grad m ps g w) !! opt_params (optimizer self) = Some ps' →
     optimizer_step (optimizer self) ps' = (Raise e, after) →
     raises (clip_grad_and_step epoch batch) (self, w) e)
  (* create_folder *)
  ∧ (∀ folder_path w e fs1,
     os_path_exists folder_path (w_fs w) = false →
     os_makedirs folder_path (w_fs w) = (Raise e, fs1) →
     raises (create_folder folder_path) w e)
  (* write_report *)
  ∧ (∀ file_path text w e fs1,
     open_ file_path (if os_path_exists file_path (w_fs w) then "a" else "w") (w_fs w)
     = (Raise e, fs1) →
     raises (write_report file_path text) w e)
  ∧ (∀ file_path text w f fs1 e fs2,
     open_ file_path (if os_path_exists file_path (w_fs w) then "a" else "w") (w_fs w)
     = (Return f, fs1) →
     file_write f (text +:+ newline) fs1 = (Raise e, fs2) →
     raises (write_report file_path text) w e)
  ∧ (∀ file_path text w f fs1 fs2 e fs3,
     open_ file_path (if os_path_exists file_path (w_fs w) then "a" else "w") (w_fs w)
     = (Return f, fs1) →
     file_write f (text +:+ newline) fs1 = (Return tt, fs2) →
     file_close f fs2 = (Raise e, fs3) →
     raises (write_report file_path text) w e)
  (* upload_to_device *)
  ∧ (∀ sample device w moved_before moved_after k v post e,
     w_dicts w !! sample = Some (moved_before ++ (k, v) :: post) →
     NoDup (moved_before ++ (k, v) :: post).*1 →
     Forall2 (moved device) moved_before moved_after →
     is_tensor_key k = true → tensor_to v device = Raise e →
     raises (upload_to_device sample device) w e)
  (* set_random_seed *)
  ∧ (∀ w e g,
     np_random_uniform 0%float 1e6%float (numpy_gen (w_rng w)) = (Raise e, g) →
     raises (set_random_seed None) w e)
  ∧ (∀ w x g e,
     np_random_uniform 0%float 1e6%float (numpy_gen (w_rng w)) = (Return x, g) →
     int_of_float x = Raise e →
     raises (set_random_seed None) w e)
  ∧ (∀ w x g seed e,
     np_random_uniform 0%float 1e6%float (numpy_gen (w_rng w)) = (Return x, g) →
     int_of_float x = Return seed →
     raises (set_random_seed (Some seed))
       (set_rng (λ s, RngState (random_gen s) g (torch_gen s) (cuda_gen s)) w) e →
     raises (set_random_seed None) w e)
  ∧ (∀ seed w e g,
     random_seed seed (random_gen (w_rng w)) = (Raise e, g) →
     raises (set_random_seed (Some seed)) w e)
  ∧ (∀ seed w g1 e g,
     random_seed seed (random_gen (w_rng w)) = (Return tt, g1) →
     np_random_seed seed (numpy_gen (w_rng w)) = (Raise e, g) →
     raises (set_random_seed (Some seed)) w e)
  ∧ (∀ seed w g1 g2 e g,
     random_seed seed (random_gen (w_rng w)) = (Return tt, g1) →
     np_random_seed seed (numpy_gen (w_rng w)) = (Return tt, g2) →
     torch_cuda_manual_seed seed (cuda_gen (w_rng w)) = (Raise e, g) →
     raises (set_random_seed (Some seed)) w e)
  ∧ (∀ seed w g1 g2 g3 e g,
     random_seed seed (random_gen (w_rng w)) = (Return tt, g1) →
     np_random_seed seed (numpy_gen (w_rng w)) = (Return tt, g2) →
     torch_cuda_manual_seed seed (cuda_gen (w_rng w)) = (Return tt, g3) →
     torch_manual_seed seed (torch_gen (w_rng w)) = (Raise e, g) →
     raises (set_random_seed (Some seed)) w e)
  (* _read_data *)
  ∧ (∀ self catch_id w e,
     read_csv (camelsde_timeseries_path self catch_id) timeseries_args (w_fs w) = Raise e →
     raises (_read_data self catch_id) w e)
  ∧ (∀ self catch_id w camelsde_ts e,
     read_csv (camelsde_timeseries_path self catch_id) timeseries_args (w_fs w)
     = Return camelsde_ts →
     path_exists (caravan_timeseries_path self catch_id) (w_fs w) = Raise e →
     raises (_read_data self catch_id) w e)
  ∧ (∀ self catch_id w camelsde_ts e,
     read_csv (camelsde_timeseries_path self catch_id) timeseries_args (w_fs w)
     = Return camelsde_ts →
     path_exists (caravan_timeseries_path self catch_id) (w_fs w) = Return true →
     read_csv (caravan_timeseries_path self catch_id) timeseries_args (w_fs w) = Raise e →
     raises (_read_data self catch_id) w e)
  ∧ (∀ self catch_id w camelsde_ts caravan_ts e,
     read_csv (camelsde_timeseries_path self catch_id) timeseries_args (w_fs w)
     = Return camelsde_ts →
     path_exists (caravan_timeseries_path self catch_id) (w_fs w) = Return true →
     read_csv (caravan_timeseries_path self catch_id) timeseries_args (w_fs w)
     = Return caravan_ts →
     df_join camelsde_ts caravan_ts "outer" "" "_caravan" = Raise e →
     raises (_read_data self catch_id) w e)
  (* the encoding loop of _read_attributes *)
  ∧ (∀ attrs column w e,
     df_getitem attrs column = Raise e →
     raises (encode_column attrs column) w e)
  ∧ (∀ attrs column w col e,
     df_getitem attrs column = Return col →
     series_dtype col ∉ ["float64"; "int64"] →
     factorize col true = Raise e →
     raises (encode_column attrs column) w e)
  ∧ (∀ attrs column w col codes e,
     df_getitem attrs column = Return col →
     series_dtype col ∉ ["float64"; "int64"] →
     factorize col true = Return codes →
     df_setitem attrs column codes = Raise e →
     raises (encode_column attrs column) w e)
  ∧ (∀ attrs w pre column post encoded e,
     df_columns attrs = pre ++ column :: post →
     (for_each pre encode_column attrs w).1 = Return encoded →
     raises (encode_column encoded column) w e →
     raises (encode_categorical attrs) w e)
  (* _read_attributes, the CAMELS-DE block *)
  ∧ (∀ file w e,
     read_csv file camelsde_attributes_args (w_fs w) = Raise e →
     raises (read_camelsde_file file) w e)
  ∧ (∀ file w df e,
     read_csv file camelsde_attributes_args (w_fs w) = Return df →
     set_index df "gauge_id" = Raise e →
     raises (read_camelsde_file file) w e)
  ∧ (∀ self w e,
     path_glob (path_camelsde self) "*_attributes.csv" (w_fs w) = Raise e →
     raises (read_camelsde_attributes self) w e)
  ∧ (∀ self w pre file post e,
     path_glob (path_camelsde self) "*_attributes.csv" (w_fs w)
     = Return (pre ++ file :: post) →
     (∀ f, f ∈ pre → ∃ df, (read_camelsde_file f w).1 = Return df) →
     raises (read_camelsde_file file) w e →
     raises (read_camelsde_attributes self) w e)
  ∧ (∀ self w read_files dfs e,
     path_glob (path_camelsde self) "*_attributes.csv" (w_fs w) = Return read_files →
     (for_list read_files read_camelsde_file w).1 = Return dfs →
     concat dfs 1 = Raise e →
     raises (read_camelsde_attributes self) w e)
  ∧ (∀ self w read_files dfs camelsde_attrs e,
     path_glob (path_camelsde self) "*_attributes.csv" (w_fs w) = Return read_files →
     (for_list read_files read_camelsde_file w).1 = Return dfs →
     concat dfs 1 = Return camelsde_attrs →
     raises (encode_categorical camelsde_attrs) w e →
     raises (read_camelsde_attributes self) w e)
  (* _read_attributes, the CARAVAN block *)
  ∧ (∀ self w e,
     path_glob (path_div (path_caravan self) "attributes") "*" (w_fs w) = Raise e →
     raises (list_subdataset_dirs self) w e)
  ∧ (∀ self w pre d post e,
     path_glob (path_div (path_caravan self) "attributes") "*" (w_fs w)
     = Return (pre ++ d :: post) →
     (∀ x, x ∈ pre → ∃ b, path_is_dir x (w_fs w) = Return b) →
     path_is_dir d (w_fs w) = Raise e →
     raises (list_subdataset_dirs self) w e)
  ∧ (∀ subdataset_dir w e,
     path_glob subdataset_dir "*.csv" (w_fs w) = Raise e →
     raises (read_subdataset subdataset_dir) w e)
  ∧ (∀ subdataset_dir w pre csv_file post e,
     path_glob subdataset_dir "*.csv" (w_fs w) = Return (pre ++ csv_file :: post) →
     (∀ f, f ∈ pre → ∃ df, read_csv f caravan_attributes_args (w_fs w) = Return df) →
     read_csv csv_file caravan_attributes_args (w_fs w) = Raise e →
     raises (read_subdataset subdataset_dir) w e)
  ∧ (∀ subdataset_dir w csv_files dfr_list e,
     path_glob subdataset_dir "*.csv" (w_fs w) = Return csv_files →
     (for_list csv_files read_caravan_file w).1 = Return dfr_list →
     concat dfr_list 1 = Raise e →
     raises (read_subdataset subdataset_dir) w e)
  ∧ (∀ self w e,
     raises (list_subdataset_dirs self) w e →
     raises (read_caravan_attributes self) w e)
  ∧ (∀ self w pre subdataset_dir post e,
     (list_subdataset_dirs self w).1 = Return (pre ++ subdataset_dir :: post) →
     (∀ d, d ∈ pre → ∃ dfr, (read_subdataset d w).1 = Return dfr) →
     raises (read_subdataset subdataset_dir) w e →
     raises (read_caravan_attributes self) w e)
  ∧ (∀ self w subdataset_dirs dfs e,
     (list_subdataset_dirs self w).1 = Return subdataset_dirs →
     (for_list subdataset_dirs read_subdataset w).1 = Return dfs →
     concat dfs 0 = Raise e →
     raises (read_caravan_attributes self) w e)
  ∧ (∀ self w subdataset_dirs dfs caravan_attrs e,
     (list_subdataset_dirs self w).1 = Return subdataset_dirs →
     (for_list subdataset_dirs read_subdataset w).1 = Return dfs →
     concat dfs 0 = Return caravan_attrs →
     raises (encode_categorical caravan_attrs) w e →
     raises (read_caravan_attributes self) w e)
  (* _read_attributes, the merge *)
  ∧ (∀ self w e,
     raises (read_camelsde_attributes self) w e → raises (_read_attributes self) w e)
  ∧ (∀ self w camelsde_attrs e,
     (read_camelsde_attributes self w).1 = Return camelsde_attrs →
     raises (read_caravan_attributes self) w e → raises (_read_attributes self) w e)
  ∧ (∀ self w camelsde_attrs caravan_attrs e,
     (read_camelsde_attributes self w).1 = Return camelsde_attrs →
     (read_caravan_attributes self w).1 = Return caravan_attrs →
     df_set_index_labels caravan_attrs (renamed_index caravan_attrs) = Raise e →
     raises (_read_attributes self) w e)
  ∧ (∀ self w camelsde_attrs caravan_attrs renamed e,
     (read_camelsde_attributes self w).1 = Return camelsde_attrs →
     (read_caravan_attributes self w).1 = Return caravan_attrs →
     df_set_index_labels caravan_attrs (renamed_index caravan_attrs) = Return renamed →
     df_join camelsde_attrs renamed "outer" "" "_caravan" = Raise e →
     raises (_read_attributes self) w e)
  ∧ (∀ self w camelsde_attrs caravan_attrs renamed merged_attrs e,
     (read_camelsde_attributes self w).1 = Return camelsde_attrs →
     (read_caravan_attributes self w).1 = Return caravan_attrs →
     df_set_index_labels caravan_attrs (renamed_index caravan_attrs) = Return renamed →
     df_join camelsde_attrs renamed "outer" "" "_caravan" = Return merged_attrs →
     df_loc merged_attrs (entities_ids self) (static_input self) = Raise e →
     raises (_read_attributes self) w e).
Proof.
  unfold raises. repeat apply conj.
  - intros m cfg name w Hname Hshape. by rewrite Optimizer_init_unbound.
  - intros m cfg name w e Hadam [Hshape|Hshape] HAdam.
    + rewrite Optimizer_init_constant by done. cbn. by rewrite HAdam.
    + destruct (shape_scheduler_keys _ Hshape) as [[step_size Hs] [gamma Hg]].
      rewrite (Optimizer_init_scheduler _ _ _ _ step_size gamma) by done.
      cbn. by rewrite HAdam.
  - intros m cfg name w o step_size gamma e Hadam Hshape HAdam Hs Hg Hsched.
    rewrite (Optimizer_init_scheduler _ _ _ _ step_size gamma) by done.
    cbn. by rewrite HAdam, Hsched.
  - intros m cfg name w lr e Hadam Hshape Hlr HAdam.
    rewrite (Optimizer_init_custom _ _ _ _ lr) by done. cbn. by rewrite HAdam.
  - intros self w epoch Htype Hs. unfold update_optimizer_lr.
    erewrite bind_return; [|reflexivity]. rewrite Htype, decide_True by done.
    erewrite bind_raise; [done|]. unfold getattr_opt. by rewrite Hs.
  - intros self w epoch s e [s' o'] Htype Hs Hstep. unfold update_optimizer_lr.
    erewrite bind_return; [|reflexivity]. rewrite Htype, decide_True by done.
    erewrite bind_return; [|unfold getattr_opt; by rewrite Hs].
    unfold self_scheduler_step. by rewrite Hstep.
  - intros self w epoch e Htype Hgroups Hlr. unfold update_optimizer_lr.
    erewrite bind_return; [|reflexivity]. rewrite Htype.
    rewrite decide_False, decide_True by done.
    do 2 (erewrite bind_return; [|reflexivity]).
    destruct (param_groups (optimizer self)) as [|g gs]; [done|].
    erewrite bind_raise; [done|]. apply (for_list_raise _ []); [by intros ? ?%elem_of_nil|].
    unfold_M. by rewrite Hlr.
  - intros self w epoch batch m ps g ps' e [o' ps''] Hm Hps Hclip Hopt Hstep.
    erewrite clip_grad_and_step_clipped;
      [|by rewrite (try_clip_model _ _ m ps (Return tt) g)].
    unfold self_optimizer_step. by rewrite Hopt, Hstep.
  - intros folder_path w e fs1 Hfound Hmk.
    unfold create_folder, read_fs, with_fs. unfold_M. by rewrite Hfound; cbn; rewrite Hmk.
  - intros file_path text w e fs1 Hopen.
    unfold write_report, read_fs, with_fs. unfold_M. by rewrite Hopen.
  - intros file_path text w f fs1 e fs2 Hopen Hwrite.
    unfold write_report, read_fs, with_fs. unfold_M. rewrite Hopen. cbn. by rewrite Hwrite.
  - intros file_path text w f fs1 fs2 e fs3 Hopen Hwrite Hclose.
    unfold write_report, read_fs, with_fs. unfold_M. rewrite Hopen. cbn.
    rewrite Hwrite. cbn. by rewrite Hclose.
  - intros sample device w moved_before moved_after k v post e Hw Hnd Hmoved Hk Hv.
    unfold upload_to_device, load_dict. unfold mbind at 1. unfold M_bind at 1.
    rewrite Hw. unfold mbind at 1. unfold M_bind at 1.
    pose proof (upload_loop_raises sample device _ _ post k v e Hmoved Hk Hv [] w Hnd Hw)
      as Hloop.
    unfold raises in Hloop.
    destruct (upload_loop _ _ _ _) as [[u|e0] w']; cbn in *; congruence.
  - intros w e g Hx. unfold set_random_seed, with_numpy. unfold_M. by rewrite Hx.
  - intros w x g e Hx Hint. unfold set_random_seed, with_numpy. unfold_M.
    rewrite Hx. cbn. by rewrite Hint.
  - intros w x g seed e Hx Hint Hseed.
    by rewrite (set_random_seed_none w x g seed).
  - intros seed w e g Hrandom. unfold set_random_seed, with_random. unfold_M. cbn.
    by rewrite Hrandom.
  - intros seed w g1 e g Hrandom Hnumpy.
    unfold set_random_seed, with_random, with_numpy. unfold_M. cbn.
    rewrite Hrandom. cbn. by rewrite Hnumpy.
  - intros seed w g1 g2 e g Hrandom Hnumpy Hcuda.
    unfold set_random_seed, with_random, with_numpy, with_cuda. unfold_M. cbn.
    rewrite Hrandom. cbn. rewrite Hnumpy. cbn. by rewrite Hcuda.
  - intros seed w g1 g2 g3 e g Hrandom Hnumpy Hcuda Htorch.
    unfold set_random_seed, with_random, with_numpy, with_cuda, with_torch. unfold_M. cbn.
    rewrite Hrandom. cbn. rewrite Hnumpy. cbn. rewrite Hcuda. cbn. by rewrite Htorch.
  - intros self catch_id w e Hcamels. unfold _read_data, try_fs. unfold_M.
    by rewrite Hcamels.
  - intros self catch_id w camelsde_ts e Hcamels Hfound.
    destruct (split_map_gauge_id catch_id) as [rest Hsplit].
    unfold caravan_timeseries_path in *.
    unfold _read_data, try_fs. unfold_M.
    rewrite Hcamels, Hsplit. cbn [getitem0]. change (lower "camelsde") with "camelsde".
    by rewrite Hfound.
  - intros self catch_id w camelsde_ts e Hcamels Hfound Hcaravan.
    destruct (split_map_gauge_id catch_id) as [rest Hsplit].
    unfold caravan_timeseries_path in *.
    unfold _read_data, try_fs. unfold_M.
    rewrite Hcamels, Hsplit. cbn [getitem0]. change (lower "camelsde") with "camelsde".
    by rewrite Hfound, Hcaravan.
  - intros self catch_id w camelsde_ts caravan_ts e Hcamels Hfound Hcaravan Hjoin.
    destruct (split_map_gauge_id catch_id) as [rest Hsplit].
    unfold caravan_timeseries_path in *.
    unfold _read_data, try_fs. unfold_M.
    rewrite Hcamels, Hsplit. cbn [getitem0]. change (lower "camelsde") with "camelsde".
    by rewrite Hfound, Hcaravan, Hjoin.
  - intros attrs column w e Hget. unfold encode_column. unfold_M. by rewrite Hget.
  - intros attrs column w col e Hget Hdtype Hcodes. unfold encode_column. unfold_M.
    rewrite Hget, bool_decide_eq_false_2 by done. cbn. by rewrite Hcodes.
  - intros attrs column w col codes e Hget Hdtype Hcodes Hset. unfold encode_column.
    unfold_M. rewrite Hget, bool_decide_eq_false_2 by done. cbn.
    by rewrite Hcodes, Hset.
  - intros attrs w pre column post encoded e Hcolumns Hpre Hcolumn.
    unfold encode_categorical. rewrite Hcolumns.
    erewrite for_each_raise; [done|..].
    + apply reads_returns; [|done]. apply preserves_for_each, encode_column_reads.
    + by apply reads_raises; [apply encode_column_reads|].
  - intros file w e Hfile. unfold read_camelsde_file, try_fs. unfold_M. by rewrite Hfile.
  - intros file w df e Hfile Hindex. unfold read_camelsde_file, try_fs. unfold_M.
    by rewrite Hfile, Hindex.
  - intros self w e Hglob. unfold read_camelsde_attributes, try_fs. unfold_M.
    by rewrite Hglob.
  - intros self w pre file post e Hglob Hpre Hfile. unfold read_camelsde_attributes.
    erewrite bind_return; [|unfold try_fs; by rewrite Hglob].
    erewrite bind_raise; [done|]. apply for_list_raise.
    + intros f Hf. destruct (Hpre f Hf) as [df Hdf]. exists df.
      by apply reads_returns; [apply read_camelsde_file_reads|].
    + by apply reads_raises; [apply read_camelsde_file_reads|].
  - intros self w read_files dfs e Hglob Hfiles Hconcat. unfold read_camelsde_attributes.
    erewrite bind_return; [|unfold try_fs; by rewrite Hglob].
    erewrite bind_return;
      [|apply reads_returns; [apply preserves_for_list, read_camelsde_file_reads|done]].
    erewrite bind_raise; [done|]. unfold_M. by rewrite Hconcat.
  - intros self w read_files dfs camelsde_attrs e Hglob Hfiles Hconcat Hencode.
    unfold read_camelsde_attributes.
    erewrite bind_return; [|unfold try_fs; by rewrite Hglob].
    erewrite bind_return;
      [|apply reads_returns; [apply preserves_for_list, read_camelsde_file_reads|done]].
    erewrite bind_return; [done|]. unfold_M. by rewrite Hconcat.
  - intros self w e Hglob. unfold list_subdataset_dirs, try_fs. unfold_M. by rewrite Hglob.
  - intros self w pre d post e Hglob Hpre Hd. unfold list_subdataset_dirs.
    erewrite bind_return; [|unfold try_fs; by rewrite Hglob].
    erewrite for_filter_raise; [done|..].
    + intros x Hx. destruct (Hpre x Hx) as [b Hb]. exists b. unfold try_fs. by rewrite Hb.
    + unfold try_fs. by rewrite Hd.
  - intros subdataset_dir w e Hglob. unfold read_subdataset, try_fs. unfold_M.
    by rewrite Hglob.
  - intros subdataset_dir w pre csv_file post e Hglob Hpre Hfile. unfold read_subdataset.
    erewrite bind_return; [|unfold try_fs; by rewrite Hglob].
    erewrite bind_raise; [done|]. apply for_list_raise.
    + intros f Hf. destruct (Hpre f Hf) as [df Hdf]. exists df.
      unfold read_caravan_file, try_fs. by rewrite Hdf.
    + unfold read_caravan_file, try_fs. by rewrite Hfile.
  - intros subdataset_dir w csv_files dfr_list e Hglob Hfiles Hconcat.
    unfold read_subdataset.
    erewrite bind_return; [|unfold try_fs; by rewrite Hglob].
    erewrite bind_return;
      [|apply reads_returns; [apply preserves_for_list, read_caravan_file_reads|done]].
    unfold_M. by rewrite Hconcat.
  - intros self w e Hdirs. unfold read_caravan_attributes.
    erewrite bind_raise; [done|].
    by apply reads_raises; [apply list_subdataset_dirs_reads|].
  - intros self w pre subdataset_dir post e Hdirs Hpre Hdir.
    unfold read_caravan_attributes.
    erewrite bind_return; [|by apply reads_returns; [apply list_subdataset_dirs_reads|]].
    erewrite bind_raise; [done|]. apply for_list_raise.
    + intros d Hd. destruct (Hpre d Hd) as [dfr Hdfr]. exists dfr.
      by apply reads_returns; [apply read_subdataset_reads|].
    + by apply reads_raises; [apply read_subdataset_reads|].
  - intros self w subdataset_dirs dfs e Hdirs Hdfs Hconcat.
    unfold read_caravan_attributes.
    erewrite bind_return; [|by apply reads_returns; [apply list_subdataset_dirs_reads|]].
    erewrite bind_return;
      [|apply reads_returns; [apply preserves_for_list, read_subdataset_reads|done]].
    erewrite bind_raise; [done|]. unfold_M. by rewrite Hconcat.
  - intros self w subdataset_dirs dfs caravan_attrs e Hdirs Hdfs Hconcat Hencode.
    unfold read_caravan_attributes.
    erewrite bind_return; [|by apply reads_returns; [apply list_subdataset_dirs_reads|]].
    erewrite bind_return;
      [|apply reads_returns; [apply preserves_for_list, read_subdataset_reads|done]].
    erewrite bind_return; [done|]. unfold_M. by rewrite Hconcat.
  - intros self w e Hcamels. unfold _read_attributes. unfold_M.
    destruct (read_camelsde_attributes self w) as [[a|e0] w']; cbn in *; congruence.
  - intros self w camelsde_attrs e Hcamels Hcaravan.
    pose proof (read_camelsde_attributes_reads self w) as Hw1.
    unfold _read_attributes. unfold_M.
    destruct (read_camelsde_attributes self w) as [r1 w1]. cbn in Hcamels, Hw1. subst.
    destruct (read_caravan_attributes self w) as [[a|e0] w']; cbn in *; congruence.
  - intros self w camelsde_attrs caravan_attrs e Hcamels Hcaravan Hrenamed.
    pose proof (read_camelsde_attributes_reads self w) as Hw1.
    pose proof (read_caravan_attributes_reads self w) as Hw2.
    unfold _read_attributes. unfold_M.
    destruct (read_camelsde_attributes self w) as [r1 w1]. cbn in Hcamels, Hw1. subst.
    destruct (read_caravan_attributes self w) as [r2 w2]. cbn in Hcaravan, Hw2. subst.
    by rewrite Hrenamed.
  - intros self w camelsde_attrs caravan_attrs renamed e Hcamels Hcaravan Hrenamed Hjoin.
    pose proof (read_camelsde_attributes_reads self w) as Hw1.
    pose proof (read_caravan_attributes_reads self w) as Hw2.
    unfold _read_attributes. unfold_M.
    destruct (read_camelsde_attributes self w) as [r1 w1]. cbn in Hcamels, Hw1. subst.
    destruct (read_caravan_attributes self w) as [r2 w2]. cbn in Hcaravan, Hw2. subst.
    by rewrite Hrenamed, Hjoin.
  - intros self w camelsde_attrs caravan_attrs renamed merged_attrs e
      Hcamels Hcaravan Hrenamed Hjoin Hloc.
    pose proof (read_camelsde_attributes_reads self w) as Hw1.
    pose proof (read_caravan_attributes_reads self w) as Hw2.
    unfold _read_attributes. unfold_M.
    destruct (read_camelsde_attributes self w) as [r1 w1]. cbn in Hcamels, Hw1. subst.
    destruct (read_caravan_attributes self w) as [r2 w2]. cbn in Hcaravan, Hw2. subst.
    by rewrite Hrenamed, Hjoin, Hloc.
Qed.

End Properties.

(** ** Index alignment, from what pandas documents *)

Lemma append_empty_r (s : string) : s +:+ "" = s.
Proof.
  induction s as [|c s IH]; [done|].
  change (String c s +:+ "") with (String c (s +:+ "")). by rewrite IH.
Qed.

Lemma suffixed_empty (others columns : list string) :
  suffixed others "" <$> columns = columns.
Proof.
  induction columns as [|c columns IH]; [done|].
  cbn. rewrite IH. unfold suffixed. case_bool_decide; [|done]. by rewrite append_empty_r.
Qed.

Section Alignment.
Context {Tc : Torch} {Rn : Random} {Os : OS} {Pd : Pandas} {Laws : PandasLaws}.

(** X19: the merged time series has every date of either table; its
    columns are those of CAMELS-DE followed by those of CARAVAN, a clashing
    CARAVAN column carrying the suffix. *)
Lemma read_data_aligned (self : UnifiedCAMELSDE_CARAVAN) (catch_id : string) (w : World)
    (camelsde_ts caravan_ts merged_ts : DataFrame) :
  read_csv (camelsde_timeseries_path self catch_id) timeseries_args (w_fs w)
  = Return camelsde_ts →
  path_exists (caravan_timeseries_path self catch_id) (w_fs w) = Return true →
  read_csv (caravan_timeseries_path self catch_id) timeseries_args (w_fs w)
  = Return caravan_ts →
  (_read_data self catch_id w).1 = Return merged_ts →
  (∀ date, date ∈ df_index merged_ts
           ↔ date ∈ df_index camelsde_ts ∨ date ∈ df_index caravan_ts)
  ∧ df_columns merged_ts
    = df_columns camelsde_ts
      ++ (suffixed (df_columns camelsde_ts) "_caravan" <$> df_columns caravan_ts).
Proof.
  intros Hcamels Hfound Hcaravan.
  destruct (split_map_gauge_id catch_id) as [rest Hsplit].
  unfold caravan_timeseries_path in *.
  unfold _read_data, try_fs, read_fs. unfold_M.
  rewrite Hcamels, Hsplit. cbn [getitem0]. change (lower "camelsde") with "camelsde".
  rewrite Hfound, Hcaravan. cbn. intros Hjoin. split.
  - by apply (join_outer_index _ _ "" "_caravan").
  - rewrite (join_columns _ _ _ _ _ _ Hjoin). by rewrite suffixed_empty.
Qed.

(** X20: the relabelling lines the CARAVAN rows up with the CAMELS-DE
    ids: the CARAVAN row of a catchment whose id is free of the pattern is a
    row of the merged table under that id; and the table that is returned
    has the rows of [entities_ids], all of which are in the merged table. *)
Lemma read_attributes_aligned (self : UnifiedCAMELSDE_CARAVAN) (w : World)
    (camelsde_attrs caravan_attrs renamed merged_attrs attrs : DataFrame) :
  (read_camelsde_attributes self w).1 = Return camelsde_attrs →
  (read_caravan_attributes self w).1 = Return caravan_attrs →
  df_set_index_labels caravan_attrs (renamed_index caravan_attrs) = Return renamed →
  df_join camelsde_attrs renamed "outer" "" "_caravan" = Return merged_attrs →
  (_read_attributes self w).1 = Return attrs →
  (∀ gauge_id, contains "camelsde_" gauge_id = false →
     _map_gauge_id gauge_id ∈ df_index caravan_attrs →
     gauge_id ∈ df_index merged_attrs)
  ∧ (∀ gauge_id, gauge_id ∈ df_index camelsde_attrs → gauge_id ∈ df_index merged_attrs)
  ∧ (∀ gauge_id, gauge_id ∈ entities_ids self → gauge_id ∈ df_index merged_attrs)
  ∧ (∀ gauge_id, gauge_id ∈ df_index attrs ↔ gauge_id ∈ entities_ids self).
Proof.
  intros Hcamels Hcaravan Hrenamed Hjoin.
  pose proof (read_camelsde_attributes_reads self w) as Hw1.
  pose proof (read_caravan_attributes_reads self w) as Hw2.
  unfold _read_attributes. unfold_M.
  destruct (read_camelsde_attributes self w) as [r1 w1]. cbn in Hcamels, Hw1. subst.
  destruct (read_caravan_attributes self w) as [r2 w2]. cbn in Hcaravan, Hw2. subst.
  rewrite Hrenamed, Hjoin. cbn. intros Hloc.
  destruct (loc_rows _ _ _ _ Hloc) as [Hin Hrows].
  pose proof (join_outer_index _ _ _ _ _ Hjoin) as Hindex.
  repeat split; [| |exact Hin|apply Hrows..].
  - intros gauge_id Hfree Hmapped. apply Hindex. right.
    rewrite (set_index_labels_index _ _ _ Hrenamed). unfold renamed_index.
    apply list_elem_of_fmap. exists (_map_gauge_id gauge_id). split; [|done].
    by rewrite renamed_map_gauge_id.
  - intros gauge_id Hg. apply Hindex. by left.
Qed.

End Alignment.

(** * Further properties of the code *)

Section Further.
Context {Tc : Torch} {Rn : Random} {Os : OS} {Pd : Pandas}.

Abbreviation Method := (M (Optimizer * World)).

(** ** [Optimizer.__init__] and [_find_learning_rate] *)

(** With a name the first [if] accepts, the name plays no further part. *)
Lemma init_name_irrelevant (m : loc) (cfg : gmap string value) (name : option string)
    (w : World) :
  names_adam name → __init__ m cfg name w = __init__ m cfg None w.
Proof. intros Hname. unfold __init__. by rewrite (optimizer_class_adam _ Hname). Qed.

(** X3: the optimizer name is compared without regard to case: two names
    that differ in case only give the same result, and every spelling of
    "adam" builds what the default [None] builds. *)
Theorem init_name_case_insensitive (m : loc) (cfg : gmap string value) (a b : string)
    (w : World) :
  (lower a = lower b → __init__ m cfg (Some a) w = __init__ m cfg (Some b) w)
  ∧ (lower a = "adam" → __init__ m cfg (Some a) w = __init__ m cfg None w).
Proof.
  split.
  - intros Hab. unfold __init__. by rewrite Hab.
  - intros Hname. by apply init_name_irrelevant.
Qed.

Lemma init_returns_adam (m : loc) (cfg : gmap string value) (name : option string)
    (w w' : World) (self : Optimizer) :
  __init__ m cfg name w = (Return self, w') → names_adam name.
Proof.
  destruct name as [name|]; [|done]. cbn.
  destruct (decide (lower name = "adam")) as [|Hname]; [done|].
  destruct (shape_constant cfg || shape_scheduler cfg || shape_custom cfg) eqn:Hshape.
  - by rewrite Optimizer_init_unbound.
  - apply orb_false_iff in Hshape as [[Hc Hs]%orb_false_iff Hd].
    by rewrite Optimizer_init_no_shape.
Qed.

(** X2: what holds of every object that [__init__] returns.  The world is
    as before; [model] is absent; [learning_rate] is the configuration's
    value; the mode is one of the three; [scheduler] is present exactly in
    "scheduler" mode and [learning_rate] is a dict exactly in
    "custom_scheduler" mode; and the optimizer name was an accepted one. *)
Theorem init_establishes (m : loc) (cfg : gmap string value) (name : option string)
    (w w' : World) (self : Optimizer) :
  __init__ m cfg name w = (Return self, w') →
  w' = w
  ∧ model self = None
  ∧ learning_rate self = dict_get cfg "learning_rate"
  ∧ learning_rate_type self ∈ ["constant"; "scheduler"; "custom_scheduler"]
  ∧ (is_Some (scheduler self) ↔ learning_rate_type self = "scheduler")
  ∧ ((∃ d, learning_rate self = VDict d) ↔ learning_rate_type self = "custom_scheduler")
  ∧ names_adam name.
Proof.
  intros Hinit. pose proof (init_returns_adam _ _ _ _ _ _ Hinit) as Hname.
  revert Hinit.
  destruct (shape_constant cfg) eqn:Hc;
    [|destruct (shape_scheduler cfg) eqn:Hs; [|destruct (shape_custom cfg) eqn:Hd]].
  - rewrite Optimizer_init_constant by done.
    destruct (Adam _ _); [|done]. intros [= <- <-]. cbn.
    apply andb_true_iff in Hc as [[Hf _]%andb_true_iff _].
    unfold dict_get. destruct (cfg !! "learning_rate") as [[[| | |]|]|]; try done.
    repeat split; try done; try (by intros []); rewrite !elem_of_cons; auto.
  - destruct (shape_scheduler_keys cfg Hs) as [[step_size Hstep] [gamma Hgamma]].
    rewrite (Optimizer_init_scheduler _ _ _ _ step_size gamma) by done.
    destruct (Adam _ _); [|done]. destruct (StepLR _ _ _) as [[s o']|]; [|done].
    intros [= <- <-]. cbn.
    apply andb_true_iff in Hs as [[Hf _]%andb_true_iff _].
    unfold dict_get. destruct (cfg !! "learning_rate") as [[[| | |]|]|]; try done.
    repeat split; try done; try (by intros []); try (by eexists);
      rewrite !elem_of_cons; auto.
  - destruct (shape_custom_dict cfg Hd) as [d Hdict].
    destruct (find_learning_rate_dict d 1) as (lr & Hlr & _).
    rewrite (Optimizer_init_custom _ _ _ _ lr) by (done || by rewrite Hdict).
    destruct (Adam _ _); [|done]. intros [= <- <-]. cbn. rewrite Hdict.
    repeat split; try done; try (by intros []); try (by exists d);
      rewrite !elem_of_cons; auto.
  - by rewrite Optimizer_init_no_shape.
Qed.

(** X4: a learning rate that is neither a [float] nor a dict (a missing
    key, [None], an [int] such as 1, a [str]) is refused with the
    [ValueError], whatever the optimizer name and whatever scheduler keys
    the configuration holds. *)
Theorem init_rejects_other_types (m : loc) (cfg : gmap string value)
    (name : option string) (w : World) :
  (∀ f, cfg !! "learning_rate" ≠ Some (VScalar (SFloat f))) →
  (∀ d, cfg !! "learning_rate" ≠ Some (VDict d)) →
  __init__ m cfg name w = (Raise invalid_learning_rate, w).
Proof.
  intros Hfloat Hdict. apply Optimizer_init_no_shape.
  - unfold shape_constant. destruct (cfg !! "learning_rate") as [[[| |f|]|d]|]; try done.
    by destruct (Hfloat f).
  - unfold shape_scheduler. destruct (cfg !! "learning_rate") as [[[| |f|]|d]|]; try done.
    by destruct (Hfloat f).
  - unfold shape_custom. destruct (cfg !! "learning_rate") as [[[| |f|]|d]|]; try done.
    by destruct (Hdict d).
Qed.

(** X5: a custom schedule all of whose keys are above 1 (the empty
    schedule among them) makes [__init__] build Adam with [lr=None]. *)
Theorem init_late_schedule (m : loc) (cfg : gmap string value) (name : option string)
    (w : World) (d : gmap Z scalar) :
  names_adam name →
  cfg !! "learning_rate" = Some (VDict d) →
  (∀ k, is_Some (d !! k) → 1 < k) →
  __init__ m cfg name w
  = (match Adam (parameters m) (VScalar SNone) with
     | Return o => Return (MkOptimizer (VDict d) o "custom_scheduler" None None)
     | Raise e => Raise e
     end, w).
Proof.
  intros Hname Hcfg Hlate.
  assert (dict_get cfg "learning_rate" = VDict d) as Hget by (unfold dict_get; by rewrite Hcfg).
  destruct (find_learning_rate_dict d 1) as (lr & Hlr & Hcases).
  assert (lr = SNone) as ->.
  { destruct Hcases as [(k & Hk & Hle & _)|[-> _]]; [|done].
    specialize (Hlate k (ex_intro _ lr Hk)). lia. }
  rewrite (Optimizer_init_custom _ _ _ _ SNone); [by rewrite Hget|done| |by rewrite Hget].
  unfold shape_custom. by rewrite Hcfg.
Qed.

Lemma find_learning_rate_loop_same (d : gmap Z scalar) (e1 e2 : Z) (keys : list Z) :
  (∀ k, k ∈ keys → (k ≤ e1 ↔ k ≤ e2)) →
  find_learning_rate_loop d e1 keys = find_learning_rate_loop d e2 keys.
Proof.
  induction keys as [|k keys IH]; intros Hsame; [done|]. cbn [find_learning_rate_loop].
  rewrite !Z.geb_leb.
  assert (k ≤ e1 ↔ k ≤ e2) as Hk by (apply Hsame; left).
  destruct (Z.leb_spec k e1), (Z.leb_spec k e2); try lia; [done|].
  apply IH. intros; apply Hsame; by right.
Qed.

(** X6: the schedule is piecewise constant: two epochs with the same keys
    at or below them get the same learning rate. *)
Theorem find_learning_rate_between_keys (d : gmap Z scalar) (e1 e2 : Z) :
  (∀ k, is_Some (d !! k) → (k ≤ e1 ↔ k ≤ e2)) →
  _find_learning_rate (VDict d) e1 = _find_learning_rate (VDict d) e2.
Proof.
  intros Hsame. unfold _find_learning_rate. apply find_learning_rate_loop_same.
  intros k Hk. by apply Hsame, elem_of_sorted_keys.
Qed.

(** X7: at an epoch that is a key of the schedule, the learning rate is
    the value stored under that key. *)
Theorem find_learning_rate_at_key (d : gmap Z scalar) (epoch : Z) (v : scalar) :
  d !! epoch = Some v → _find_learning_rate (VDict d) epoch = Return v.
Proof.
  intros Hv. destruct (find_learning_rate_dict d epoch) as (lr & Hlr & Hcases).
  rewrite Hlr. destruct Hcases as [(k & Hk & Hle & Hmax)|[_ Hall]].
  - assert (epoch ≤ k) by (apply Hmax; [by eexists|lia]).
    assert (k = epoch) as -> by lia. congruence.
  - specialize (Hall epoch (ex_intro _ v Hv)). lia.
Qed.

(** ** [update_optimizer_lr] *)

Lemma update_optimizer_lr_scheduler (self : Optimizer) (w : World) (epoch : Z)
    (s : LRScheduler) :
  learning_rate_type self = "scheduler" → scheduler self = Some s →
  update_optimizer_lr epoch (self, w) = self_scheduler_step s (self, w).
Proof.
  intros Htype Hs. unfold update_optimizer_lr.
  erewrite bind_return; [|reflexivity]. rewrite Htype, decide_True by done.
  erewrite bind_return; [done|]. unfold getattr_opt. by rewrite Hs.
Qed.

Lemma update_optimizer_lr_no_scheduler (self : Optimizer) (w : World) (epoch : Z) :
  learning_rate_type self = "scheduler" → scheduler self = None →
  update_optimizer_lr epoch (self, w) = (Raise (AttributeError "scheduler"), (self, w)).
Proof.
  intros Htype Hs. unfold update_optimizer_lr.
  erewrite bind_return; [|reflexivity]. rewrite Htype, decide_True by done.
  erewrite bind_raise; [done|]. unfold getattr_opt. by rewrite Hs.
Qed.

Lemma update_optimizer_lr_constant (self : Optimizer) (w : World) (epoch : Z) :
  learning_rate_type self ≠ "scheduler" → learning_rate_type self ≠ "custom_scheduler" →
  update_optimizer_lr epoch (self, w) = (Return tt, (self, w)).
Proof.
  intros Hs Hc. unfold update_optimizer_lr.
  erewrite bind_return; [|reflexivity]. by rewrite !decide_False by done.
Qed.

Lemma update_optimizer_lr_custom_raise (self : Optimizer) (w : World) (epoch : Z) (e : exn) :
  learning_rate_type self = "custom_scheduler" →
  _find_learning_rate (learning_rate self) epoch = Raise e →
  update_optimizer_lr epoch (self, w)
  = match param_groups (optimizer self) with
    | [] => (Return tt, (with_lr SNone self, w))
    | _ :: _ => (Raise e, (self, w))
    end.
Proof.
  intros Htype Hlr. unfold update_optimizer_lr.
  erewrite bind_return; [|reflexivity]. rewrite Htype.
  rewrite decide_False, decide_True by done.
  do 2 (erewrite bind_return; [|reflexivity]).
  destruct (param_groups (optimizer self)) as [|g gs] eqn:Hg.
  - erewrite bind_return; [|reflexivity]. unfold write_param_groups, with_lr.
    by rewrite Hg.
  - erewrite bind_raise; [done|]. apply (for_list_raise _ []); [by intros ? ?%elem_of_nil|].
    unfold_M. by rewrite Hlr.
Qed.

(** The attributes and the world that [update_optimizer_lr] never writes. *)
Lemma update_optimizer_lr_keeps (self : Optimizer) (w : World) (epoch : Z) :
  let s' := (update_optimizer_lr epoch (self, w)).2 in
  s'.2 = w ∧ learning_rate s'.1 = learning_rate self
  ∧ learning_rate_type s'.1 = learning_rate_type self ∧ model s'.1 = model self.
Proof.
  destruct (decide (learning_rate_type self = "scheduler")) as [Hs|Hs].
  { destruct (scheduler self) as [s|] eqn:Hsched.
    - rewrite (update_optimizer_lr_scheduler _ _ _ s) by done.
      unfold self_scheduler_step. by destruct (scheduler_step _ _) as [r [s' o']].
    - by rewrite update_optimizer_lr_no_scheduler. }
  destruct (decide (learning_rate_type self = "custom_scheduler")) as [Hc|Hc].
  { destruct (_find_learning_rate (learning_rate self) epoch) as [lr|e] eqn:Hlr.
    - by rewrite (update_optimizer_lr_custom _ _ _ lr).
    - rewrite (update_optimizer_lr_custom_raise _ _ _ e) by done.
      by destruct (param_groups _). }
  by rewrite update_optimizer_lr_constant.
Qed.

Lemma same_but_lr_set_lr (lr : scalar) (groups : list (gmap string scalar)) :
  Forall2 same_but_lr groups (set_lr lr <$> groups).
Proof.
  induction groups as [|g groups IH]; constructor; [|done].
  intros k Hk. unfold set_lr. by rewrite lookup_insert_ne.
Qed.

Lemma same_but_lr_refl (groups : list (gmap string scalar)) :
  Forall2 same_but_lr groups groups.
Proof. induction groups; by constructor. Qed.

(** X8: what [update_optimizer_lr] leaves alone.  It never touches the
    world, [learning_rate], [learning_rate_type] or [model]; outside
    "scheduler" mode it also keeps [scheduler], the optimizer's state and
    parameters, the number of parameter groups and every key of a group
    other than "lr". *)
Theorem update_optimizer_lr_frame (self : Optimizer) (w : World) (epoch : Z) :
  let s' := (update_optimizer_lr epoch (self, w)).2 in
  s'.2 = w
  ∧ learning_rate s'.1 = learning_rate self
  ∧ learning_rate_type s'.1 = learning_rate_type self
  ∧ model s'.1 = model self
  ∧ (learning_rate_type self ≠ "scheduler" →
     scheduler s'.1 = scheduler self
     ∧ opt_state (optimizer s'.1) = opt_state (optimizer self)
     ∧ opt_params (optimizer s'.1) = opt_params (optimizer self)
     ∧ Forall2 same_but_lr (param_groups (optimizer self)) (param_groups (optimizer s'.1))).
Proof.
  pose proof (update_optimizer_lr_keeps self w epoch) as (Hw & Hlr & Htype & Hmodel).
  cbn zeta in *. repeat (split; [done|]). intros Hs.
  destruct (decide (learning_rate_type self = "custom_scheduler")) as [Hc|Hc].
  - destruct (_find_learning_rate (learning_rate self) epoch) as [lr|e] eqn:Hfind.
    + rewrite (update_optimizer_lr_custom _ _ _ lr) by done. cbn.
      repeat split. apply same_but_lr_set_lr.
    + rewrite (update_optimizer_lr_custom_raise _ _ _ e) by done.
      destruct (param_groups (optimizer self)) eqn:Hg; cbn; rewrite ?Hg; repeat split;
        first [apply same_but_lr_refl|apply (same_but_lr_set_lr SNone [])].
  - rewrite update_optimizer_lr_constant by done. cbn.
    repeat split. apply same_but_lr_refl.
Qed.

Lemma with_lr_with_lr (lr lr' : scalar) (self : Optimizer) :
  with_lr lr' (with_lr lr self) = with_lr lr' self.
Proof.
  unfold with_lr, set_optimizer. cbn. do 2 f_equal.
  rewrite <- list_fmap_compose. apply list_fmap_ext. intros _ g _. cbn.
  unfold set_lr. by rewrite insert_insert_eq.
Qed.

(** X9: in "constant" and "custom_scheduler" mode the learning rate set
    for an epoch does not depend on the calls made before: after a call
    that returned, a call for [epoch] gives what it gives on the object
    as it was. *)
Theorem update_optimizer_lr_last_wins (self : Optimizer) (w : World) (before epoch : Z)
    (s : Optimizer * World) :
  learning_rate_type self ≠ "scheduler" →
  update_optimizer_lr before (self, w) = (Return tt, s) →
  update_optimizer_lr epoch s = update_optimizer_lr epoch (self, w).
Proof.
  intros Hs Hbefore.
  destruct (decide (learning_rate_type self = "custom_scheduler")) as [Hc|Hc]; cycle 1.
  { rewrite update_optimizer_lr_constant in Hbefore by done. by injection Hbefore as <-. }
  destruct (learning_rate self) as [x|d] eqn:Hlr.
  - rewrite (update_optimizer_lr_custom_raise _ _ _ (AttributeError "keys")) in Hbefore
      by (done || by rewrite Hlr).
    destruct (param_groups (optimizer self)) eqn:Hg; [|done]. injection Hbefore as <-.
    rewrite !(update_optimizer_lr_custom_raise _ _ _ (AttributeError "keys"))
      by (done || by cbn; rewrite Hlr).
    cbn. rewrite !Hg. cbn. by rewrite with_lr_with_lr.
  - destruct (find_learning_rate_dict d before) as (lr1 & Hlr1 & _).
    destruct (find_learning_rate_dict d epoch) as (lr2 & Hlr2 & _).
    rewrite (update_optimizer_lr_custom _ _ _ lr1) in Hbefore by (done || by rewrite Hlr).
    injection Hbefore as <-.
    rewrite !(update_optimizer_lr_custom _ _ _ lr2) by (done || by cbn; rewrite Hlr).
    by rewrite with_lr_with_lr.
Qed.

(** X10: outside "scheduler" mode [update_optimizer_lr] returns on every
    object whose attributes fit its mode; an exception of this method can
    only come from the scheduler. *)
Theorem update_optimizer_lr_returns (self : Optimizer) (w : World) (epoch : Z) :
  valid_optimizer self → learning_rate_type self ≠ "scheduler" →
  (update_optimizer_lr epoch (self, w)).1 = Return tt.
Proof.
  intros [_ Hcustom] Hs.
  destruct (decide (learning_rate_type self = "custom_scheduler")) as [Hc|Hc].
  - destruct (Hcustom Hc) as [d Hd].
    destruct (find_learning_rate_dict d epoch) as (lr & Hlr & _).
    by rewrite (update_optimizer_lr_custom _ _ _ lr) by (done || by rewrite Hd).
  - by rewrite update_optimizer_lr_constant.
Qed.

(** ** [clip_grad_and_step] *)

Lemma invoke_no_model (c : method_call) (self : Optimizer) (w : World) :
  valid_optimizer self → model self = None →
  let s' := (invoke c (self, w)).2 in
  valid_optimizer s'.1 ∧ model s'.1 = None
  ∧ w_params s'.2 = w_params w
  ∧ w_stdout s'.2 = (w_stdout w ++ skipped_lines c)%list.
Proof.
  intros Hvalid Hmodel. destruct c as [epoch|epoch batch]; cbn [invoke skipped_lines].
  - pose proof (update_optimizer_lr_keeps self w epoch) as (Hw & _ & _ & Hm).
    pose proof (update_optimizer_lr_valid self w epoch Hvalid) as Hv.
    cbn zeta in *. rewrite Hw, Hm, app_nil_r. by split.
  - rewrite (clip_grad_and_step_caught self self w w _ _ (AttributeError "model"))
      by by apply try_clip_no_model.
    by split.
Qed.

(** X1: an object built by [__init__] never steps.  [__init__] does not
    assign [self.model] and no method does, so after any sequence of calls
    of the two public methods the parameters in the world are as before,
    and every [clip_grad_and_step] has printed its two lines. *)
Theorem built_optimizer_never_steps (m : loc) (cfg : gmap string value)
    (name : option string) (w0 w : World) (self : Optimizer) (calls : list method_call) :
  __init__ m cfg name w0 = (Return self, w0) →
  let s' := invoke_all calls (self, w) in
  model s'.1 = None
  ∧ w_params s'.2 = w_params w
  ∧ w_stdout s'.2 = (w_stdout w ++ flat_map skipped_lines calls)%list.
Proof.
  intros (Hvalid & Hmodel & _)%Optimizer_init_valid. cbn zeta.
  revert self w Hvalid Hmodel.
  induction calls as [|c calls IH]; intros self w Hvalid Hmodel.
  { cbn. by rewrite app_nil_r. }
  unfold invoke_all. cbn [fold_left flat_map].
  destruct (invoke_no_model c self w Hvalid Hmodel) as (Hv & Hm & Hp & Hout).
  destruct (invoke c (self, w)).2 as [self1 w1]. cbn [fst snd] in *.
  destruct (IH self1 w1 Hv Hm) as (IHm & IHp & IHout). unfold invoke_all in *.
  rewrite IHm, IHp, IHout, Hp, Hout. by rewrite <- app_assoc.
Qed.

(** X11: what [clip_grad_and_step] leaves alone.  The generators, the
    files and the dicts are as before, and so are all attributes but
    [optimizer]; parameters other than the model's and the optimizer's are
    untouched; and either nothing is printed, or the two lines are, and
    then the call returns with the optimizer as it was. *)
Theorem clip_grad_and_step_frame (self : Optimizer) (w : World) (epoch batch : Z) :
  let r := clip_grad_and_step epoch batch (self, w) in
  w_rng r.2.2 = w_rng w ∧ w_fs r.2.2 = w_fs w ∧ w_dicts r.2.2 = w_dicts w
  ∧ learning_rate r.2.1 = learning_rate self
  ∧ learning_rate_type r.2.1 = learning_rate_type self
  ∧ scheduler r.2.1 = scheduler self
  ∧ model r.2.1 = model self
  ∧ (∀ l, model self ≠ Some l → opt_params (optimizer self) ≠ l →
          w_params r.2.2 !! l = w_params w !! l)
  ∧ (w_stdout r.2.2 = w_stdout w
     ∨ r.1 = Return tt ∧ optimizer r.2.1 = optimizer self
       ∧ ∃ e, w_stdout r.2.2
              = (w_stdout w ++ [skipped_message epoch batch; error_message e])%list).
Proof.
  cbn zeta. destruct (model self) as [m|] eqn:Hmodel; cycle 1.
  { rewrite (clip_grad_and_step_caught self self w w _ _ (AttributeError "model"))
      by by apply try_clip_no_model.
    cbn. repeat split; try done. right. repeat split. by eexists. }
  assert (∀ (g : Tensor) (ps : param_state Tensor) (l : loc),
    Some m ≠ Some l → w_params (with_grad m ps g w) !! l = w_params w !! l) as Hgrad.
  { intros g ps l Hl. cbn. apply lookup_insert_ne. congruence. }
  destruct (w_params w !! m) as [ps|] eqn:Hps; cycle 1.
  { rewrite (clip_grad_and_step_caught self self w w _ _ (ReferenceError "parameters")).
    - cbn. repeat split; try done. right. repeat split. by eexists.
    - unfold try_clip, getattr_opt, world, clip_params, parameters. unfold_M.
      by rewrite Hmodel, Hps. }
  destruct (clip_grad_norm_ (p_grad ps) 1 true) as [[[]|e] g] eqn:Hclip.
  - rewrite (clip_grad_and_step_clipped self self w (with_grad m ps g w))
      by by rewrite (try_clip_model self w m ps (Return tt) g).
    unfold self_optimizer_step.
    destruct (w_params (with_grad m ps g w) !! opt_params (optimizer self)) as [ps'|];
      [|cbn; repeat split; try done; [by intros; apply lookup_insert_ne; congruence|by left]].
    destruct (optimizer_step _ _) as [r [o' ps'']]. cbn.
    repeat split; try done; [|by left].
    intros l Hl Ho. rewrite lookup_insert_ne by done. apply lookup_insert_ne. congruence.
  - rewrite (clip_grad_and_step_caught self self w (with_grad m ps g w) _ _ e)
      by by rewrite (try_clip_model self w m ps (Raise e) g).
    cbn. repeat split; try done.
    + intros; apply lookup_insert_ne; congruence.
    + right. repeat split. by eexists.
Qed.

(** ** [upload_to_device] *)

Lemma kept_refl (d : list (string * Obj)) : Forall2 kept d d.
Proof. induction d; by constructor. Qed.

Lemma kept_trans (a b c : list (string * Obj)) :
  Forall2 kept a b → Forall2 kept b c → Forall2 kept a c.
Proof.
  intros Hab. revert c. induction Hab as [|x y a b [Hk Hv] _ IH]; intros c Hbc.
  - by inversion Hbc.
  - inversion Hbc as [|? z ? c' [Hk' Hv'] Hbc']; subst. constructor; [|by apply IH].
    split; [congruence|]. intros Hx. rewrite Hv' by (by rewrite Hk). by apply Hv.
Qed.

Lemma entries_set_kept (d : list (string * Obj)) (key : string) (v v' : Obj) :
  is_tensor_key key = true → entries_get d key = Some v →
  Forall2 kept d (entries_set d key v').
Proof.
  intros Hkey. induction d as [|[k x] d IH]; [done|]. cbn.
  destruct (decide (k = key)) as [->|Hk]; intros Hget.
  - constructor; [|apply kept_refl]. split; [done|]. cbn. congruence.
  - constructor; [done|by apply IH].
Qed.

Lemma upload_loop_keeps (sample : loc) (device : string) (keys : list string) :
  ∀ (w : World) (d : list (string * Obj)),
    w_dicts w !! sample = Some d →
    let w' := (upload_loop sample device keys w).2 in
    beside_dicts w' = beside_dicts w
    ∧ (∀ l, l ≠ sample → w_dicts w' !! l = w_dicts w !! l)
    ∧ ∃ d', w_dicts w' !! sample = Some d' ∧ Forall2 kept d d'.
Proof.
  induction keys as [|key keys IH]; intros w d Hw; cbn zeta.
  { cbn. repeat split; try done. exists d. split; [done|apply kept_refl]. }
  assert (∀ w1 : World, w1 = w →
    beside_dicts w1 = beside_dicts w
    ∧ (∀ l, l ≠ sample → w_dicts w1 !! l = w_dicts w !! l)
    ∧ ∃ d', w_dicts w1 !! sample = Some d' ∧ Forall2 kept d d') as Hsame.
  { intros w1 ->. repeat split; try done. exists d. split; [done|apply kept_refl]. }
  cbn [upload_loop]. unfold mbind at 1. unfold M_bind at 1.
  destruct (is_tensor_key key) eqn:Hkey; cycle 1.
  { unfold mret at 1. unfold M_ret at 1. by apply IH. }
  unfold dict_getitem, dict_setitem, load_dict, store_dict. unfold_M. rewrite Hw.
  destruct (entries_get d key) as [v|] eqn:Hget; [|by apply Hsame].
  destruct (tensor_to v device) as [v'|e]; [|by apply Hsame].
  rewrite Hw.
  destruct (IH (set_dicts (<[sample := entries_set d key v']>) w) (entries_set d key v'))
    as (Hbeside & Hother & d' & Hd' & Hkept); [cbn; by rewrite lookup_insert_eq|].
  cbn zeta in *. rewrite Hbeside. split; [done|]. split.
  - intros l Hl. rewrite Hother by done. cbn. by rewrite lookup_insert_ne.
  - exists d'. split; [done|]. eapply kept_trans; [|done]. by eapply entries_set_kept.
Qed.

(** X12: what [upload_to_device] leaves alone, whether it returns or
    raises.  Outside the dicts the world is as before; every other dict is
    untouched; and the sample keeps its keys in their order and the values
    under "basin" and "date". *)
Theorem upload_to_device_keeps (sample : loc) (device : string) (w : World) :
  let w' := (upload_to_device sample device w).2 in
  beside_dicts w' = beside_dicts w
  ∧ (∀ l, l ≠ sample → w_dicts w' !! l = w_dicts w !! l)
  ∧ (∀ d, w_dicts w !! sample = Some d →
          ∃ d', w_dicts w' !! sample = Some d' ∧ Forall2 kept d d').
Proof.
  cbn zeta. unfold upload_to_device, load_dict. unfold_M.
  destruct (w_dicts w !! sample) as [d|] eqn:Hw; [|done].
  destruct (upload_loop_keeps sample device d.*1 w d Hw) as (Hbeside & Hother & Hsample).
  cbn zeta in *. destruct (upload_loop _ _ _ _) as [[[]|e] w']; cbn [fst snd] in *.
  - split; [done|]. split; [done|]. by intros ? [= <-].
  - split; [done|]. split; [done|]. by intros ? [= <-].
Qed.

Lemma upload_loop_stops (sample : loc) (device : string)
    (moved_before moved_after post : list (string * Obj)) (k : string) (v : Obj) (e : exn) :
  Forall2 (moved device) moved_before moved_after →
  is_tensor_key k = true → tensor_to v device = Raise e →
  ∀ (pre : list (string * Obj)) (w : World),
    NoDup (pre ++ moved_before ++ (k, v) :: post).*1 →
    w_dicts w !! sample = Some (pre ++ moved_before ++ (k, v) :: post) →
    upload_loop sample device (moved_before ++ (k, v) :: post).*1 w
    = (Raise e, set_dicts (<[sample := pre ++ moved_after ++ (k, v) :: post]>) w).
Proof.
  intros Hmoved Hk He.
  induction Hmoved as [|[k1 v1] [k1' v1'] t t' [Hkey Hval] Ht IH]; intros pre w Hnd Hw.
  - cbn [app fmap list_fmap fst upload_loop]. unfold mbind at 1. unfold M_bind at 1.
    rewrite (upload_round _ _ pre post k v) by done.
    rewrite Hk, He. by rewrite set_dicts_id.
  - cbn in Hkey, Hval. subst k1'.
    change (((k1, v1) :: t) ++ (k, v) :: post) with ((k1, v1) :: t ++ (k, v) :: post) in *.
    cbn [app fmap list_fmap fst upload_loop].
    unfold mbind at 1. unfold M_bind at 1.
    rewrite (upload_round _ _ pre (t ++ (k, v) :: post) k1 v1) by done.
    destruct (is_tensor_key k1).
    + rewrite Hval. rewrite (IH (pre ++ [(k1, v1')])).
      * by rewrite set_dicts_twice, <- app_assoc.
      * rewrite <- app_assoc. cbn. by rewrite fmap_app, fmap_cons in *.
      * cbn. by rewrite lookup_insert_eq, <- app_assoc.
    + subst v1'. rewrite (IH (pre ++ [(k1, v1)])).
      * by rewrite <- app_assoc.
      * by rewrite <- app_assoc.
      * by rewrite <- app_assoc.
Qed.

(** X13: [upload_to_device] is not all-or-nothing.  When [.to] raises on
    an entry, the entries before it have already been moved in the
    caller's dict, and the failing entry and those after it are as they
    were. *)
Theorem upload_to_device_partial (sample : loc) (device : string) (w : World)
    (moved_before moved_after post : list (string * Obj)) (k : string) (v : Obj) (e : exn) :
  w_dicts w !! sample = Some (moved_before ++ (k, v) :: post) →
  NoDup (moved_before ++ (k, v) :: post).*1 →
  Forall2 (moved device) moved_before moved_after →
  is_tensor_key k = true → tensor_to v device = Raise e →
  upload_to_device sample device w
  = (Raise e, set_dicts (<[sample := moved_after ++ (k, v) :: post]>) w).
Proof.
  intros Hw Hnd Hmoved Hk He. unfold upload_to_device.
  erewrite bind_return; [|unfold load_dict; by rewrite Hw].
  erewrite bind_raise; [done|].
  by apply (upload_loop_stops _ _ _ _ _ _ _ _ Hmoved Hk He []).
Qed.

(** ** [set_random_seed] *)

(** X14: [set_random_seed] seeds in the order random, numpy, cuda, torch
    and stops at the first failure: when numpy refuses the seed, Python's
    generator has been seeded already and the two of torch have not. *)
Theorem set_random_seed_partial (seed : Z) (w : World) (g1 : RandomGen) (g2 : NumpyGen)
    (e : exn) :
  random_seed seed (random_gen (w_rng w)) = (Return tt, g1) →
  np_random_seed seed (numpy_gen (w_rng w)) = (Raise e, g2) →
  set_random_seed (Some seed) w
  = (Raise e, set_rng (λ s, RngState g1 g2 (torch_gen s) (cuda_gen s)) w).
Proof.
  intros Hrandom Hnumpy.
  unfold set_random_seed, with_random, with_numpy, with_cuda, with_torch. unfold_M. cbn.
  rewrite Hrandom. cbn. by rewrite Hnumpy.
Qed.

(** ** What each function can reach *)

Lemma print_beside_files (line : string) : preserves beside_files (print line).
Proof. by intros w. Qed.

Lemma with_fs_beside_files {A} (f : FS → result A * FS) :
  preserves beside_files (with_fs f).
Proof. intros w. unfold with_fs. by destruct (f _). Qed.

Lemma with_fs_stdout {A} (f : FS → result A * FS) : preserves w_stdout (with_fs f).
Proof. intros w. unfold with_fs. by destruct (f _). Qed.

Lemma with_random_beside_rng {A} (f : RandomGen → result A * RandomGen) :
  preserves beside_rng (with_random f).
Proof. intros w. unfold with_random. by destruct (f _). Qed.

Lemma with_numpy_beside_rng {A} (f : NumpyGen → result A * NumpyGen) :
  preserves beside_rng (with_numpy f).
Proof. intros w. unfold with_numpy. by destruct (f _). Qed.

Lemma with_torch_beside_rng {A} (f : TorchGen → result A * TorchGen) :
  preserves beside_rng (with_torch f).
Proof. intros w. unfold with_torch. by destruct (f _). Qed.

Lemma with_cuda_beside_rng {A} (f : CudaGen → result A * CudaGen) :
  preserves beside_rng (with_cuda f).
Proof. intros w. unfold with_cuda. by destruct (f _). Qed.

Hint Resolve preserves_read_fs preserves_try_fs print_beside_files with_fs_beside_files
  with_fs_stdout with_random_beside_rng with_numpy_beside_rng with_torch_beside_rng
  with_cuda_beside_rng : frame.

(** X15: the footprint of the module-level functions and of the readers,
    whether they return or raise.  [create_folder] reaches the file
    system and standard output only, [write_report] the file system only,
    [set_random_seed] the generators only, and the two readers of the
    dataset change nothing. *)
Theorem footprints :
  (∀ folder_path, preserves beside_files (create_folder folder_path))
  ∧ (∀ file_path text, preserves beside_files (write_report file_path text))
  ∧ (∀ file_path text, preserves w_stdout (write_report file_path text))
  ∧ (∀ seed, preserves beside_rng (set_random_seed seed))
  ∧ (∀ self, preserves id (_read_attributes self))
  ∧ (∀ self catch_id, preserves id (_read_data self catch_id)).
Proof.
  repeat split.
  - intros folder_path. unfold create_folder. frame.
  - intros file_path text. unfold write_report. frame.
  - intros file_path text. unfold write_report. frame.
  - intros seed. unfold set_random_seed. frame.
  - apply read_attributes_reads.
  - apply read_data_reads.
Qed.

End Further.

(** ** Properties that rest on the laws of [os] *)

Section Files.
Context {Tc : Torch} {Rn : Random} {Os : OS} {Pd : Pandas} {Laws : OSLaws}.

Lemma create_folder_found (folder_path : string) (w : World) :
  os_path_exists folder_path (w_fs w) = true →
  create_folder folder_path w
  = (Return tt, printed ["Folder '" +:+ folder_path +:+ "' already exists."] w).
Proof.
  intros Hfound. unfold create_folder. erewrite bind_return; [|reflexivity].
  by rewrite Hfound.
Qed.

(** X16: [create_folder] can be repeated.  After a call that returned,
    the folder is there, so a second call creates nothing and prints that
    the folder already exists. *)
Theorem create_folder_twice (folder_path : string) (w w1 : World) :
  create_folder folder_path w = (Return tt, w1) →
  create_folder folder_path w1
  = (Return tt, printed ["Folder '" +:+ folder_path +:+ "' already exists."] w1).
Proof.
  intros Hfirst. apply create_folder_found. revert Hfirst.
  unfold create_folder, read_fs, with_fs, print. unfold_M.
  destruct (os_path_exists folder_path (w_fs w)) eqn:Hfound; cbn.
  - by intros [= <-].
  - destruct (os_makedirs folder_path (w_fs w)) as [[[]|e] fs1] eqn:Hmk; [|done].
    intros [= <-]. cbn. by eapply makedirs_exists.
Qed.

(** X17: [write_report] appends from the second call on.  After a call
    that returned, the file is there, so the next call on the same path
    opens it in mode "a" and truncates nothing. *)
Theorem write_report_twice (file_path text text' : string) (w w1 : World) :
  write_report file_path text w = (Return tt, w1) →
  write_report file_path text' w1 = append_report file_path text' w1.
Proof.
  intros Hfirst.
  assert (os_path_exists file_path (w_fs w1) = true) as Hfound.
  { revert Hfirst. unfold write_report, read_fs, with_fs. unfold_M.
    destruct (open_ _ _ _) as [[f|e] fs1] eqn:Hopen; [|done]. cbn.
    destruct (file_write _ _ _) as [[[]|e] fs2] eqn:Hwrite; [|done]. cbn.
    destruct (file_close _ _) as [[[]|e] fs3] eqn:Hclose; [|done].
    intros [= <-]. cbn.
    eapply close_keeps; [done|]. eapply write_keeps; [done|]. by eapply open_exists. }
  unfold write_report, append_report. erewrite bind_return; [|reflexivity].
  by rewrite Hfound.
Qed.

End Files.

(** ** Properties that rest on the laws of the generators *)

Section Seeding.
Context {Tc : Torch} {Rn : Random} {Os : OS} {Pd : Pandas} {Laws : RandomLaws}.

(** X18: seeding is reproducible.  When [set_random_seed(seed)] returns,
    the state of the four generators depends on [seed] alone: from any
    other world the call returns too, with the same generators. *)
Theorem set_random_seed_reproducible (seed : Z) (w w1 w' : World) :
  set_random_seed (Some seed) w = (Return tt, w1) →
  ∃ w1', set_random_seed (Some seed) w' = (Return tt, w1') ∧ w_rng w1' = w_rng w1.
Proof.
  intros Hfirst.
  assert (∃ g1 g2 g3 g4,
    random_seed seed (random_gen (w_rng w)) = (Return tt, g1)
    ∧ np_random_seed seed (numpy_gen (w_rng w)) = (Return tt, g2)
    ∧ torch_cuda_manual_seed seed (cuda_gen (w_rng w)) = (Return tt, g3)
    ∧ torch_manual_seed seed (torch_gen (w_rng w)) = (Return tt, g4))
    as (g1 & g2 & g3 & g4 & Hrandom & Hnumpy & Hcuda & Htorch).
  { revert Hfirst.
    unfold set_random_seed, with_random, with_numpy, with_cuda, with_torch.
    unfold_M. cbn.
    destruct (random_seed seed _) as [[[]|e] g1]; [|done]. cbn.
    destruct (np_random_seed seed _) as [[[]|e] g2]; [|done]. cbn.
    destruct (torch_cuda_manual_seed seed _) as [[[]|e] g3]; [|done]. cbn.
    destruct (torch_manual_seed seed _) as [[[]|e] g4]; [|done].
    intros _. by exists g1, g2, g3, g4. }
  rewrite (set_random_seed_some seed w g1 g2 g3 g4) in Hfirst by done.
  injection Hfirst as <-. eexists. split.
  - apply (set_random_seed_some seed w' g1 g2 g3 g4).
    + by eapply random_seed_resets.
    + by eapply np_random_seed_resets.
    + by eapply cuda_manual_seed_resets.
    + by eapply torch_manual_seed_resets.
  - done.
Qed.

End Seeding.

(** ** The dataset: labels *)

Section Labels.
Context {Tc : Torch} {Rn : Random} {Os : OS} {Pd : Pandas}.

(** X22: the relabelling of the CARAVAN index gives each row the id it
    stands for, on a table that mixes sub-datasets too: a label of another
    sub-dataset that holds no "camelsde_" is kept, a mapped label gets its
    CAMELS-DE id back. *)
Theorem renamed_index_stands_for (caravan_attrs : DataFrame) (ids : list string) :
  Forall2 stands_for (df_index caravan_attrs) ids →
  renamed_index caravan_attrs = ids.
Proof.
  unfold renamed_index. generalize (df_index caravan_attrs). intros index Hindex.
  induction Hindex as [|label gauge_id labels ids [Hfree Hlabel] _ IH].
  - done.
  - rewrite fmap_cons, IH. f_equal. destruct Hlabel as [->| ->].
    + by apply replace_go_absent.
    + by apply renamed_map_gauge_id.
Qed.

End Labels.

(** * Concrete runs *)

Import Tiny.

Example lower_ADAM : lower "AdAm" = "adam".
Proof. reflexivity. Qed.

Example split_example : split "camelsde_DE1_x" "_" = Return ["camelsde"; "DE1"; "x"].
Proof. reflexivity. Qed.

Example split_multi : split "a--b-c--" "--" = Return ["a"; "b-c"; ""].
Proof. reflexivity. Qed.

Example replace_example : replace "camelsde_DE110000" "camelsde_" "" = "DE110000".
Proof. reflexivity. Qed.

Example replace_all_example : replace "xabyabz" "ab" "Q" = "xQyQz".
Proof. reflexivity. Qed.

Example sorted_reverse_example : sorted_reverse [1; 30; 10; 20] = [30; 20; 10; 1].
Proof. reflexivity. Qed.

Example find_learning_rate_example :
  _find_learning_rate (VDict schedule) 15 = Return (SFloat 0.25%float)
  ∧ _find_learning_rate (VDict schedule) 20 = Return (SFloat 0.125%float)
  ∧ _find_learning_rate (VDict schedule) 0 = Return SNone.
Proof. by vm_compute. Qed.

(** C1 on a module whose gradients hold a NaN, and on one whose gradients
    are finite. *)
Lemma clip_grad_and_step_witness :
  (clip_grad_and_step 3 5 (with_model, exploded)
   = (Return tt,
      (with_model,
       printed [skipped_message 3 5; error_message (Exn "RuntimeError" "non-finite norm")]
         (with_grad 1%positive (ParamState [Some 10; Some (-4)] [Some 3; None])
            [Some 3; None] exploded))))
  ∧ (clip_grad_and_step 3 5 (with_model, training)
     = (Return tt,
        (set_optimizer (TorchOptimizer [{["lr" := SFloat 0.5%float]}] 1%nat 1%positive)
           with_model,
         set_params (<[1%positive := ParamState [Some 9; Some (-3)] [Some 1; Some (-1)]]>)
           training))).
Proof.
  split.
  - apply (proj1 (clip_grad_and_step_spec with_model exploded 3 5)
             1%positive (ParamState [Some 10; Some (-4)] [Some 3; None])
             (Exn "RuntimeError" "non-finite norm") [Some 3; None]);
      reflexivity.
  - apply (proj2 (proj2 (clip_grad_and_step_spec with_model training 3 5))
             1%positive (ParamState [Some 10; Some (-4)] [Some 3; Some (-7)])
             [Some 1; Some (-1)]);
      reflexivity.
Defined.

(** C2, amended, on the three shapes and on a float with one scheduler
    key. *)
Lemma Optimizer_init_modes_witness :
  __init__ 1%positive cfg_constant (Some "ADAM") world0
  = (Return (MkOptimizer (VScalar (SFloat 0.5%float)) adam_on_1 "constant" None None), world0)
  ∧ __init__ 1%positive cfg_scheduler None world0
    = (Return (MkOptimizer (VScalar (SFloat 0.5%float)) adam_on_1 "scheduler"
                 (Some 0%nat) None), world0)
  ∧ __init__ 1%positive cfg_custom (Some "Adam") world0
    = (Return (MkOptimizer (VDict schedule) adam_on_1 "custom_scheduler" None None), world0)
  ∧ __init__ 1%positive cfg_half None world0 = (Raise invalid_learning_rate, world0).
Proof.
  split; [|split; [|split]].
  - apply (proj1 (Optimizer_init_modes 1%positive cfg_constant (Some "ADAM") world0 eq_refl));
      reflexivity.
  - destruct (proj1 (proj2 (Optimizer_init_modes 1%positive cfg_scheduler None world0 I))
                eq_refl) as (step_size & gamma & _ & _ & Hinit).
    apply (Hinit adam_on_1 0%nat adam_on_1); reflexivity.
  - destruct (proj1 (proj2 (proj2
                (Optimizer_init_modes 1%positive cfg_custom (Some "Adam") world0 eq_refl)))
                eq_refl) as (lr & Hlr & Hinit).
    vm_compute in Hlr. injection Hlr as <-.
    apply (Hinit adam_on_1). reflexivity.
  - apply (proj1 (proj2 (proj2 (proj2
             (Optimizer_init_modes 1%positive cfg_half None world0 I)))));
      reflexivity.
Defined.

(** The claim C2 at the name "sgd": the configuration has the first shape
    and Adam would accept it, yet no object is returned. *)
Lemma Optimizer_init_modes_counterexample :
  shape_constant cfg_constant = true
  ∧ (∃ o, Adam (parameters 1%positive) (dict_get cfg_constant "learning_rate") = Return o)
  ∧ __init__ 1%positive cfg_constant (Some "sgd") world0
    = (Raise (UnboundLocalError "optimizer_class"), world0).
Proof. split; [reflexivity|]. split; [by eexists|reflexivity]. Qed.

(** C8, amended, on the name "sgd". *)
Lemma Optimizer_init_other_name_witness :
  __init__ 1%positive cfg_custom (Some "sgd") world0
  = (Raise (UnboundLocalError "optimizer_class"), world0)
  ∧ __init__ 1%positive cfg_half (Some "sgd") world0
    = (Raise invalid_learning_rate, world0).
Proof.
  assert (lower "sgd" ≠ "adam") as Hname by (vm_compute; discriminate).
  split.
  - apply (proj1 (Optimizer_init_other_name 1%positive cfg_custom "sgd" world0 Hname)).
    reflexivity.
  - apply (proj2 (Optimizer_init_other_name 1%positive cfg_half "sgd" world0 Hname)).
    reflexivity.
Defined.

(** The claim C8 at a configuration that has none of the three shapes: the
    name is not "adam", and the constructor raises the [ValueError], not an
    [UnboundLocalError]. *)
Lemma Optimizer_init_other_name_counterexample :
  lower "sgd" ≠ "adam"
  ∧ __init__ 1%positive cfg_half (Some "sgd") world0
    = (Raise (ValueError
                "Please indicate a valid type of learning rate in the configuration."),
       world0)
  ∧ (__init__ 1%positive cfg_half (Some "sgd") world0).1
    ≠ Raise (UnboundLocalError "optimizer_class").
Proof. split; [vm_compute; discriminate|]. split; [reflexivity|vm_compute; discriminate]. Qed.

(** C5 in each of the three modes. *)
Lemma update_optimizer_lr_modes_witness :
  update_optimizer_lr 4 (with_model, training) = (Return tt, (with_model, training))
  ∧ update_optimizer_lr 4 (stepping, world0)
    = (Return tt, (set_scheduler 1%nat (set_optimizer adam_on_1 stepping), world0))
  ∧ ∃ lr, _find_learning_rate (learning_rate scheduled) 15 = Return lr
      ∧ update_optimizer_lr 15 (scheduled, world0) = (Return tt, (with_lr lr scheduled, world0)).
Proof.
  assert (valid_optimizer with_model) as Hconstant by (split; intros [=]).
  assert (valid_optimizer stepping) as Hstepping by (split; [by eexists|intros [=]]).
  assert (valid_optimizer scheduled) as Hscheduled by (split; [intros [=]|by eexists]).
  split; [|split].
  - apply (proj1 (update_optimizer_lr_modes with_model training 4 Hconstant)). reflexivity.
  - destruct (proj1 (proj2 (update_optimizer_lr_modes stepping world0 4 Hstepping)) eq_refl)
      as (s & Hs & Hstep).
    injection Hs as <-. apply Hstep. reflexivity.
  - destruct (proj2 (proj2 (update_optimizer_lr_modes scheduled world0 15 Hscheduled)) eq_refl)
      as (lr & Hlr & Hupdate & _).
    exists lr. by split.
Defined.

(** C9 at an epoch below every key of the schedule. *)
Lemma find_learning_rate_greatest_key_witness :
  update_optimizer_lr 0 (scheduled, world0) = (Return tt, (with_lr SNone scheduled, world0)).
Proof.
  destruct (find_learning_rate_greatest_key schedule 0 scheduled world0 eq_refl eq_refl)
    as (lr & _ & _ & Hbelow).
  apply Hbelow. intros k [v Hk]. unfold schedule in Hk.
  apply lookup_insert_Some in Hk as [[<- _]|[_ Hk]]; [lia|].
  apply lookup_insert_Some in Hk as [[<- _]|[_ Hk]]; [lia|].
  apply lookup_singleton_Some in Hk as [<- _]. lia.
Defined.

(** C10 on a sample with two tensors, a basin and a date. *)
Lemma upload_to_device_in_place_witness :
  upload_to_device 7%positive "cuda:0" with_sample
  = (Return 7%positive,
     set_dicts (<[7%positive := [("x_d", "dynamic@cuda:0"); ("basin", "DE110000");
                                 ("date", "2000-01-01"); ("y_obs", "target@cuda:0")]]>)
       with_sample).
Proof.
  apply (upload_to_device_in_place 7%positive "cuda:0" with_sample sample_entries).
  - reflexivity.
  - apply (bool_decide_unpack (NoDup sample_entries.*1)). vm_compute. exact I.
  - repeat constructor.
Defined.

(** C4 on a catchment with a CARAVAN file and on one without. *)
Lemma read_data_spec_witness :
  _read_data dataset "DE1" with_disk
  = (Return (Table ["2000-01-01"; "2000-01-02"; "2000-01-03"]
               ["discharge_vol"; "precipitation"; "precipitation_caravan"; "pet"]
               [("2000-01-01", "discharge_vol", "1.5");
                ("2000-01-02", "precipitation", "0.0");
                ("2000-01-02", "precipitation_caravan", "0.1");
                ("2000-01-03", "pet", "2.0")]), with_disk)
  ∧ _read_data dataset "DE2" with_disk = (Return camelsde_ts_DE1, with_disk).
Proof.
  split.
  - apply (proj1 (read_data_spec (Pd:=pandas) dataset "DE1" with_disk camelsde_ts_DE1 eq_refl) eq_refl
             caravan_ts_DE1).
    reflexivity.
  - apply (proj2 (read_data_spec (Pd:=pandas) dataset "DE2" with_disk camelsde_ts_DE1 eq_refl)).
    reflexivity.
Defined.

(** [_read_attributes] on the two attribute tables on disk, whose ids are
    free of "camelsde_". *)
Lemma read_attributes_spec_witness :
  _read_attributes dataset with_disk
  = (Return (Table ["DE1"] ["area"; "p_mean"]
               [("DE1", "area", "10.5"); ("DE1", "p_mean", "2.5")]), with_disk)
  ∧ replace (_map_gauge_id "DE1") "camelsde_" "" = "DE1".
Proof.
  destruct (read_attributes_spec (Pd:=pandas) dataset with_disk camelsde_topo caravan_clim
              (Table ["DE1"; "DE2"] ["area"; "p_mean"]
                 [("DE1", "area", "10.4"); ("DE1", "p_mean", "2.5"); ("DE2", "p_mean", "3.0")])
              (Table ["DE1"; "DE2"] ["area"; "elev"; "area_caravan"; "p_mean"]
                 [("DE1", "area", "10.5"); ("DE1", "elev", "340"); ("DE2", "area", "7.25");
                  ("DE1", "area_caravan", "10.4"); ("DE1", "p_mean", "2.5");
                  ("DE2", "p_mean", "3.0")])
              eq_refl eq_refl eq_refl eq_refl) as [Hread Hlabel].
  split.
  - exact Hread.
  - apply Hlabel. reflexivity.
Defined.

(** The CARAVAN label of the CAMELS-DE id "camelsde_1": stripping the
    prefix gives that id back, the code's [str.replace] gives "1". *)
Lemma read_attributes_spec_counterexample :
  strip_prefix "camelsde_" (_map_gauge_id "camelsde_1") = "camelsde_1"
  ∧ replace (_map_gauge_id "camelsde_1") "camelsde_" "" = "1"
  ∧ renamed_index (Table [_map_gauge_id "camelsde_1"] ["area"] []) = ["1"]
  ∧ renamed_index (Table [_map_gauge_id "camelsde_1"] ["area"] [])
    ≠ [strip_prefix "camelsde_" (_map_gauge_id "camelsde_1")].
Proof. repeat split; [reflexivity..|vm_compute; discriminate]. Qed.

(** C3: [_read_attributes] on a catchment whose CAMELS-DE id is
    "camelsde_1", listed by CARAVAN as "camelsde_camelsde_1".  The code
    relabels the CARAVAN row "1", not "camelsde_1", so the row that is
    returned for the catchment has no CARAVAN attribute; with the prefix
    stripped, as the claim says, the row has its "p_mean". *)
Theorem read_attributes_nested_prefix :
  _map_gauge_id "camelsde_1" = "camelsde_camelsde_1"
  ∧ (read_camelsde_attributes More.dataset_nested More.with_nested).1
    = Return More.camelsde_nested
  ∧ (read_caravan_attributes More.dataset_nested More.with_nested).1
    = Return More.caravan_nested
  ∧ renamed_index More.caravan_nested = ["1"]
  ∧ strip_prefix "camelsde_" <$> df_index More.caravan_nested = ["camelsde_1"]
  ∧ _read_attributes More.dataset_nested More.with_nested
    = (Return (Table ["camelsde_1"] ["area"; "p_mean"] [("camelsde_1", "area", "10.5")]),
       More.with_nested)
  ∧ merge_stripping_prefix More.dataset_nested More.camelsde_nested More.caravan_nested
    = Return (Table ["camelsde_1"] ["area"; "p_mean"]
                [("camelsde_1", "area", "10.5"); ("camelsde_1", "p_mean", "2.5")]).
Proof. repeat split; vm_compute; reflexivity. Qed.

(** C6, amended: a frame and the seeding run. *)
Lemma only_set_random_seed_seeds_witness :
  w_rng (upload_to_device 7%positive "cuda:0" with_sample).2 = w_rng with_sample
  ∧ set_random_seed (Some 42) world0
    = (Return tt, set_rng (λ _, RngState 42 42 42 42) world0).
Proof.
  split.
  - apply (proj1 (proj2 (proj2 (proj2 (proj2 only_set_random_seed_seeds))))).
  - apply (proj1 (proj2 (proj2 (proj2 (proj2 (proj2 (proj2 (proj2 (proj2
             only_set_random_seed_seeds))))))))); reflexivity.
Defined.

(** The claim C6 at [upload_to_device]: the dict that the caller holds at
    reference 7 is not what it was, and the parameters that the caller's
    module holds are not what they were after [clip_grad_and_step]. *)
Lemma only_set_random_seed_seeds_counterexample :
  w_dicts (upload_to_device 7%positive "cuda:0" with_sample).2 !! 7%positive
  ≠ w_dicts with_sample !! 7%positive
  ∧ w_params (clip_grad_and_step 3 5 (with_model, training)).2.2 !! 1%positive
    ≠ w_params training !! 1%positive.
Proof. split; vm_compute; discriminate. Qed.

(** C7 at some of the failure points: numpy refuses the seed; [int]
    refuses what numpy drew; the report path is a directory; the CAMELS-DE
    folder holds no attribute file, so [pd.concat] has nothing to
    concatenate, and [_read_attributes] raises what its first block
    raised; the folder's name is too long for the operating system; and
    [is_dir] fails on an entry of the CARAVAN attributes. *)
Lemma errors_propagate_witness :
  raises (set_random_seed (Some (-1))) world0
    (ValueError "Seed must be between 0 and 2**32 - 1")
  ∧ raises (set_random_seed None) Mixed.with_nan
      (ValueError "cannot convert float NaN to integer")
  ∧ raises (write_report "reports" "done") with_disk (Exn "IsADirectoryError" "reports")
  ∧ raises (read_camelsde_attributes More.nowhere) with_disk
      (ValueError "No objects to concatenate")
  ∧ raises (_read_attributes More.nowhere) with_disk
      (ValueError "No objects to concatenate")
  ∧ raises (read_camelsde_attributes More.unreachable) with_disk name_too_long
  ∧ raises (read_caravan_attributes dataset) More.with_long name_too_long.
Proof.
  destruct (errors_propagate (Tc := torch) (Rn := random) (Os := os) (Pd := pandas)) as
    (P1 & P2 & P3 & P4 & P5 & P6 & P7 & P8 & P9 & Hopen & P11 & P12 & P13 & P14 & P15 &
     P16 & P17 & Hnumpy & P19 & P20 & P21 & P22 & P23 & P24 & P25 & P26 & P27 &
     P28 & P29 & P30 & Hglob & P32 & Hconcat & P34 & P35 & Hdir & P37 & P38 & P39 &
     Hdirs & P41 & P42 & P43 & Hfirst & P45 & P46 & P47 & P48).
  destruct (errors_propagate (Tc := torch) (Rn := Mixed.random) (Os := os) (Pd := pandas)) as
    (Q1 & Q2 & Q3 & Q4 & Q5 & Q6 & Q7 & Q8 & Q9 & Q10 & Q11 & Q12 & Q13 & Q14 & Hint &
     Q16 & Q17 & Q18 & Q19 & Q20 & Q21 & Q22 & Q23 & Q24 & Q25 & Q26 & Q27 & Q28 &
     Q29 & Q30 & Q31 & Q32 & Q33 & Q34 & Q35 & Q36 & Q37 & Q38 & Q39 & Q40 & Q41 &
     Q42 & Q43 & Q44 & Q45 & Q46 & Q47 & Q48).
  repeat apply conj.
  - apply (Hnumpy (-1) world0 (-1) (ValueError "Seed must be between 0 and 2**32 - 1") 0);
      reflexivity.
  - apply (Hint Mixed.with_nan PrimFloat.nan 1); reflexivity.
  - apply (Hopen "reports" "done" with_disk (Exn "IsADirectoryError" "reports") disk).
    reflexivity.
  - apply (Hconcat More.nowhere with_disk [] []); reflexivity.
  - apply Hfirst. apply (Hconcat More.nowhere with_disk [] []); reflexivity.
  - apply Hglob. reflexivity.
  - apply Hdirs.
    apply (Hdir dataset More.with_long [] ["caravan"; "attributes"; More.long_name] []).
    + reflexivity.
    + by intros x ?%elem_of_nil.
    + reflexivity.
Defined.

(** The small instance satisfies what is taken from the pandas
    documentation. *)
Lemma tiny_pandas_laws : PandasLaws (Pd := pandas).
Proof.
  split.
  - intros l r lsuffix rsuffix j [= <-] i. cbn.
    rewrite elem_of_app, (list_elem_of_In (List.filter _ _) i), filter_In,
      <- list_elem_of_In. split.
    + intros [?|[? _]]; auto.
    + intros [?|Hr]; [by left|].
      destruct (decide (i ∈ t_index l)) as [?|Hl]; [by left|right].
      split; [done|]. by rewrite bool_decide_eq_false_2.
  - intros l r how lsuffix rsuffix j. cbn. unfold join.
    case_bool_decide; [|done]. by intros [= <-].
  - intros t labels r. cbn. unfold relabel. case_bool_decide; [|done]. by intros [= <-].
  - intros t rows cols r. cbn. unfold loc_rows_cols. destruct cols as [cols|]; [|done].
    destruct (forallb _ rows) eqn:Hrows; [|done]. destruct (forallb _ cols); [|done].
    cbn. intros [= <-]. split; [|done].
    intros i Hi. rewrite forallb_forall in Hrows.
    apply list_elem_of_In, Hrows in Hi. by apply bool_decide_eq_true in Hi.
Qed.

(** ** The further properties on concrete inputs *)

Lemma schedule_keys (k : Z) : is_Some (schedule !! k) → k = 1 ∨ k = 10 ∨ k = 20.
Proof.
  intros [v Hk]. unfold schedule in Hk.
  apply lookup_insert_Some in Hk as [[<- _]|[_ Hk]]; [auto|].
  apply lookup_insert_Some in Hk as [[<- _]|[_ Hk]]; [auto|].
  apply lookup_singleton_Some in Hk as [<- _]. auto.
Qed.

Lemma late_schedule_keys (k : Z) : is_Some (More.late_schedule !! k) → 1 < k.
Proof.
  intros [v Hk]. unfold More.late_schedule in Hk.
  apply lookup_insert_Some in Hk as [[<- _]|[_ Hk]]; [lia|].
  apply lookup_singleton_Some in Hk as [<- _]. lia.
Qed.

Lemma scheduled_valid : valid_optimizer scheduled.
Proof. split; [intros [=]|by eexists]. Qed.

(** X1 on an object in "custom_scheduler" mode and a loop of four calls:
    the parameters are never updated. *)
Lemma built_optimizer_never_steps_witness :
  model (invoke_all [Update 1; ClipStep 1 0; Update 10; ClipStep 10 3]
           (scheduled, training)).1 = None
  ∧ w_params (invoke_all [Update 1; ClipStep 1 0; Update 10; ClipStep 10 3]
                (scheduled, training)).2 = w_params training
  ∧ w_stdout (invoke_all [Update 1; ClipStep 1 0; Update 10; ClipStep 10 3]
                (scheduled, training)).2
    = (w_stdout training
       ++ flat_map skipped_lines [Update 1; ClipStep 1 0; Update 10; ClipStep 10 3])%list.
Proof.
  apply (built_optimizer_never_steps 1%positive cfg_custom None world0 training scheduled
           [Update 1; ClipStep 1 0; Update 10; ClipStep 10 3]).
  reflexivity.
Defined.

(** X2 on the object built from the configuration with both scheduler
    keys. *)
Lemma init_establishes_witness :
  world0 = world0
  ∧ model stepping = None
  ∧ learning_rate stepping = dict_get cfg_scheduler "learning_rate"
  ∧ learning_rate_type stepping ∈ ["constant"; "scheduler"; "custom_scheduler"]
  ∧ (is_Some (scheduler stepping) ↔ learning_rate_type stepping = "scheduler")
  ∧ ((∃ d, learning_rate stepping = VDict d)
     ↔ learning_rate_type stepping = "custom_scheduler")
  ∧ names_adam None.
Proof.
  apply (init_establishes 1%positive cfg_scheduler None world0 world0 stepping).
  reflexivity.
Defined.

(** X3 on the names "aDaM" and "Adam". *)
Lemma init_name_case_insensitive_witness :
  __init__ 1%positive cfg_scheduler (Some "aDaM") world0
  = __init__ 1%positive cfg_scheduler (Some "Adam") world0
  ∧ __init__ 1%positive cfg_scheduler (Some "aDaM") world0
    = __init__ 1%positive cfg_scheduler None world0.
Proof.
  split.
  - apply (proj1 (init_name_case_insensitive 1%positive cfg_scheduler "aDaM" "Adam" world0)).
    reflexivity.
  - apply (proj2 (init_name_case_insensitive 1%positive cfg_scheduler "aDaM" "Adam" world0)).
    reflexivity.
Defined.

(** X4 on the learning rate 1, an [int], with both scheduler keys. *)
Lemma init_rejects_other_types_witness :
  __init__ 1%positive More.cfg_int None world0 = (Raise invalid_learning_rate, world0).
Proof.
  apply (init_rejects_other_types 1%positive More.cfg_int None world0).
  - intros f Hf. vm_compute in Hf. discriminate Hf.
  - intros d Hd. vm_compute in Hd. discriminate Hd.
Defined.

(** X5 on a schedule that starts at epoch 5: Adam is built with
    [lr=None], which this instance of torch refuses. *)
Lemma init_late_schedule_witness :
  __init__ 1%positive More.cfg_late None world0 = (Raise (Exn "TypeError" "lr"), world0).
Proof.
  apply (init_late_schedule 1%positive More.cfg_late None world0 More.late_schedule I eq_refl).
  apply late_schedule_keys.
Defined.

(** X6 on two epochs between the keys 10 and 20. *)
Lemma find_learning_rate_between_keys_witness :
  _find_learning_rate (VDict schedule) 12 = _find_learning_rate (VDict schedule) 19.
Proof.
  apply (find_learning_rate_between_keys schedule 12 19).
  intros k [->|[->| ->]]%schedule_keys; lia.
Defined.

(** X7 at the key 10. *)
Lemma find_learning_rate_at_key_witness :
  _find_learning_rate (VDict schedule) 10 = Return (SFloat 0.25%float).
Proof. apply (find_learning_rate_at_key schedule 10 (SFloat 0.25%float)). reflexivity. Defined.

(** X9: the rate of epoch 20 after the rate of epoch 10 has been set. *)
Lemma update_optimizer_lr_last_wins_witness :
  update_optimizer_lr 20 (with_lr (SFloat 0.25%float) scheduled, training)
  = update_optimizer_lr 20 (scheduled, training).
Proof.
  apply (update_optimizer_lr_last_wins scheduled training 10 20
           (with_lr (SFloat 0.25%float) scheduled, training)).
  - intros [=].
  - reflexivity.
Defined.

(** X10 on the custom schedule, at an epoch below every key. *)
Lemma update_optimizer_lr_returns_witness :
  (update_optimizer_lr 0 (scheduled, training)).1 = Return tt.
Proof.
  apply (update_optimizer_lr_returns scheduled training 0 scheduled_valid). intros [=].
Defined.

(** X13 on a sample with a frequency tag: "x_d" has been moved when the
    tag raises, "y_obs" has not. *)
Lemma upload_to_device_partial_witness :
  upload_to_device (Tc := Mixed.torch) 7%positive "cuda:0" Mixed.with_sample
  = (Raise (AttributeError "'str' object has no attribute 'to'"),
     set_dicts (<[7%positive := [("x_d", Mixed.TensorObj "dynamic@cuda:0");
                                 ("basin", Mixed.StrObj "DE110000");
                                 ("freq", Mixed.StrObj "1D");
                                 ("y_obs", Mixed.TensorObj "target")]]>)
       Mixed.with_sample).
Proof.
  apply (upload_to_device_partial (Tc := Mixed.torch) 7%positive "cuda:0" Mixed.with_sample
           [("x_d", Mixed.TensorObj "dynamic"); ("basin", Mixed.StrObj "DE110000")]
           [("x_d", Mixed.TensorObj "dynamic@cuda:0"); ("basin", Mixed.StrObj "DE110000")]
           [("y_obs", Mixed.TensorObj "target")] "freq" (Mixed.StrObj "1D")).
  - reflexivity.
  - apply (bool_decide_unpack (NoDup Mixed.sample_entries.*1)). vm_compute. exact I.
  - repeat constructor.
  - reflexivity.
  - reflexivity.
Defined.

(** X14 on the seed -1, which numpy refuses. *)
Lemma set_random_seed_partial_witness :
  set_random_seed (Some (-1)) world0
  = (Raise (ValueError "Seed must be between 0 and 2**32 - 1"),
     set_rng (λ s, RngState (-1) 0 (torch_gen s) (cuda_gen s)) world0).
Proof.
  apply (set_random_seed_partial (-1) world0 (-1) 0
           (ValueError "Seed must be between 0 and 2**32 - 1"));
    reflexivity.
Defined.

Lemma tiny_os_laws : OSLaws (Os := os).
Proof.
  split.
  - intros path files files'. cbn. unfold fs. case_bool_decide; [done|]. intros [= <-].
    apply bool_decide_eq_true. by rewrite lookup_insert_eq.
  - intros path mode files f files'. cbn. unfold fs.
    destruct (_ !! _) as [[| |]|] eqn:Hpath; [done|..];
      intros Hopen; apply bool_decide_eq_true;
      try destruct (bool_decide (mode = "w")); injection Hopen as <- <-;
      rewrite ?lookup_insert_eq, ?Hpath; by eexists.
  - intros f text files r files' path. cbn. unfold append_text, fs.
    destruct (_ !! _) as [[| |]|]; intros [= <- <-]; try done.
    rewrite !bool_decide_eq_true. intros Hpath.
    apply lookup_insert_is_Some'. by right.
  - intros f files r files' path. cbn. by intros [= <- <-].
Qed.

(** X16 on a folder that is not there at first. *)
Lemma create_folder_twice_witness :
  create_folder "results" (create_folder "results" with_disk).2
  = (Return tt,
     printed ["Folder '" +:+ "results" +:+ "' already exists."]
       (create_folder "results" with_disk).2).
Proof.
  apply (create_folder_twice (Laws := tiny_os_laws) "results" with_disk). reflexivity.
Defined.

(** X17 on a report that is not there at first. *)
Lemma write_report_twice_witness :
  write_report "report.txt" "epoch 2" (write_report "report.txt" "epoch 1" with_disk).2
  = append_report "report.txt" "epoch 2" (write_report "report.txt" "epoch 1" with_disk).2.
Proof.
  apply (write_report_twice (Laws := tiny_os_laws) "report.txt" "epoch 1" "epoch 2" with_disk).
  reflexivity.
Defined.

(** After the two calls the report holds both lines. *)
Example write_report_two_lines :
  w_fs (write_report "report.txt" "epoch 2"
          (write_report "report.txt" "epoch 1" with_disk).2).2 !! ["report.txt"]
  = Some (TextFile ("epoch 1" +:+ newline +:+ "epoch 2" +:+ newline)).
Proof. reflexivity. Qed.

Lemma tiny_random_laws : RandomLaws (Rn := random).
Proof.
  split; cbn.
  - by intros seed g g' g1 [= <-].
  - intros seed g g' g1. destruct (_ && _); [|done]. by intros [= <-].
  - by intros seed g g' g1 [= <-].
  - by intros seed g g' g1 [= <-].
Qed.

(** X18 on the seed 42, from a fresh world and from one whose generators
    have been used. *)
Lemma set_random_seed_reproducible_witness :
  ∃ w1', set_random_seed (Some 42) More.used = (Return tt, w1')
         ∧ w_rng w1' = @RngState random 42 42 42 42.
Proof.
  apply (set_random_seed_reproducible (Laws := tiny_random_laws) 42 world0
           (set_rng (λ _, @RngState random 42 42 42 42) world0) More.used).
  reflexivity.
Defined.

(** X19 on the catchment "DE1", which has a file in both datasets. *)
Lemma read_data_aligned_witness :
  (∀ date, date ∈ ["2000-01-01"; "2000-01-02"; "2000-01-03"]
           ↔ date ∈ t_index camelsde_ts_DE1 ∨ date ∈ t_index caravan_ts_DE1)
  ∧ ["discharge_vol"; "precipitation"; "precipitation_caravan"; "pet"]
    = (t_columns camelsde_ts_DE1
       ++ (suffixed (t_columns camelsde_ts_DE1) "_caravan" <$> t_columns caravan_ts_DE1))%list.
Proof.
  exact (read_data_aligned (Laws := tiny_pandas_laws) dataset "DE1" with_disk
           camelsde_ts_DE1 caravan_ts_DE1
           (Table ["2000-01-01"; "2000-01-02"; "2000-01-03"]
              ["discharge_vol"; "precipitation"; "precipitation_caravan"; "pet"]
              [("2000-01-01", "discharge_vol", "1.5");
               ("2000-01-02", "precipitation", "0.0");
               ("2000-01-02", "precipitation_caravan", "0.1");
               ("2000-01-03", "pet", "2.0")])
           eq_refl eq_refl eq_refl eq_refl).
Defined.

(** X20 on the two attribute tables on disk: the merged table has the row
    of "DE1", which CARAVAN lists as "camelsde_DE1". *)
Lemma read_attributes_aligned_witness :
  (∀ gauge_id, contains "camelsde_" gauge_id = false →
     _map_gauge_id gauge_id ∈ t_index caravan_clim →
     gauge_id ∈ ["DE1"; "DE2"])
  ∧ (∀ gauge_id, gauge_id ∈ t_index camelsde_topo → gauge_id ∈ ["DE1"; "DE2"])
  ∧ (∀ gauge_id, gauge_id ∈ entities_ids dataset → gauge_id ∈ ["DE1"; "DE2"])
  ∧ (∀ gauge_id, gauge_id ∈ ["DE1"] ↔ gauge_id ∈ entities_ids dataset).
Proof.
  exact (read_attributes_aligned (Laws := tiny_pandas_laws) dataset with_disk
           camelsde_topo caravan_clim
           (Table ["DE1"; "DE2"] ["area"; "p_mean"]
              [("DE1", "area", "10.4"); ("DE1", "p_mean", "2.5"); ("DE2", "p_mean", "3.0")])
           (Table ["DE1"; "DE2"] ["area"; "elev"; "area_caravan"; "p_mean"]
              [("DE1", "area", "10.5"); ("DE1", "elev", "340"); ("DE2", "area", "7.25");
               ("DE1", "area_caravan", "10.4"); ("DE1", "p_mean", "2.5");
               ("DE2", "p_mean", "3.0")])
           (Table ["DE1"] ["area"; "p_mean"]
              [("DE1", "area", "10.5"); ("DE1", "p_mean", "2.5")])
           eq_refl eq_refl eq_refl eq_refl eq_refl).
Defined.

(** X22 on a table with a row of the US dataset and a row of CAMELS-DE. *)
Lemma renamed_index_stands_for_witness :
  renamed_index (Pd := pandas) More.caravan_two = ["camels_01013500"; "DE1"].
Proof.
  apply (renamed_index_stands_for (Pd := pandas) More.caravan_two ["camels_01013500"; "DE1"]).
  constructor; [split; [reflexivity|by left]|].
  constructor; [split; [reflexivity|by right]|].
  constructor.
Defined.
